(** * A shallow embedding of the sales-performance backend

    The development follows the layout of the repository:

    - [JS]                 the JavaScript values the code computes with
                           (IEEE-754 binary64 numbers, [Math.round], strings);
    - [Platform]           the third-party functions the code calls
                           (express-validator, bcryptjs, jsonwebtoken, the
                           ObjectId cast of mongoose), kept abstract;
    - [UserModel]          models/User.js;
    - [PerformanceModel]   models/Performance.js;
    - [Middleware]         middleware/authMiddleware.js;
    - [AuthRoutes]         routes/auth.js: [POST /register], [POST /login];
    - [PerformanceRoutes]  routes/performance.js: [POST /], [GET /:id],
                           [DELETE /:id], [GET /stats/summary], the gate of
                           [GET /all];
    - [AccountRoutes]      routes/auth.js: [GET /me], [PUT /profile],
                           [PUT /change-password], [POST /logout];
    - [PerformanceLists]   routes/performance.js: [GET /], [GET /all];
    - [PerformanceVirtuals] models/Performance.js: [periodeFormatee];
    - [Server]             server.js: the origin check of CORS.

    A collection is the list of its documents in insertion order; a handler is
    a function from the request and the collections to the response and the
    new collections, and requests are served one after the other.
    [new Date()] and the ObjectId of a created document are inputs of the
    handler that needs them.  A failure of the database itself is not
    modelled.  A string is the bytes of its UTF-8 encoding; its length and
    its first character are those of JavaScript, in UTF-16 code units. *)

From Stdlib Require Import ZArith List String Ascii Bool Lia.
From Stdlib Require Import Floats.SpecFloat.
From Stdlib Require Import DecimalString Sorting.Permutation Sorting.Sorted.
Import ListNotations.
Local Open Scope string_scope.
Local Open Scope Z_scope.

(* ===================================================================== *)
(** ** JavaScript values *)
(* ===================================================================== *)

Module JS.

(** A JS [Number] is an IEEE-754 binary64 value. *)
Definition number := spec_float.
Definition prec : Z := 53.
Definition emax : Z := 1024.

(** The Number nearest to an integer (exact below 2^53). *)
Definition of_Z (z : Z) : number := binary_normalize prec emax z 0 false.

Definition add : number -> number -> number := SFadd prec emax.
Definition mul : number -> number -> number := SFmul prec emax.
Definition div : number -> number -> number := SFdiv prec emax.

(** [x < y], [x <= y], [x > y] and [x === y] on Numbers. *)
Definition lt (x y : number) : bool := SFltb x y.
Definition le (x y : number) : bool := SFleb x y.
Definition gt (x y : number) : bool := SFltb y x.
Definition strict_eq (x y : number) : bool := SFeqb x y.

Definition is_finite (x : number) : bool :=
  match x with
  | S754_zero _ | S754_finite _ _ _ => true
  | _ => false
  end.

(** [floor (v + 1/2)] for the finite value [v = (-1)^s * m * 2^e]. *)
Definition round_half_up (s : bool) (m : positive) (e : Z) : Z :=
  let v := if s then Zneg m else Zpos m in
  if 0 <=? e then v * 2 ^ e
  else (2 * v + 2 ^ (- e)) / 2 ^ (1 - e).

(** [Math.round]: the integral Number closest to [x], ties towards
    +infinity; NaN, the infinities and the zeros are returned unchanged and
    a zero result keeps the sign of [x]. *)
Definition Math_round (x : number) : number :=
  match x with
  | S754_finite s m e =>
      let k := round_half_up s m e in
      if k =? 0 then S754_zero s else of_Z k
  | _ => x
  end.

(** The integer a Number is, when it is one. *)
Definition to_Z (x : number) : option Z :=
  match x with
  | S754_zero _ => Some 0
  | S754_finite s m e =>
      let v := if s then Zneg m else Zpos m in
      if 0 <=? e then Some (v * 2 ^ e)
      else if v mod 2 ^ (- e) =? 0 then Some (v / 2 ^ (- e))
      else None
  | _ => None
  end.

(** *** Strings

    A string is kept as the bytes of its UTF-8 encoding (a surrogate
    without its partner as the three bytes of its code point), so that
    equality, concatenation around ASCII text, [split] at an ASCII
    separator and [startsWith] of an ASCII prefix are those of the bytes.
    The length of a string and its first character are counted in UTF-16
    code units, as JavaScript does. *)

(** The number of code units that start at a byte: one at an ASCII byte
    and at the first byte of a sequence of two or three, two (a surrogate
    pair) at the first byte of a sequence of four, none at a continuation
    byte. *)
Definition units (c : ascii) : nat :=
  let b := N_of_ascii c in
  if (b <? 128)%N then 1%nat
  else if (b <? 192)%N then 0%nat
  else if (b <? 240)%N then 1%nat
  else 2%nat.

(** [s.length]. *)
Fixpoint length (s : string) : nat :=
  match s with
  | EmptyString => 0%nat
  | String c rest => (units c + length rest)%nat
  end.

(** [s.split(sep)] for a one-character separator. *)
Fixpoint split (sep : ascii) (s : string) : list string :=
  match s with
  | EmptyString => [EmptyString]
  | String c rest =>
      if Ascii.eqb c sep then EmptyString :: split sep rest
      else match split sep rest with
           | [] => [String c EmptyString]
           | h :: t => String c h :: t
           end
  end.

(** [s.startsWith(p)]. *)
Definition startsWith (p s : string) : bool := String.prefix p s.

Definition byteAt (n : nat) (s : string) : N :=
  match String.get n s with
  | Some c => N_of_ascii c
  | None => 128%N
  end.

(** The first code unit of a character of four bytes [b0 b1 b2 b3],
    whose code point is above U+FFFF: the high surrogate
    [0xD800 + ((code point - 0x10000) >> 10)], as its three bytes. *)
Definition highSurrogate (b0 b1 b2 : N) : string :=
  let high := (55296 + (N.land b0 7 * 256 + N.land b1 63 * 4 + N.land b2 63 / 16 - 64))%N in
  String (ascii_of_N 237)
         (String (ascii_of_N (128 + N.land (high / 64) 63))
                 (String (ascii_of_N (128 + N.land high 63)) EmptyString)).

(** [s.charAt(0)]: the first code unit, the empty string when [s] is
    empty. *)
Definition charAt0 (s : string) : string :=
  match s with
  | EmptyString => EmptyString
  | String c rest =>
      let b := N_of_ascii c in
      if (b <? 192)%N then String c EmptyString
      else if (b <? 224)%N then String c (String.substring 0 1 rest)
      else if (b <? 240)%N then String c (String.substring 0 2 rest)
      else highSurrogate b (byteAt 0 rest) (byteAt 1 rest)
  end.

(** [xs.includes(x)] on an array of strings. *)
Definition includes (x : string) (xs : list string) : bool :=
  existsb (String.eqb x) xs.

(** What a [throw] carries, as far as the handlers look at it:
    [error.name] and [error.code]. *)
Record Error := mkError { name : string; code : option Z }.

Inductive Result (A : Type) : Type :=
| Ok (a : A)
| Throw (e : Error).
Arguments Ok {A} a.
Arguments Throw {A} e.

End JS.

(* ===================================================================== *)
(** ** Third-party functions *)
(* ===================================================================== *)

(** The outcome of [jwt.verify]: the decoded [id], or the exception. *)
Inductive VerifyResult : Type :=
| Decoded (id : string)
| VerifyThrows (e : JS.Error).

Class Platform : Type := {
  (** express-validator *)
  isEmail : string -> bool;
  normalizeEmail : string -> string;
  trim : string -> string;
  (** [isLength({ min })], on the length validator.js counts *)
  isLength_min : nat -> string -> bool;
  isNumeric : JS.number -> bool;
  (** String.prototype and the [match] pattern of the email path *)
  toUpperCase : string -> string;
  toLowerCase : string -> string;
  emailPattern : string -> bool;
  (** bcryptjs: [hash] with a generated salt, and [compare candidate hash] *)
  bcrypt_hash : string -> string;
  bcrypt_compare : string -> string -> bool;
  (** jsonwebtoken: [sign {id}] and [verify] at a given time; the token
      is [None] when the header has no second word *)
  jwt_sign : string -> string;
  jwt_verify : Z -> option string -> VerifyResult;
  (** whether mongoose casts a string to an ObjectId, and the string
      ([toString()], 24 hexadecimal digits in lower case) of the ObjectId it
      casts to *)
  isObjectId : string -> bool;
  objectIdHex : string -> string;
  (** [Number.parseInt] of a query string, [None] for NaN *)
  parseInt : string -> option Z;
  (** an aggregation pipeline is sent as written, without the casts of the
      schema: whether the string [req.user.id] in a [$match] equals a stored
      ObjectId is decided by the database *)
  pipeline_id_eq : string -> string -> bool;
  (** the [$sum] and [$avg] accumulators of the database on Numbers *)
  db_sum : list JS.number -> JS.number;
  db_avg : list JS.number -> JS.number
}.

(** The same platform with another [bcrypt.compare]. *)
Definition with_compare (P : Platform) (cmp : string -> string -> bool) : Platform :=
  {| isEmail := @isEmail P;
     normalizeEmail := @normalizeEmail P;
     trim := @trim P;
     isLength_min := @isLength_min P;
     isNumeric := @isNumeric P;
     toUpperCase := @toUpperCase P;
     toLowerCase := @toLowerCase P;
     emailPattern := @emailPattern P;
     bcrypt_hash := @bcrypt_hash P;
     bcrypt_compare := cmp;
     jwt_sign := @jwt_sign P;
     jwt_verify := @jwt_verify P;
     isObjectId := @isObjectId P;
     objectIdHex := @objectIdHex P;
     parseInt := @parseInt P;
     pipeline_id_eq := @pipeline_id_eq P;
     db_sum := @db_sum P;
     db_avg := @db_avg P |}.

(* ===================================================================== *)
(** ** models/User.js *)
(* ===================================================================== *)

Module UserModel.

(** A stored user document.  Dates are milliseconds; an ObjectId is its
    hexadecimal string.  The reset-token paths and the [timestamps] are
    never read or written by the routes and are left out. *)
Record User : Type := mkUser {
  _id : string;
  nom : string;
  prenom : string;
  email : string;
  password : string;
  statut : string;
  role : string;
  avatar : option string;
  telephone : option string;
  poste : option string;
  departement : option string;
  dateEmbauche : option Z;
  derniereConnexion : Z;
  tentativesConnexion : Z;
  compteBloque : bool;
  dateBlocage : option Z;
  emailVerifie : bool
}.

Definition set_derniereConnexion (v : Z) (u : User) : User :=
  mkUser (_id u) (nom u) (prenom u) (email u) (password u) (statut u) (role u)
         (avatar u) (telephone u) (poste u) (departement u) (dateEmbauche u)
         v (tentativesConnexion u) (compteBloque u) (dateBlocage u) (emailVerifie u).

Definition set_tentativesConnexion (v : Z) (u : User) : User :=
  mkUser (_id u) (nom u) (prenom u) (email u) (password u) (statut u) (role u)
         (avatar u) (telephone u) (poste u) (departement u) (dateEmbauche u)
         (derniereConnexion u) v (compteBloque u) (dateBlocage u) (emailVerifie u).

Definition set_compteBloque (v : bool) (u : User) : User :=
  mkUser (_id u) (nom u) (prenom u) (email u) (password u) (statut u) (role u)
         (avatar u) (telephone u) (poste u) (departement u) (dateEmbauche u)
         (derniereConnexion u) (tentativesConnexion u) v (dateBlocage u) (emailVerifie u).

Definition set_dateBlocage (v : option Z) (u : User) : User :=
  mkUser (_id u) (nom u) (prenom u) (email u) (password u) (statut u) (role u)
         (avatar u) (telephone u) (poste u) (departement u) (dateEmbauche u)
         (derniereConnexion u) (tentativesConnexion u) (compteBloque u) v (emailVerifie u).

(** The virtuals [nomComplet] and [initiales]. *)
Definition nomComplet (u : User) : string :=
  prenom u ++ " " ++ nom u.

Definition initiales `{Platform} (u : User) : string :=
  toUpperCase (JS.charAt0 (prenom u) ++ JS.charAt0 (nom u)).

(** [comparePassword]: [bcrypt.compare(candidatePassword, this.password)]. *)
Definition comparePassword `{Platform} (u : User) (candidatePassword : string) : bool :=
  bcrypt_compare candidatePassword (password u).

(** [updateLastLogin], before its [save]. *)
Definition updateLastLogin (now : Z) (u : User) : User :=
  set_tentativesConnexion 0 (set_derniereConnexion now u).

(** [incrementLoginAttempts], before its [save]. *)
Definition incrementLoginAttempts (now : Z) (u : User) : User :=
  let u1 := set_tentativesConnexion (tentativesConnexion u + 1) u in
  if 5 <=? tentativesConnexion u1
  then set_dateBlocage (Some now) (set_compteBloque true u1)
  else u1.

(** [unlockAccount], before its [save]. *)
Definition unlockAccount (u : User) : User :=
  set_dateBlocage None (set_tentativesConnexion 0 (set_compteBloque false u)).

(** *** The collection *)

(** [User.findOne({ email })]: the first document with that email. *)
Definition findOne_email (e : string) (users : list User) : option User :=
  find (fun u => String.eqb (email u) e) users.

(** [User.findById(id)]: a string that is no ObjectId makes the cast
    throw.  The routes call it with [decoded.id] and [req.user.id], the
    string [toString()] gave of a stored [_id] when the token was signed
    and when [protect] ran, which casts to the ObjectId it is the string
    of: the comparison is that of the strings. *)
Definition castError : JS.Error := JS.mkError "CastError" None.

Definition findById `{Platform} (id : string) (users : list User)
  : JS.Result (option User) :=
  if isObjectId id
  then JS.Ok (find (fun u => String.eqb (_id u) id) users)
  else JS.Throw castError.

(** [doc.save({ validateBeforeSave: false })] of a loaded document whose
    password is not modified: the stored document with that [_id] is
    replaced. *)
Definition save (u : User) (users : list User) : list User :=
  map (fun v => if String.eqb (_id v) (_id u) then u else v) users.

(** *** [User.create] *)

(** The fields [POST /register] passes to [User.create]; [role] is [None]
    when the body has no [role] ([undefined]). *)
Record Fields : Type := mkFields {
  f_nom : string;
  f_prenom : string;
  f_email : string;
  f_password : string;
  f_telephone : option string;
  f_poste : option string;
  f_departement : option string;
  f_dateEmbauche : Z;
  f_role : option string
}.

(** The document mongoose builds: setters ([trim], [lowercase]) applied,
    defaults filled in for the paths that are [undefined]. *)
Definition build `{Platform} (now : Z) (newId : string) (f : Fields) : User :=
  {| _id := newId;
     nom := trim (f_nom f);
     prenom := trim (f_prenom f);
     email := toLowerCase (f_email f);
     password := f_password f;
     statut := "actif";
     role := match f_role f with Some r => r | None => "utilisateur" end;
     avatar := None;
     telephone := option_map trim (f_telephone f);
     poste := option_map trim (f_poste f);
     departement := option_map trim (f_departement f);
     dateEmbauche := Some (f_dateEmbauche f);
     derniereConnexion := now;
     tentativesConnexion := 0;
     compteBloque := false;
     dateBlocage := None;
     emailVerifie := true |}.

Definition nonEmpty (s : string) : bool := negb (String.eqb s "").

(** The validators of the schema: [required], [maxlength], [match],
    [minlength] (both on [v.length]) and the two [enum]s. *)
Definition validate `{Platform} (u : User) : bool :=
  nonEmpty (nom u) && (JS.length (nom u) <=? 50)%nat
  && nonEmpty (prenom u) && (JS.length (prenom u) <=? 50)%nat
  && nonEmpty (email u) && emailPattern (email u)
  && nonEmpty (password u) && (6 <=? JS.length (password u))%nat
  && JS.includes (statut u) ["actif"; "inactif"]
  && JS.includes (role u) ["admin"; "manager"; "utilisateur"].

Definition validationError : JS.Error := JS.mkError "ValidationError" None.
Definition duplicateKey : JS.Error := JS.mkError "MongoServerError" (Some 11000).

(** [pre("save")]: a modified password is replaced by its hash. *)
Definition preSave `{Platform} (u : User) : User :=
  mkUser (_id u) (nom u) (prenom u) (email u) (bcrypt_hash (password u)) (statut u)
         (role u) (avatar u) (telephone u) (poste u) (departement u) (dateEmbauche u)
         (derniereConnexion u) (tentativesConnexion u) (compteBloque u)
         (dateBlocage u) (emailVerifie u).

(** The insert, with the unique indexes on [_id] and [email]. *)
Definition insert (u : User) (users : list User) : JS.Result (list User) :=
  if existsb (fun v => String.eqb (_id v) (_id u) || String.eqb (email v) (email u)) users
  then JS.Throw duplicateKey
  else JS.Ok (users ++ [u])%list.

Definition create `{Platform} (now : Z) (newId : string) (f : Fields)
           (users : list User) : JS.Result (User * list User) :=
  let u := build now newId f in
  if validate u then
    let u' := preSave u in
    match insert u' users with
    | JS.Ok users' => JS.Ok (u', users')
    | JS.Throw e => JS.Throw e
    end
  else JS.Throw validationError.

End UserModel.

(* ===================================================================== *)
(** ** models/Performance.js *)
(* ===================================================================== *)

Module PerformanceModel.

(** A stored performance document.  The counts that the route only accepts
    as integers are integers; the other [Number] paths are Numbers. *)
Record Performance : Type := mkPerformance {
  _id : string;
  utilisateur : string;
  annee : Z;
  mois : Z;
  chiffreAffaires : JS.number;
  objectifCA : JS.number;
  nouveauxClients : Z;
  rdvRealises : Z;
  rdvPlanifies : JS.number;
  ventesRealisees : Z;
  dossiersMAJ : Z;
  totalDossiers : Z;
  evenements : Z;
  satisfaction : JS.number;
  commentaires : option string;
  statut : string;
  dateValidation : Z
}.

(** [Math.round((a / b) * 100)]. *)
Definition percent (a b : JS.number) : JS.number :=
  JS.Math_round (JS.mul (JS.div a b) (JS.of_Z 100)).

(** The virtuals. *)
Definition tauxTransformation (p : Performance) : JS.number :=
  if rdvRealises p =? 0 then JS.of_Z 0
  else percent (JS.of_Z (ventesRealisees p)) (JS.of_Z (rdvRealises p)).

Definition completudeDossiers (p : Performance) : JS.number :=
  if totalDossiers p =? 0 then JS.of_Z 0
  else percent (JS.of_Z (dossiersMAJ p)) (JS.of_Z (totalDossiers p)).

Definition tauxObjectif (p : Performance) : JS.number :=
  if JS.strict_eq (objectifCA p) (JS.of_Z 0) then JS.of_Z 0
  else percent (chiffreAffaires p) (objectifCA p).

(** [pre("save")]: the two consistency checks; [Some msg] is the error
    given to [next]. *)
Definition preSave (p : Performance) : option string :=
  if ventesRealisees p >? rdvRealises p
  then Some "Le nombre de ventes ne peut pas être supérieur au nombre de RDV"
  else if dossiersMAJ p >? totalDossiers p
  then Some "Le nombre de dossiers mis à jour ne peut pas être supérieur au total"
  else None.

(** The validators of the schema, path by path. *)
Definition valid_annee (y : Z) : bool := (2020 <=? y) && (y <=? 2030).
Definition valid_mois (m : Z) : bool := (1 <=? m) && (m <=? 12).
Definition valid_min0 (x : JS.number) : bool := JS.le (JS.of_Z 0) x.
Definition valid_count (n : Z) : bool := 0 <=? n.
Definition valid_satisfaction (x : JS.number) : bool :=
  JS.le (JS.of_Z 1) x && JS.le x (JS.of_Z 5).
Definition valid_commentaires (c : option string) : bool :=
  match c with
  | Some s => (JS.length s <=? 500)%nat
  | None => true
  end.
Definition valid_statut (s : string) : bool := JS.includes s ["brouillon"; "valide"].

Definition validate (p : Performance) : bool :=
  valid_annee (annee p) && valid_mois (mois p)
  && valid_min0 (chiffreAffaires p) && valid_min0 (objectifCA p)
  && valid_count (nouveauxClients p) && valid_count (rdvRealises p)
  && valid_min0 (rdvPlanifies p) && valid_count (ventesRealisees p)
  && valid_count (dossiersMAJ p) && valid_count (totalDossiers p)
  && valid_count (evenements p) && valid_satisfaction (satisfaction p)
  && valid_commentaires (commentaires p) && valid_statut (statut p).

Definition validationError : JS.Error := JS.mkError "ValidationError" None.
Definition hookError : JS.Error := JS.mkError "Error" None.
Definition castError : JS.Error := JS.mkError "CastError" None.
Definition duplicateKey : JS.Error := JS.mkError "MongoServerError" (Some 11000).

(** The key of the unique compound index. *)
Definition samePeriod (u : string) (y m : Z) (p : Performance) : bool :=
  String.eqb (utilisateur p) u && (annee p =? y) && (mois p =? m).

(** The insert, with the unique indexes on [_id] and on
    (utilisateur, periode.annee, periode.mois). *)
Definition insert (p : Performance) (perfs : list Performance)
  : JS.Result (list Performance) :=
  if existsb (fun q => String.eqb (_id q) (_id p)
                       || samePeriod (utilisateur p) (annee p) (mois p) q) perfs
  then JS.Throw duplicateKey
  else JS.Ok (perfs ++ [p])%list.

(** [doc.save()] of a new document: validation, then the [pre("save")]
    hook, then the insert. *)
Definition saveNew (p : Performance) (perfs : list Performance)
  : JS.Result (list Performance) :=
  if validate p then
    match preSave p with
    | Some _ => JS.Throw hookError
    | None => insert p perfs
    end
  else JS.Throw validationError.

(** [Performance.findById(id)]: [id] is cast to an ObjectId, which throws
    for a string that is none, and the document whose [_id] is that
    ObjectId is looked for. *)
Definition findById `{Platform} (id : string) (perfs : list Performance)
  : JS.Result (option Performance) :=
  if isObjectId id
  then JS.Ok (find (fun p => String.eqb (_id p) (objectIdHex id)) perfs)
  else JS.Throw castError.

(** [Performance.findOne({ utilisateur, "periode.annee", "periode.mois" })],
    for [utilisateur: req.user.id]. *)
Definition findOne_period `{Platform} (u : string) (y m : Z) (perfs : list Performance)
  : JS.Result (option Performance) :=
  if isObjectId u
  then JS.Ok (find (samePeriod u y m) perfs)
  else JS.Throw castError.

(** [Performance.findByIdAndDelete(id)], for an [id] that is cast. *)
Definition findByIdAndDelete `{Platform} (id : string) (perfs : list Performance)
  : list Performance :=
  filter (fun p => negb (String.eqb (_id p) (objectIdHex id))) perfs.

(** The number of stored documents for a key of the compound index. *)
Definition countPeriod (u : string) (y m : Z) (perfs : list Performance) : nat :=
  List.length (filter (samePeriod u y m) perfs).

End PerformanceModel.

(* ===================================================================== *)
(** ** HTTP responses *)
(* ===================================================================== *)

(** The public view of a user that the auth routes return. *)
Record UserView : Type := mkUserView {
  v_id : string;
  v_nom : string;
  v_prenom : string;
  v_email : string;
  v_nomComplet : string;
  v_initiales : string;
  v_derniereConnexion : option Z;
  v_role : string
}.

(** What [populate("utilisateur", "nom prenom email")] puts in a document. *)
Record Owner : Type := mkOwner {
  o_id : string;
  o_nom : string;
  o_prenom : string;
  o_email : string
}.

(** The object [GET /stats/summary] returns. *)
Record Summary : Type := mkSummary {
  totalCA : JS.number;
  totalObjectif : JS.number;
  totalClients : Z;
  totalRDV : Z;
  totalVentes : Z;
  totalEvenements : Z;
  satisfactionMoyenne : JS.number;
  count : Z;
  s_tauxTransformation : JS.number;
  s_tauxObjectif : JS.number
}.

Inductive Data : Type :=
| NoData
| Errors (msgs : list string)
| Auth (token : string) (user : UserView)
| PerformanceData (p : PerformanceModel.Performance) (owner : option Owner)
| Stats (s : Summary).

(** [res.status(status).json({ success, message, ... })]. *)
Record Response : Type := mkResponse {
  status : Z;
  success : bool;
  message : option string;
  data : Data
}.

Definition failure (st : Z) (msg : string) : Response :=
  mkResponse st false (Some msg) NoData.

(** [req.user], as [protect] sets it. *)
Record Identity : Type := mkIdentity {
  id : string;
  i_email : string;
  i_nom : string;
  i_prenom : string
}.

(** A middleware answers, or calls [next()]. *)
Inductive Gate (A : Type) : Type :=
| Reject (r : Response)
| Next (a : A).
Arguments Reject {A} r.
Arguments Next {A} a.

(* ===================================================================== *)
(** ** middleware/authMiddleware.js *)
(* ===================================================================== *)

Module Middleware.
Section WithPlatform.
Context `{Platform}.

(** The [catch] of [protect]. *)
Definition protect_catch (e : JS.Error) : Response :=
  if String.eqb (JS.name e) "JsonWebTokenError" then failure 401 "Token invalide"
  else if String.eqb (JS.name e) "TokenExpiredError" then failure 401 "Token expiré"
  else failure 401 "Accès non autorisé".

(** [protect]: [authorization] is the header, [None] when absent. *)
Definition protect (now : Z) (authorization : option string)
           (users : list UserModel.User) : Gate Identity :=
  match authorization with
  | Some h =>
      if negb (String.eqb h "") && JS.startsWith "Bearer" h then
        let token := nth_error (JS.split " "%char h) 1 in
        match jwt_verify now token with
        | VerifyThrows e => Reject (protect_catch e)
        | Decoded uid =>
            match UserModel.findById uid users with
            | JS.Throw e => Reject (protect_catch e)
            | JS.Ok None =>
                Reject (failure 401 "Token invalide - utilisateur non trouvé")
            | JS.Ok (Some user) =>
                if negb (String.eqb (UserModel.statut user) "actif")
                then Reject (failure 403 "Compte inactif")
                else if UserModel.compteBloque user
                then Reject (failure 423 "Compte bloqué")
                else Next (mkIdentity (UserModel._id user) (UserModel.email user)
                                      (UserModel.nom user) (UserModel.prenom user))
            end
        end
      else Reject (failure 401 "Accès non autorisé - Token manquant")
  | None => Reject (failure 401 "Accès non autorisé - Token manquant")
  end.

(** [authorizeRoles(...roles)], run after [protect] has set [req.user]. *)
Definition authorizeRoles (roles : list string) (user : Identity)
           (users : list UserModel.User) : Gate unit :=
  if String.eqb (id user) "" then Reject (failure 401 "Utilisateur non authentifié")
  else
    match UserModel.findById (id user) users with
    | JS.Throw _ => Reject (failure 500 "Erreur serveur d'autorisation")
    | JS.Ok None => Reject (failure 401 "Utilisateur non trouvé")
    | JS.Ok (Some u) =>
        if negb (JS.includes (UserModel.role u) roles)
        then Reject (failure 403 "Accès interdit : rôle insuffisant")
        else Next tt
    end.

(** A route behind [protect] and [authorizeRoles(...roles)], up to the
    call of its handler. *)
Definition guard (roles : list string) (now : Z) (authorization : option string)
           (users : list UserModel.User) : Gate Identity :=
  match protect now authorization users with
  | Reject r => Reject r
  | Next user =>
      match authorizeRoles roles user users with
      | Reject r => Reject r
      | Next _ => Next user
      end
  end.

End WithPlatform.
End Middleware.

(* ===================================================================== *)
(** ** routes/auth.js *)
(* ===================================================================== *)

Module AuthRoutes.
Section WithPlatform.
Context `{Platform}.

Definition generateToken (uid : string) : string := jwt_sign uid.

(** The body of [POST /register]; a required string that is missing is
    the empty string, which its validator rejects as well. *)
Record RegisterBody : Type := mkRegisterBody {
  nom : string;
  prenom : string;
  email : string;
  password : string;
  telephone : option string;
  poste : option string;
  departement : option string;
  role : option string
}.

Definition check (ok : bool) (msg : string) : list string :=
  if ok then [] else [msg].

(** [validationResult(req).array()] of [POST /register]. *)
Definition register_errors (b : RegisterBody) : list string :=
  (check (isLength_min 2 (trim (nom b)))
         "Le nom doit contenir au moins 2 caractères"
   ++ check (isLength_min 2 (trim (prenom b)))
         "Le prénom doit contenir au moins 2 caractères"
   ++ check (isEmail (email b)) "Email invalide"
   ++ check (isLength_min 6 (password b))
         "Le mot de passe doit contenir au moins 6 caractères")%list.

Definition view (u : UserModel.User) (withLastLogin : bool) : UserView :=
  mkUserView (UserModel._id u) (UserModel.nom u) (UserModel.prenom u)
             (UserModel.email u) (UserModel.nomComplet u) (UserModel.initiales u)
             (if withLastLogin then Some (UserModel.derniereConnexion u) else None)
             (UserModel.role u).

(** [POST /api/auth/register]. *)
Definition register (now : Z) (newId : string) (b : RegisterBody)
           (users : list UserModel.User) : Response * list UserModel.User :=
  match register_errors b with
  | (_ :: _) as errs =>
      (mkResponse 400 false (Some "Données invalides") (Errors errs), users)
  | [] =>
      let email' := normalizeEmail (email b) in
      match UserModel.findOne_email email' users with
      | Some _ => (failure 400 "Un utilisateur avec cet email existe déjà", users)
      | None =>
          let fields :=
            UserModel.mkFields (trim (nom b)) (trim (prenom b)) email' (password b)
                               (telephone b) (poste b) (departement b) now (role b) in
          match UserModel.create now newId fields users with
          | JS.Throw _ => (failure 500 "Erreur serveur lors de l'inscription", users)
          | JS.Ok (user, users') =>
              (mkResponse 201 true (Some "Utilisateur créé avec succès")
                          (Auth (generateToken (UserModel._id user)) (view user false)),
               users')
          end
      end
  end.

(** [validationResult(req).array()] of [POST /login]. *)
Definition login_errors (email password : string) : list string :=
  (check (isEmail email) "Email invalide"
   ++ check (negb (String.eqb password "")) "Mot de passe requis")%list.

(** [POST /api/auth/login]. *)
Definition login (now : Z) (email password : string)
           (users : list UserModel.User) : Response * list UserModel.User :=
  match login_errors email password with
  | (_ :: _) as errs =>
      (mkResponse 400 false (Some "Données invalides") (Errors errs), users)
  | [] =>
      match UserModel.findOne_email (normalizeEmail email) users with
      | None => (failure 401 "Identifiants invalides", users)
      | Some user =>
          if UserModel.compteBloque user
          then (failure 423 "Compte bloqué. Contactez l'administrateur.", users)
          else if negb (String.eqb (UserModel.statut user) "actif")
          then (failure 403 "Compte inactif. Contactez l'administrateur.", users)
          else if negb (UserModel.comparePassword user password)
          then (failure 401 "Identifiants invalides",
                UserModel.save (UserModel.incrementLoginAttempts now user) users)
          else
            let user' := UserModel.updateLastLogin now user in
            (mkResponse 200 true (Some "Connexion réussie")
                        (Auth (generateToken (UserModel._id user')) (view user' true)),
             UserModel.save user' users)
      end
  end.

(** A login request: the time it is served at, and the email and the
    password of its body. *)
Record LoginRequest : Type := mkLogin {
  l_now : Z;
  l_email : string;
  l_password : string
}.

(** Login requests served one after the other: the collection they leave. *)
Fixpoint logins (reqs : list LoginRequest) (users : list UserModel.User)
  : list UserModel.User :=
  match reqs with
  | [] => users
  | r :: rest => logins rest (snd (login (l_now r) (l_email r) (l_password r) users))
  end.

End WithPlatform.
End AuthRoutes.

(* ===================================================================== *)
(** ** routes/performance.js *)
(* ===================================================================== *)

Module PerformanceRoutes.
Section WithPlatform.
Context `{Platform}.

Import PerformanceModel.

(** The body of [POST /], once parsed.  The paths the route validates as
    integers are integers, and a path the schema does not know is dropped
    by mongoose; the paths without a route validator are optional. *)
Record Body : Type := mkBody {
  b_annee : Z;
  b_mois : Z;
  b_chiffreAffaires : JS.number;
  b_objectifCA : JS.number;
  b_nouveauxClients : Z;
  b_rdvRealises : Z;
  b_rdvPlanifies : option JS.number;
  b_ventesRealisees : Z;
  b_dossiersMAJ : Z;
  b_totalDossiers : Z;
  b_evenements : option Z;
  b_satisfaction : option JS.number;
  b_commentaires : option string;
  b_statut : option string;
  b_dateValidation : option Z
}.

Definition check (ok : bool) (msg : string) : list string :=
  if ok then [] else [msg].

Definition optional {A : Type} (v : A -> bool) (x : option A) : bool :=
  match x with
  | Some a => v a
  | None => true
  end.

(** [validationResult(req).array()] of [POST /]. *)
Definition upsert_errors (b : Body) : list string :=
  (check ((2020 <=? b_annee b) && (b_annee b <=? 2030)) "Année invalide"
   ++ check ((1 <=? b_mois b) && (b_mois b <=? 12)) "Mois invalide"
   ++ check (isNumeric (b_chiffreAffaires b)) "Chiffre d'affaires invalide"
   ++ check (isNumeric (b_objectifCA b)) "Objectif CA invalide"
   ++ check (0 <=? b_nouveauxClients b) "Nombre de nouveaux clients invalide"
   ++ check (0 <=? b_rdvRealises b) "Nombre de RDV invalide"
   ++ check (0 <=? b_ventesRealisees b) "Nombre de ventes invalide"
   ++ check (0 <=? b_dossiersMAJ b) "Nombre de dossiers invalide"
   ++ check (0 <=? b_totalDossiers b) "Total dossiers invalide"
   ++ check (optional (fun e => 0 <=? e) (b_evenements b))
            "Nombre d'événements invalide"
   ++ check (optional valid_satisfaction (b_satisfaction b))
            "Note de satisfaction invalide")%list.

Definition orDefault {A : Type} (x : option A) (d : A) : A :=
  match x with
  | Some a => a
  | None => d
  end.

(** The document [Performance.create(performanceData)] builds, with the
    defaults of the schema. *)
Definition build (now : Z) (newId : string) (user : Identity) (b : Body)
  : Performance :=
  {| _id := newId;
     utilisateur := id user;
     annee := b_annee b;
     mois := b_mois b;
     chiffreAffaires := b_chiffreAffaires b;
     objectifCA := b_objectifCA b;
     nouveauxClients := b_nouveauxClients b;
     rdvRealises := b_rdvRealises b;
     rdvPlanifies := orDefault (b_rdvPlanifies b) (JS.of_Z 0);
     ventesRealisees := b_ventesRealisees b;
     dossiersMAJ := b_dossiersMAJ b;
     totalDossiers := b_totalDossiers b;
     evenements := orDefault (b_evenements b) 0;
     satisfaction := orDefault (b_satisfaction b) (JS.of_Z 4);
     commentaires := b_commentaires b;
     statut := orDefault (b_statut b) "valide";
     dateValidation := orDefault (b_dateValidation b) now |}.

(** The document after [$set] of the paths of the body: the paths the
    body does not have keep their stored value. *)
Definition applyUpdate (user : Identity) (b : Body) (old : Performance)
  : Performance :=
  {| _id := _id old;
     utilisateur := id user;
     annee := b_annee b;
     mois := b_mois b;
     chiffreAffaires := b_chiffreAffaires b;
     objectifCA := b_objectifCA b;
     nouveauxClients := b_nouveauxClients b;
     rdvRealises := b_rdvRealises b;
     rdvPlanifies := orDefault (b_rdvPlanifies b) (rdvPlanifies old);
     ventesRealisees := b_ventesRealisees b;
     dossiersMAJ := b_dossiersMAJ b;
     totalDossiers := b_totalDossiers b;
     evenements := orDefault (b_evenements b) (evenements old);
     satisfaction := orDefault (b_satisfaction b) (satisfaction old);
     commentaires := match b_commentaires b with
                     | Some c => Some c
                     | None => commentaires old
                     end;
     statut := orDefault (b_statut b) (statut old);
     dateValidation := orDefault (b_dateValidation b) (dateValidation old) |}.

(** The update validators that [runValidators: true] turns on: the
    validators of the schema, on the paths the update sets.  The
    [pre("save")] hook is document middleware of [save]; a
    [findByIdAndUpdate] does not run it. *)
Definition updateValidators (b : Body) : bool :=
  valid_annee (b_annee b) && valid_mois (b_mois b)
  && valid_min0 (b_chiffreAffaires b) && valid_min0 (b_objectifCA b)
  && valid_count (b_nouveauxClients b) && valid_count (b_rdvRealises b)
  && optional valid_min0 (b_rdvPlanifies b) && valid_count (b_ventesRealisees b)
  && valid_count (b_dossiersMAJ b) && valid_count (b_totalDossiers b)
  && optional valid_count (b_evenements b)
  && optional valid_satisfaction (b_satisfaction b)
  && valid_commentaires (b_commentaires b) && optional valid_statut (b_statut b).

(** [Performance.findByIdAndUpdate(id, performanceData,
    { new: true, runValidators: true })]: the updated document, or [None]
    when no document has that id. *)
Definition findByIdAndUpdate (docId : string) (user : Identity) (b : Body)
           (perfs : list Performance)
  : JS.Result (option Performance * list Performance) :=
  if updateValidators b then
    match find (fun p => String.eqb (_id p) docId) perfs with
    | None => JS.Ok (None, perfs)
    | Some old =>
        let new := applyUpdate user b old in
        JS.Ok (Some new,
               map (fun p => if String.eqb (_id p) docId then new else p) perfs)
    end
  else JS.Throw validationError.

(** [populate("utilisateur", "nom prenom email")]. *)
Definition populate (users : list UserModel.User) (p : Performance) : option Owner :=
  match find (fun u => String.eqb (UserModel._id u) (utilisateur p)) users with
  | Some u => Some (mkOwner (UserModel._id u) (UserModel.nom u)
                            (UserModel.prenom u) (UserModel.email u))
  | None => None
  end.

(** The [catch] of [POST /]. *)
Definition upsert_catch (e : JS.Error) : Response :=
  match JS.code e with
  | Some c =>
      if c =? 11000
      then failure 400 "Des données existent déjà pour cette période"
      else failure 500 "Erreur serveur"
  | None => failure 500 "Erreur serveur"
  end.

(** [POST /api/performance], after [protect]. *)
Definition upsert (now : Z) (newId : string) (user : Identity) (b : Body)
           (users : list UserModel.User) (perfs : list Performance)
  : Response * list Performance :=
  match upsert_errors b with
  | (_ :: _) as errs =>
      (mkResponse 400 false (Some "Données invalides") (Errors errs), perfs)
  | [] =>
      match findOne_period (id user) (b_annee b) (b_mois b) perfs with
      | JS.Throw e => (upsert_catch e, perfs)
      | JS.Ok (Some existingPerformance) =>
          match findByIdAndUpdate (_id existingPerformance) user b perfs with
          | JS.Throw e => (upsert_catch e, perfs)
          | JS.Ok (None, _) =>
              (mkResponse 200 true (Some "Données mises à jour avec succès") NoData, perfs)
          | JS.Ok (Some performance, perfs') =>
              (mkResponse 200 true (Some "Données mises à jour avec succès")
                          (PerformanceData performance (populate users performance)),
               perfs')
          end
      | JS.Ok None =>
          let performance := build now newId user b in
          match saveNew performance perfs with
          | JS.Throw e => (upsert_catch e, perfs)
          | JS.Ok perfs' =>
              (mkResponse 201 true (Some "Données créées avec succès")
                          (PerformanceData performance (populate users performance)),
               perfs')
          end
      end
  end.

(** [GET /api/performance/:id], after [protect]. *)
Definition getById (user : Identity) (paramId : string)
           (users : list UserModel.User) (perfs : list Performance) : Response :=
  match findById paramId perfs with
  | JS.Throw _ => failure 500 "Erreur serveur"
  | JS.Ok None => failure 404 "Données de performance non trouvées"
  | JS.Ok (Some performance) =>
      match populate users performance with
      | None => failure 500 "Erreur serveur"
      | Some owner =>
          if negb (String.eqb (o_id owner) (id user))
          then failure 403 "Accès non autorisé"
          else mkResponse 200 true None (PerformanceData performance (Some owner))
      end
  end.

(** [DELETE /api/performance/:id], after [protect]. *)
Definition deleteById (user : Identity) (paramId : string)
           (perfs : list Performance) : Response * list Performance :=
  match findById paramId perfs with
  | JS.Throw _ => (failure 500 "Erreur serveur", perfs)
  | JS.Ok None => (failure 404 "Données de performance non trouvées", perfs)
  | JS.Ok (Some performance) =>
      if negb (String.eqb (utilisateur performance) (id user))
      then (failure 403 "Accès non autorisé", perfs)
      else (mkResponse 200 true (Some "Données supprimées avec succès") NoData,
            findByIdAndDelete paramId perfs)
  end.

(** The [$match] stage of [GET /stats/summary]: [annee] and [mois] are the
    query strings, [None] when absent; an absent [annee] is the current
    year and an absent or empty [mois] adds no condition.  A
    [Number.parseInt] that gives NaN matches no document. *)
Definition eqParsed (v : option Z) (x : Z) : bool :=
  match v with
  | Some n => x =? n
  | None => false
  end.

Definition matchFilter (currentYear : Z) (user : Identity)
           (q_annee q_mois : option string) (p : Performance) : bool :=
  pipeline_id_eq (id user) (utilisateur p)
  && eqParsed (match q_annee with
               | Some a => parseInt a
               | None => Some currentYear
               end) (annee p)
  && String.eqb (statut p) "valide"
  && match q_mois with
     | Some m => if String.eqb m "" then true else eqParsed (parseInt m) (mois p)
     | None => true
     end.

Definition sumZ (l : list Z) : Z := fold_right Z.add 0 l.

(** The [$group] stage with [_id: null]: no group for no document. *)
Definition group (docs : list Performance) : list Summary :=
  match docs with
  | [] => []
  | _ :: _ =>
      [ mkSummary (db_sum (map chiffreAffaires docs))
                  (db_sum (map objectifCA docs))
                  (sumZ (map nouveauxClients docs))
                  (sumZ (map rdvRealises docs))
                  (sumZ (map ventesRealisees docs))
                  (sumZ (map evenements docs))
                  (db_avg (map satisfaction docs))
                  (Z.of_nat (List.length docs))
                  (JS.of_Z 0) (JS.of_Z 0) ]
  end.

(** The two rates the handler adds to the result. *)
Definition withRates (r : Summary) : Summary :=
  mkSummary (totalCA r) (totalObjectif r) (totalClients r) (totalRDV r)
            (totalVentes r) (totalEvenements r) (satisfactionMoyenne r) (count r)
            (if totalRDV r >? 0
             then percent (JS.of_Z (totalVentes r)) (JS.of_Z (totalRDV r))
             else JS.of_Z 0)
            (if JS.gt (totalObjectif r) (JS.of_Z 0)
             then percent (totalCA r) (totalObjectif r)
             else JS.of_Z 0).

Definition zeroSummary : Summary :=
  mkSummary (JS.of_Z 0) (JS.of_Z 0) 0 0 0 0 (JS.of_Z 0) 0 (JS.of_Z 0) (JS.of_Z 0).

(** [GET /api/performance/stats/summary], after [protect]. *)
Definition summary (currentYear : Z) (user : Identity)
           (q_annee q_mois : option string) (perfs : list Performance) : Response :=
  let stats := group (filter (matchFilter currentYear user q_annee q_mois) perfs) in
  let result := match stats with
                | r :: _ => r
                | [] => zeroSummary
                end in
  mkResponse 200 true None (Stats (withRates result)).



(** The gate of [GET /api/performance/all]:
    [protect], then [authorizeRoles("admin", "manager")]. *)
Definition gateAll (now : Z) (authorization : option string)
           (users : list UserModel.User) : Gate Identity :=
  Middleware.guard ["admin"; "manager"] now authorization users.

(** A sequence of [POST /] requests, served one after the other. *)
Record UpsertCall : Type := mkCall {
  c_now : Z;
  c_newId : string;
  c_user : Identity;
  c_body : Body
}.

Fixpoint serve (calls : list UpsertCall) (users : list UserModel.User)
         (perfs : list Performance) : list Response * list Performance :=
  match calls with
  | [] => ([], perfs)
  | c :: rest =>
      let (r, perfs1) := upsert (c_now c) (c_newId c) (c_user c) (c_body c) users perfs in
      let (rs, perfs2) := serve rest users perfs1 in
      (r :: rs, perfs2)
  end.

End WithPlatform.
End PerformanceRoutes.

(* ===================================================================== *)
(** ** Predicates of the statements *)
(* ===================================================================== *)

(** What the database guarantees of the performance collection: [_id] is
    unique, and so is the key of the compound index. *)
Definition uniqueIndexes (perfs : list PerformanceModel.Performance) : Prop :=
  NoDup (map PerformanceModel._id perfs)
  /\ forall u y m, (PerformanceModel.countPeriod u y m perfs <= 1)%nat.

(** A request [POST /] of user [u] for the period [(y, m)] that passes the
    validators of the route and of the schema. *)
Definition validCall `{Platform} (u : Identity) (y m : Z)
           (c : PerformanceRoutes.UpsertCall) : Prop :=
  PerformanceRoutes.c_user c = u
  /\ PerformanceRoutes.b_annee (PerformanceRoutes.c_body c) = y
  /\ PerformanceRoutes.b_mois (PerformanceRoutes.c_body c) = m
  /\ PerformanceRoutes.upsert_errors (PerformanceRoutes.c_body c) = []
  /\ PerformanceRoutes.updateValidators (PerformanceRoutes.c_body c) = true.

(** The two consistency rules, on a body. *)
Definition consistent (b : PerformanceRoutes.Body) : Prop :=
  PerformanceRoutes.b_ventesRealisees b <= PerformanceRoutes.b_rdvRealises b
  /\ PerformanceRoutes.b_dossiersMAJ b <= PerformanceRoutes.b_totalDossiers b.

(** The token of a header that carries one: the second word of a header
    that starts with [Bearer], [Some None] when there is no second word. *)
Definition bearer (authorization : option string) : option (option string) :=
  match authorization with
  | Some h =>
      if negb (String.eqb h "") && JS.startsWith "Bearer" h
      then Some (nth_error (JS.split " "%char h) 1)
      else None
  | None => None
  end.

(** A login request that fails on the account of email [e] and password
    hash [h]: it passes the validators of the route, its email is
    normalized to [e], and [bcrypt.compare] refuses its password. *)
Definition failsOn `{Platform} (e h : string) (r : AuthRoutes.LoginRequest) : Prop :=
  AuthRoutes.login_errors (AuthRoutes.l_email r) (AuthRoutes.l_password r) = []
  /\ normalizeEmail (AuthRoutes.l_email r) = e
  /\ bcrypt_compare (AuthRoutes.l_password r) h = false.

(** What the lockout keeps true of every stored user: an account that is
    not blocked has fewer than 5 failed attempts. *)
Definition lockoutInvariant (u : UserModel.User) : Prop :=
  UserModel.compteBloque u = false -> UserModel.tentativesConnexion u < 5.

(** The percentage as the specification words it, in exact arithmetic:
    [round (100 * a / b)] with ties upwards, and 0 for [b = 0]. *)
Definition exactPercent (a b : Z) : Z :=
  if b =? 0 then 0 else (200 * a + b) / (2 * b).

(** [k] is [exactPercent a b], or one less at an exact tie
    ([100 * a / b] is an integer and a half). *)
Definition roundsOrTie (k a b : Z) : bool :=
  (k =? exactPercent a b)
  || ((k =? exactPercent a b - 1) && (2 * b * exactPercent a b =? 200 * a + b)).

(** The rate [Math.round((a / b) * 100)] of two counts is such an integer. *)
Definition rateRounds (a b : Z) : bool :=
  match JS.to_Z (PerformanceModel.percent (JS.of_Z a) (JS.of_Z b)) with
  | Some k => roundsOrTie k a b
  | None => false
  end.

(** [rateRounds a b] for all [0 <= a <= b] and [1 <= b <= n]. *)
Fixpoint upTo (n : nat) : list Z :=
  match n with
  | O => [0]
  | S k => Z.of_nat (S k) :: upTo k
  end.

Definition ratesRoundUpTo (n : nat) : bool :=
  forallb (fun b => (b =? 0) || forallb (fun a => (b <? a) || rateRounds a b) (upTo n))
          (upTo n).

(* ===================================================================== *)
(** ** A concrete platform and concrete data *)
(* ===================================================================== *)

Module Demo.

Definition digit (c : ascii) : option Z :=
  let n := Z.of_nat (nat_of_ascii c) in
  if (48 <=? n) && (n <=? 57) then Some (n - 48) else None.

Fixpoint digits (acc : Z) (s : string) : Z :=
  match s with
  | EmptyString => acc
  | String c rest =>
      match digit c with
      | Some d => digits (10 * acc + d) rest
      | None => acc
      end
  end.

Definition readInt (s : string) : option Z :=
  match s with
  | EmptyString => None
  | String c _ =>
      match digit c with
      | Some _ => Some (digits 0 s)
      | None => None
      end
  end.

Definition verify (now : Z) (token : option string) : VerifyResult :=
  match token with
  | Some t =>
      if String.prefix "ok." t then Decoded (String.substring 3 (String.length t - 3) t)
      else if String.prefix "old." t
           then VerifyThrows (JS.mkError "TokenExpiredError" None)
           else VerifyThrows (JS.mkError "JsonWebTokenError" None)
  | None => VerifyThrows (JS.mkError "JsonWebTokenError" None)
  end.

Definition sum (l : list JS.number) : JS.number :=
  fold_left JS.add l (JS.of_Z 0).

(** The characters of a string: the bytes that start one. *)
Fixpoint characters (s : string) : nat :=
  match s with
  | EmptyString => 0%nat
  | String c rest =>
      let b := N_of_ascii c in
      ((if (b <? 128)%N || (192 <=? b)%N then 1 else 0) + characters rest)%nat
  end.

Definition isHex (c : ascii) : bool :=
  let b := N_of_ascii c in
  ((48 <=? b) && (b <=? 57) || (65 <=? b) && (b <=? 70) || (97 <=? b) && (b <=? 102))%N.

Definition lowerHex (c : ascii) : ascii :=
  let b := N_of_ascii c in
  if ((65 <=? b) && (b <=? 70))%N then ascii_of_N (b + 32) else c.

Fixpoint mapString (f : ascii -> ascii) (s : string) : string :=
  match s with
  | EmptyString => EmptyString
  | String c rest => String (f c) (mapString f rest)
  end.

Definition platform : Platform :=
  {| isEmail := fun s => JS.includes "@" (map (fun c => String c EmptyString)
                                              (list_ascii_of_string s));
     normalizeEmail := fun s => s;
     trim := fun s => s;
     isLength_min := fun n s => (n <=? characters s)%nat;
     isNumeric := JS.is_finite;
     toUpperCase := fun s => s;
     toLowerCase := fun s => s;
     emailPattern := fun _ => true;
     bcrypt_hash := fun p => "$2a$12$" ++ p;
     bcrypt_compare := fun c h => String.eqb h ("$2a$12$" ++ c);
     jwt_sign := fun i => "ok." ++ i;
     jwt_verify := verify;
     isObjectId := fun s => (String.length s =? 24)%nat
                            && forallb isHex (list_ascii_of_string s);
     objectIdHex := mapString lowerHex;
     parseInt := readInt;
     pipeline_id_eq := String.eqb;
     db_sum := sum;
     db_avg := fun l => JS.div (sum l) (JS.of_Z (Z.of_nat (List.length l))) |}.

Definition user (i mail pw statut role : string) (tries : Z) (blocked : bool)
  : UserModel.User :=
  UserModel.mkUser i "Ngom" "Bourama" mail ("$2a$12$" ++ pw) statut role None None
                   None None None 0 tries blocked
                   (if blocked then Some 1000 else None) true.

Definition idA : string := "64b0000000000000000000a1".
Definition idB : string := "64b0000000000000000000b2".
Definition idC : string := "64b0000000000000000000c3".

Definition alice : UserModel.User :=
  user idA "alice@wawtelecom.com" "password123" "actif" "utilisateur" 0 false.
Definition bob : UserModel.User :=
  user idB "bob@wawtelecom.com" "password123" "actif" "admin" 4 false.
Definition carol : UserModel.User :=
  user idC "carol@wawtelecom.com" "password123" "actif" "manager" 5 true.

Definition idD : string := "64b0000000000000000000d4".
Definition dave : UserModel.User :=
  user idD "dave@wawtelecom.com" "password123" "inactif" "utilisateur" 5 true.

Definition users : list UserModel.User := [alice; bob; carol; dave].

Definition body (y m : Z) (rdv ventes : Z) : PerformanceRoutes.Body :=
  PerformanceRoutes.mkBody y m (JS.of_Z 90000) (JS.of_Z 100000) 3 rdv None ventes
                           10 20 None None None None None.

Definition me (u : UserModel.User) : Identity :=
  mkIdentity (UserModel._id u) (UserModel.email u) (UserModel.nom u)
             (UserModel.prenom u).

Definition perfA : PerformanceModel.Performance :=
  PerformanceRoutes.build 500 "64b0000000000000000000f1" (me alice) (body 2024 3 40 20).

Definition perfs : list PerformanceModel.Performance := [perfA].

(** 23 sales for 40 appointments: 57.5 percent. *)
Definition perfTie : PerformanceModel.Performance :=
  PerformanceRoutes.build 500 "64b0000000000000000000f3" (me alice) (body 2024 4 40 23).


(** A body with more sales than appointments. *)
Definition badBody : PerformanceRoutes.Body := body 2024 3 5 10.

(** Three requests of the same user for May 2024. *)
Definition calls : list PerformanceRoutes.UpsertCall :=
  [ PerformanceRoutes.mkCall 600 "64b0000000000000000000f5" (me alice) (body 2024 5 40 20);
    PerformanceRoutes.mkCall 700 "64b0000000000000000000f6" (me alice) (body 2024 5 50 30);
    PerformanceRoutes.mkCall 800 "64b0000000000000000000f7" (me alice) (body 2024 5 60 29) ].

Definition registration : AuthRoutes.RegisterBody :=
  AuthRoutes.mkRegisterBody "Diop" "Awa" "awa@wawtelecom.com" "secret12"
                            None (Some "Commerciale") None (Some "admin").

Definition header (u : UserModel.User) : option string :=
  Some ("Bearer ok." ++ UserModel._id u).

End Demo.

(* ===================================================================== *)
(** ** More JavaScript values *)
(* ===================================================================== *)

Module JSMore.

(** [Math.ceil]: NaN, the infinities and the zeros are returned unchanged
    and a zero result keeps the sign of [x]. *)
Definition Math_ceil (x : JS.number) : JS.number :=
  match x with
  | S754_finite s m e =>
      let v := if s then Zneg m else Zpos m in
      let k := if 0 <=? e then v * 2 ^ e else - ((- v) / 2 ^ (- e)) in
      if k =? 0 then S754_zero s else JS.of_Z k
  | _ => x
  end.

(** The string of an integer Number, as a template literal prints it
    (below 10^21, where the decimal digits are printed). *)
Definition numberToString (z : Z) : string :=
  NilZero.string_of_int (Z.to_int z).

(** Whether a string is truthy. *)
Definition truthy (s : string) : bool := negb (String.eqb s "").

End JSMore.

(** A handler answers [res.json({ success: true, message, ...payload })]
    with status 200, or another response. *)
Inductive Reply (A : Type) : Type :=
| Refused (r : Response)
| Served (message : option string) (payload : A).
Arguments Refused {A} r.
Arguments Served {A} message payload.

(* ===================================================================== *)
(** ** routes/auth.js: the routes behind [protect] *)
(* ===================================================================== *)

Module AccountRoutes.
Section WithPlatform.
Context `{Platform}.

(** What [GET /me] returns of a user. *)
Record Profile : Type := mkProfile {
  pr_id : string;
  pr_nom : string;
  pr_prenom : string;
  pr_email : string;
  pr_statut : string;
  pr_nomComplet : string;
  pr_initiales : string;
  pr_telephone : option string;
  pr_poste : option string;
  pr_departement : option string;
  pr_dateEmbauche : option Z;
  pr_derniereConnexion : Z
}.

(** [GET /api/auth/me], after [protect]: a [null] user makes [user._id]
    throw. *)
Definition me (user : Identity) (users : list UserModel.User) : Reply Profile :=
  match UserModel.findById (id user) users with
  | JS.Throw _ => Refused (failure 500 "Erreur serveur")
  | JS.Ok None => Refused (failure 500 "Erreur serveur")
  | JS.Ok (Some u) =>
      Served None
             (mkProfile (UserModel._id u) (UserModel.nom u) (UserModel.prenom u)
                        (UserModel.email u) (UserModel.statut u)
                        (UserModel.nomComplet u) (UserModel.initiales u)
                        (UserModel.telephone u) (UserModel.poste u)
                        (UserModel.departement u) (UserModel.dateEmbauche u)
                        (UserModel.derniereConnexion u))
  end.

Definition routeMe (now : Z) (authorization : option string)
           (users : list UserModel.User) : Reply Profile :=
  match Middleware.protect now authorization users with
  | Reject r => Refused r
  | Next user => me user users
  end.

(** The body of [PUT /profile]: every path is optional. *)
Record ProfileBody : Type := mkProfileBody {
  pb_nom : option string;
  pb_prenom : option string;
  pb_telephone : option string;
  pb_poste : option string;
  pb_departement : option string
}.

Definition check (ok : bool) (msg : string) : list string :=
  if ok then [] else [msg].

Definition optional {A : Type} (v : A -> bool) (x : option A) : bool :=
  match x with
  | Some a => v a
  | None => true
  end.

(** [validationResult(req).array()] of [PUT /profile]. *)
Definition profile_errors (b : ProfileBody) : list string :=
  (check (optional (fun s => isLength_min 2 (trim s)) (pb_nom b))
         "Le nom doit contenir au moins 2 caractères"
   ++ check (optional (fun s => isLength_min 2 (trim s)) (pb_prenom b))
         "Le prénom doit contenir au moins 2 caractères")%list.

(** [...(x && { x })] on a path the chain has trimmed: the path is in the
    update when it is present and not empty after [trim]. *)
Definition provided (x : option string) : option string :=
  match x with
  | Some s => if JSMore.truthy (trim s) then Some (trim s) else None
  | None => None
  end.

(** The document after [$set] of the provided paths, each through the
    [trim] setter of the schema. *)
Definition applyProfile (b : ProfileBody) (u : UserModel.User) : UserModel.User :=
  UserModel.mkUser
    (UserModel._id u)
    (match provided (pb_nom b) with Some s => trim s | None => UserModel.nom u end)
    (match provided (pb_prenom b) with Some s => trim s | None => UserModel.prenom u end)
    (UserModel.email u) (UserModel.password u) (UserModel.statut u) (UserModel.role u)
    (UserModel.avatar u)
    (match provided (pb_telephone b) with
     | Some s => Some (trim s)
     | None => UserModel.telephone u
     end)
    (match provided (pb_poste b) with
     | Some s => Some (trim s)
     | None => UserModel.poste u
     end)
    (match provided (pb_departement b) with
     | Some s => Some (trim s)
     | None => UserModel.departement u
     end)
    (UserModel.dateEmbauche u) (UserModel.derniereConnexion u)
    (UserModel.tentativesConnexion u) (UserModel.compteBloque u)
    (UserModel.dateBlocage u) (UserModel.emailVerifie u).

(** The update validators of the paths that are set: [maxlength] and
    [required] of [nom] and [prenom]. *)
Definition profileValidators (b : ProfileBody) : bool :=
  optional (fun s => UserModel.nonEmpty (trim s) && (JS.length (trim s) <=? 50)%nat)
           (provided (pb_nom b))
  && optional (fun s => UserModel.nonEmpty (trim s) && (JS.length (trim s) <=? 50)%nat)
              (provided (pb_prenom b)).

(** What [PUT /profile] returns of the updated user. *)
Record UpdatedProfile : Type := mkUpdatedProfile {
  up_id : string;
  up_nom : string;
  up_prenom : string;
  up_email : string;
  up_nomComplet : string;
  up_initiales : string;
  up_telephone : option string;
  up_poste : option string;
  up_departement : option string
}.

(** [PUT /api/auth/profile], after [protect]. *)
Definition updateProfile (user : Identity) (b : ProfileBody)
           (users : list UserModel.User)
  : Reply UpdatedProfile * list UserModel.User :=
  match profile_errors b with
  | (_ :: _) as errs =>
      (Refused (mkResponse 400 false (Some "Données invalides") (Errors errs)), users)
  | [] =>
      if negb (isObjectId (id user)) then (Refused (failure 500 "Erreur serveur"), users)
      else if negb (profileValidators b) then (Refused (failure 500 "Erreur serveur"), users)
      else
        match find (fun u => String.eqb (UserModel._id u) (id user)) users with
        | None => (Refused (failure 500 "Erreur serveur"), users)
        | Some old =>
            let u := applyProfile b old in
            (Served (Some "Profil mis à jour avec succès")
                    (mkUpdatedProfile (UserModel._id u) (UserModel.nom u)
                                      (UserModel.prenom u) (UserModel.email u)
                                      (UserModel.nomComplet u) (UserModel.initiales u)
                                      (UserModel.telephone u) (UserModel.poste u)
                                      (UserModel.departement u)),
             map (fun v => if String.eqb (UserModel._id v) (id user) then u else v) users)
        end
  end.

(** [validationResult(req).array()] of [PUT /change-password]. *)
Definition password_errors (currentPassword newPassword : string) : list string :=
  (check (negb (String.eqb currentPassword "")) "Mot de passe actuel requis"
   ++ check (isLength_min 6 newPassword)
        "Le nouveau mot de passe doit contenir au moins 6 caractères")%list.

Definition set_password (v : string) (u : UserModel.User) : UserModel.User :=
  UserModel.mkUser (UserModel._id u) (UserModel.nom u) (UserModel.prenom u)
                   (UserModel.email u) v (UserModel.statut u) (UserModel.role u)
                   (UserModel.avatar u) (UserModel.telephone u) (UserModel.poste u)
                   (UserModel.departement u) (UserModel.dateEmbauche u)
                   (UserModel.derniereConnexion u) (UserModel.tentativesConnexion u)
                   (UserModel.compteBloque u) (UserModel.dateBlocage u)
                   (UserModel.emailVerifie u).

(** [user.password = newPassword; await user.save()]: the document is
    validated, then [pre("save")] hashes the password when the assignment
    has modified it, that is when the new value is not the stored string. *)
Definition saveWithPassword (newPassword : string) (u : UserModel.User)
           (users : list UserModel.User) : JS.Result (list UserModel.User) :=
  let u1 := set_password newPassword u in
  if UserModel.validate u1 then
    let u2 := if String.eqb newPassword (UserModel.password u)
              then u1 else UserModel.preSave u1 in
    JS.Ok (UserModel.save u2 users)
  else JS.Throw UserModel.validationError.

(** [PUT /api/auth/change-password], after [protect]: a [null] user makes
    [user.comparePassword] throw. *)
Definition changePassword (user : Identity) (currentPassword newPassword : string)
           (users : list UserModel.User) : Response * list UserModel.User :=
  match password_errors currentPassword newPassword with
  | (_ :: _) as errs =>
      (mkResponse 400 false (Some "Données invalides") (Errors errs), users)
  | [] =>
      match UserModel.findById (id user) users with
      | JS.Throw _ => (failure 500 "Erreur serveur", users)
      | JS.Ok None => (failure 500 "Erreur serveur", users)
      | JS.Ok (Some u) =>
          if negb (UserModel.comparePassword u currentPassword)
          then (failure 400 "Mot de passe actuel incorrect", users)
          else
            match saveWithPassword newPassword u users with
            | JS.Throw _ => (failure 500 "Erreur serveur", users)
            | JS.Ok users' =>
                (mkResponse 200 true (Some "Mot de passe changé avec succès") NoData,
                 users')
            end
      end
  end.

(** [POST /api/auth/logout], after [protect]. *)
Definition logout : Response :=
  mkResponse 200 true (Some "Déconnexion réussie") NoData.

End WithPlatform.
End AccountRoutes.

(* ===================================================================== *)
(** ** routes/performance.js: the two listings *)
(* ===================================================================== *)

Module PerformanceLists.
Section WithPlatform.
Context `{Platform}.

Import PerformanceModel.

(** The query of [GET /], once parsed: the parameters the route validates
    as integers are integers. *)
Record ListQuery : Type := mkListQuery {
  q_annee : option Z;
  q_mois : option Z;
  q_statut : option string;
  q_limit : option Z;
  q_page : option Z
}.

(** [validationResult(req).array()] of [GET /]. *)
Definition list_errors (q : ListQuery) : list string :=
  (PerformanceRoutes.check
     (PerformanceRoutes.optional (fun y => (2020 <=? y) && (y <=? 2030)) (q_annee q))
     "Année invalide"
   ++ PerformanceRoutes.check
        (PerformanceRoutes.optional (fun m => (1 <=? m) && (m <=? 12)) (q_mois q))
        "Mois invalide"
   ++ PerformanceRoutes.check
        (PerformanceRoutes.optional (fun s => JS.includes s ["brouillon"; "valide"])
                                    (q_statut q))
        "Statut invalide"
   ++ PerformanceRoutes.check
        (PerformanceRoutes.optional (fun l => (1 <=? l) && (l <=? 100)) (q_limit q))
        "Limite invalide"
   ++ PerformanceRoutes.check
        (PerformanceRoutes.optional (fun p => 1 <=? p) (q_page q))
        "Page invalide")%list.

(** The filter of [GET /]. *)
Definition listFilter (user : Identity) (q : ListQuery) (p : Performance) : bool :=
  String.eqb (utilisateur p) (id user)
  && PerformanceRoutes.optional (fun y => annee p =? y) (q_annee q)
  && PerformanceRoutes.optional (fun m => mois p =? m) (q_mois q)
  && PerformanceRoutes.optional (fun s => String.eqb (statut p) s) (q_statut q).

(** [sort({ "periode.annee": -1, "periode.mois": -1 })]: [later p q] when
    [p] is of a later period than [q].  Documents of one period are kept in
    the order of the collection. *)
Definition later (p q : Performance) : bool :=
  (annee q <? annee p) || ((annee q =? annee p) && (mois q <? mois p)).

Fixpoint insertDesc (p : Performance) (l : list Performance) : list Performance :=
  match l with
  | [] => [p]
  | q :: r => if later q p then q :: insertDesc p r else p :: l
  end.

Definition sortDesc (l : list Performance) : list Performance :=
  fold_right insertDesc [] l.

Record Pagination : Type := mkPagination {
  page : Z;
  limit : Z;
  total : Z;
  pages : JS.number
}.

(** [GET /api/performance], after [protect]. *)
Definition listForUser (user : Identity) (q : ListQuery)
           (users : list UserModel.User) (perfs : list Performance)
  : Reply (list (Performance * option Owner) * Pagination) :=
  match list_errors q with
  | (_ :: _) as errs =>
      Refused (mkResponse 400 false (Some "Paramètres invalides") (Errors errs))
  | [] =>
      if isObjectId (id user) then
        let limit := PerformanceRoutes.orDefault (q_limit q) 12 in
        let page := PerformanceRoutes.orDefault (q_page q) 1 in
        let skip := (page - 1) * limit in
        let matching := filter (listFilter user q) perfs in
        let performances :=
          firstn (Z.to_nat limit) (skipn (Z.to_nat skip) (sortDesc matching)) in
        let total := Z.of_nat (List.length matching) in
        Served None
               (map (fun p => (p, PerformanceRoutes.populate users p)) performances,
                mkPagination page limit total
                             (JSMore.Math_ceil (JS.div (JS.of_Z total) (JS.of_Z limit))))
      else Refused (failure 500 "Erreur serveur")
  end.

(** [populate("utilisateur", "nom prenom email role")]. *)
Definition populateWithRole (users : list UserModel.User) (p : Performance)
  : option (Owner * string) :=
  match find (fun u => String.eqb (UserModel._id u) (utilisateur p)) users with
  | Some u => Some (mkOwner (UserModel._id u) (UserModel.nom u)
                            (UserModel.prenom u) (UserModel.email u),
                    UserModel.role u)
  | None => None
  end.

(** [GET /api/performance/all], with its gate. *)
Definition routeAll (now : Z) (authorization : option string)
           (users : list UserModel.User) (perfs : list Performance)
  : Reply (list (Performance * option (Owner * string))) :=
  match PerformanceRoutes.gateAll now authorization users with
  | Reject r => Refused r
  | Next _ => Served None (map (fun p => (p, populateWithRole users p)) (sortDesc perfs))
  end.

(** The pages [1 .. n] of a query, one after the other. *)
Definition pageOf (user : Identity) (q : ListQuery) (users : list UserModel.User)
           (perfs : list Performance) (k : Z) : list Performance :=
  match listForUser user (mkListQuery (q_annee q) (q_mois q) (q_statut q)
                                      (q_limit q) (Some k)) users perfs with
  | Served _ (items, _) => map fst items
  | Refused _ => []
  end.

End WithPlatform.
End PerformanceLists.

(* ===================================================================== *)
(** ** models/Performance.js: the formatted period *)
(* ===================================================================== *)

Module PerformanceVirtuals.

Definition moisNoms : list string :=
  ["Janvier"; "Février"; "Mars"; "Avril"; "Mai"; "Juin"; "Juillet"; "Août";
   "Septembre"; "Octobre"; "Novembre"; "Décembre"].

(** The template [`${mois[this.periode.mois - 1]} ${this.periode.annee}`]:
    an index outside the array prints [undefined]. *)
Definition formatPeriode (y m : Z) : string :=
  (match (if m - 1 <? 0 then None else nth_error moisNoms (Z.to_nat (m - 1))) with
   | Some n => n
   | None => "undefined"
   end)
  ++ " " ++ JSMore.numberToString y.

(** The virtual [periodeFormatee]. *)
Definition periodeFormatee (p : PerformanceModel.Performance) : string :=
  formatPeriode (PerformanceModel.annee p) (PerformanceModel.mois p).

(** The periods the schema accepts, and whether their formats differ two
    by two. *)
Definition validPeriods : list (Z * Z) :=
  flat_map (fun y => map (fun m => (2020 + Z.of_nat y, 1 + Z.of_nat m)) (seq 0 12))
           (seq 0 11).

Definition formatsDistinct : bool :=
  forallb (fun a =>
             forallb (fun b =>
                        negb (String.eqb (formatPeriode (fst a) (snd a))
                                         (formatPeriode (fst b) (snd b)))
                        || ((fst a =? fst b) && (snd a =? snd b)))
                     validPeriods)
          validPeriods.

End PerformanceVirtuals.

(* ===================================================================== *)
(** ** server.js: the origin check of CORS *)
(* ===================================================================== *)

Module Server.

(** [allowedOrigins]: [frontendUrl] is [process.env.FRONTEND_URL]. *)
Definition allowedOrigins (frontendUrl : option string) : list string :=
  ["http://localhost:3000"; "http://127.0.0.1:3000"]
    ++ match frontendUrl with
       | Some u => if JSMore.truthy u then [u] else []
       | None => []
       end.

(** The [origin] function of the CORS options: whether the callback is
    given [true], and what is logged. *)
Definition corsOrigin (frontendUrl : option string) (origin : option string)
  : bool * list string :=
  match origin with
  | None => (true, [])
  | Some o =>
      if negb (JSMore.truthy o) then (true, [])
      else if JS.includes o (allowedOrigins frontendUrl) then (true, [])
      else (true, ["Origin non autorisée: " ++ o])
  end.

End Server.

(* ===================================================================== *)
(** ** More concrete data *)
(* ===================================================================== *)

Module Sample.

(** A platform whose [trim] removes leading spaces, over [Demo.platform]. *)
Fixpoint dropSpaces (s : string) : string :=
  match s with
  | String " " rest => dropSpaces rest
  | _ => s
  end.

Definition platform : Platform :=
  {| isEmail := @isEmail Demo.platform;
     normalizeEmail := @normalizeEmail Demo.platform;
     trim := dropSpaces;
     isLength_min := @isLength_min Demo.platform;
     isNumeric := @isNumeric Demo.platform;
     toUpperCase := @toUpperCase Demo.platform;
     toLowerCase := @toLowerCase Demo.platform;
     emailPattern := @emailPattern Demo.platform;
     bcrypt_hash := @bcrypt_hash Demo.platform;
     bcrypt_compare := @bcrypt_compare Demo.platform;
     jwt_sign := @jwt_sign Demo.platform;
     jwt_verify := @jwt_verify Demo.platform;
     isObjectId := @isObjectId Demo.platform;
     objectIdHex := @objectIdHex Demo.platform;
     parseInt := @parseInt Demo.platform;
     pipeline_id_eq := @pipeline_id_eq Demo.platform;
     db_sum := @db_sum Demo.platform;
     db_avg := @db_avg Demo.platform |}.

Definition record (i : string) (u : UserModel.User) (y m : Z) (statut : string)
  : PerformanceModel.Performance :=
  PerformanceModel.mkPerformance i (UserModel._id u) y m (JS.of_Z 90000) (JS.of_Z 100000)
                                 3 40 (JS.of_Z 45) 20 10 20 1 (JS.of_Z 4) None statut 500.

Definition a1 : PerformanceModel.Performance :=
  record "64b0000000000000000001a1" Demo.alice 2024 1 "valide".
Definition a2 : PerformanceModel.Performance :=
  record "64b0000000000000000001a2" Demo.alice 2024 2 "brouillon".
Definition a3 : PerformanceModel.Performance :=
  record "64b0000000000000000001a3" Demo.alice 2023 12 "valide".
Definition b1 : PerformanceModel.Performance :=
  record "64b0000000000000000001b1" Demo.bob 2024 2 "valide".

Definition perfs : list PerformanceModel.Performance := [a1; b1; a3; a2].

(** Five failed logins on the account of Alice, at five times and with
    five wrong passwords. *)
Definition failures : list AuthRoutes.LoginRequest :=
  [ AuthRoutes.mkLogin 11 "alice@wawtelecom.com" "nope";
    AuthRoutes.mkLogin 12 "alice@wawtelecom.com" "password";
    AuthRoutes.mkLogin 13 "alice@wawtelecom.com" "Password123";
    AuthRoutes.mkLogin 14 "alice@wawtelecom.com" "123456";
    AuthRoutes.mkLogin 15 "alice@wawtelecom.com" "alice" ].

End Sample.

(** Closed goals on the concrete data are settled by evaluation. *)
Ltac computed := vm_compute; reflexivity.

(* ===================================================================== *)
(** * Properties *)
(* ===================================================================== *)

(** ** The JavaScript values on examples *)

Example Math_round_ties_upwards :
  JS.Math_round (JS.div (JS.of_Z 5) (JS.of_Z 2)) = JS.of_Z 3
  /\ JS.Math_round (JS.div (JS.of_Z (-5)) (JS.of_Z 2)) = JS.of_Z (-2)
  /\ JS.Math_round (JS.div (JS.of_Z 1) (JS.of_Z 8)) = JS.of_Z 0
  /\ JS.Math_round (JS.div (JS.of_Z 100) (JS.of_Z 3)) = JS.of_Z 33.
Proof. vm_compute. repeat split; reflexivity. Qed.

Example split_of_a_header :
  JS.split " "%char "Bearer abc.def" = ["Bearer"; "abc.def"]
  /\ JS.split " "%char "Bearer" = ["Bearer"]
  /\ JS.split " "%char "" = [""]
  /\ JS.startsWith "Bearer" "Bearer abc.def" = true
  /\ JS.startsWith "Bearer" "Basic abc" = false.
Proof. vm_compute. repeat split; reflexivity. Qed.

(** ** The account lockout *)

Section Lockout.
Context `{Platform}.

Import UserModel.

Lemma login_errors_nil (mail pw : string) :
  AuthRoutes.login_errors mail pw = [] <-> isEmail mail = true /\ pw <> "".
Proof.
  unfold AuthRoutes.login_errors, AuthRoutes.check.
  destruct (isEmail mail); simpl.
  - destruct (String.eqb_spec pw ""); simpl; split; intros.
    + discriminate.
    + tauto.
    + split; [reflexivity | assumption].
    + reflexivity.
  - split; [discriminate | intros [E _]; discriminate].
Qed.

(** [incrementLoginAttempts] touches the counter, the flag and the date
    of blocking, nothing else. *)
Lemma incrementLoginAttempts_counter (now : Z) (u : User) :
  tentativesConnexion (incrementLoginAttempts now u) = tentativesConnexion u + 1.
Proof.
  unfold incrementLoginAttempts; simpl.
  destruct (5 <=? tentativesConnexion u + 1); reflexivity.
Qed.

Lemma incrementLoginAttempts_blocked (now : Z) (u : User) :
  compteBloque u = false ->
  (compteBloque (incrementLoginAttempts now u) = true
   <-> 5 <= tentativesConnexion u + 1).
Proof.
  intros Hb. unfold incrementLoginAttempts; simpl.
  destruct (Z.leb_spec 5 (tentativesConnexion u + 1)); simpl.
  - tauto.
  - rewrite Hb. split; [discriminate | lia].
Qed.

(** A wrong password on an account that is neither blocked nor inactive
    reaches [incrementLoginAttempts]. *)
Lemma login_wrong_password (now : Z) (mail pw : string) (users : list User) (u : User) :
  AuthRoutes.login_errors mail pw = [] ->
  findOne_email (normalizeEmail mail) users = Some u ->
  compteBloque u = false ->
  statut u = "actif" ->
  comparePassword u pw = false ->
  AuthRoutes.login now mail pw users
  = (failure 401 "Identifiants invalides", save (incrementLoginAttempts now u) users).
Proof.
  intros He Hf Hb Hs Hc. unfold AuthRoutes.login.
  rewrite He, Hf, Hb, Hs, Hc. reflexivity.
Qed.

Lemma login_right_password (now : Z) (mail pw : string) (users : list User) (u : User) :
  AuthRoutes.login_errors mail pw = [] ->
  findOne_email (normalizeEmail mail) users = Some u ->
  compteBloque u = false ->
  statut u = "actif" ->
  comparePassword u pw = true ->
  AuthRoutes.login now mail pw users
  = (mkResponse 200 true (Some "Connexion réussie")
                (Auth (AuthRoutes.generateToken (_id u))
                      (AuthRoutes.view (updateLastLogin now u) true)),
     save (updateLastLogin now u) users).
Proof.
  intros He Hf Hb Hs Hc. unfold AuthRoutes.login.
  rewrite He, Hf, Hb, Hs, Hc. reflexivity.
Qed.

Lemma login_blocked (now : Z) (mail pw : string) (users : list User) (u : User) :
  AuthRoutes.login_errors mail pw = [] ->
  findOne_email (normalizeEmail mail) users = Some u ->
  compteBloque u = true ->
  AuthRoutes.login now mail pw users
  = (failure 423 "Compte bloqué. Contactez l'administrateur.", users).
Proof.
  intros He Hf Hb. unfold AuthRoutes.login. rewrite He, Hf, Hb. reflexivity.
Qed.

Lemma incrementLoginAttempts_keeps_invariant (now : Z) (u : User) :
  compteBloque u = false -> lockoutInvariant (incrementLoginAttempts now u).
Proof.
  intros Hb Hnb. rewrite incrementLoginAttempts_counter.
  destruct (Z.le_gt_cases 5 (tentativesConnexion u + 1)) as [Hge | Hlt]; [| lia].
  apply (incrementLoginAttempts_blocked now u Hb) in Hge. congruence.
Qed.

Lemma save_Forall (P : User -> Prop) (u : User) (users : list User) :
  Forall P users -> P u -> Forall P (save u users).
Proof.
  intros Hall Hu. unfold save. apply Forall_forall. intros v Hv.
  apply in_map_iff in Hv. destruct Hv as [w [E Hw]].
  destruct (String.eqb (_id w) (_id u)); subst v; [exact Hu |].
  rewrite Forall_forall in Hall. apply Hall. exact Hw.
Qed.

(** Every login request keeps the lockout invariant of every stored user. *)
Lemma login_keeps_invariant (now : Z) (mail pw : string) (users : list User) :
  Forall lockoutInvariant users ->
  Forall lockoutInvariant (snd (AuthRoutes.login now mail pw users)).
Proof.
  intros Hall. unfold AuthRoutes.login.
  destruct (AuthRoutes.login_errors mail pw); [| exact Hall].
  destruct (findOne_email (normalizeEmail mail) users) as [u |]; [| exact Hall].
  destruct (compteBloque u) eqn:Hb; [exact Hall |].
  destruct (negb (String.eqb (statut u) "actif")); [exact Hall |].
  destruct (negb (comparePassword u pw)); simpl.
  - apply save_Forall; [exact Hall |].
    apply incrementLoginAttempts_keeps_invariant. exact Hb.
  - apply save_Forall; [exact Hall |].
    intros _. simpl. lia.
Qed.

(** [unlockAccount] resets the flag, the counter and the date. *)
Lemma unlockAccount_resets (u : User) :
  compteBloque (unlockAccount u) = false
  /\ tentativesConnexion (unlockAccount u) = 0
  /\ dateBlocage (unlockAccount u) = None
  /\ lockoutInvariant (unlockAccount u).
Proof.
  unfold unlockAccount, lockoutInvariant. simpl. repeat split; lia.
Qed.

(** After [save], the lookup by email finds the saved user. *)
Lemma findOne_email_save (e : string) (users : list User) (u u' : User) :
  findOne_email e users = Some u ->
  _id u' = _id u -> email u' = e ->
  findOne_email e (save u' users) = Some u'.
Proof.
  intros Hf Hid He. unfold findOne_email, save in *.
  induction users as [| v rest IH]; [discriminate |].
  simpl in *. destruct (String.eqb_spec (email v) e) as [Ev | Ev].
  - injection Hf as ->. rewrite Hid, String.eqb_refl.
    rewrite He, String.eqb_refl. reflexivity.
  - destruct (String.eqb (_id v) (_id u')).
    + rewrite He, String.eqb_refl. reflexivity.
    + apply String.eqb_neq in Ev. rewrite Ev. apply IH. exact Hf.
Qed.

Lemma findOne_email_In (e : string) (users : list User) (u : User) :
  findOne_email e users = Some u -> In u users /\ email u = e.
Proof.
  intros Hf. apply find_some in Hf. destruct Hf as [Hin He].
  apply String.eqb_eq in He. tauto.
Qed.

Lemma save_keeps_others (u' v : User) (users : list User) :
  In v users -> _id v <> _id u' -> In v (save u' users).
Proof.
  intros Hin Hne. unfold save. apply in_map_iff. exists v.
  apply String.eqb_neq in Hne. rewrite Hne. tauto.
Qed.

Lemma save_length (u : User) (users : list User) :
  List.length (save u users) = List.length users.
Proof. unfold save. apply length_map. Qed.

Lemma incrementLoginAttempts_paths (now : Z) (u : User) :
  let u' := incrementLoginAttempts now u in
  _id u' = _id u /\ email u' = email u /\ password u' = password u
  /\ role u' = role u /\ statut u' = statut u.
Proof.
  unfold incrementLoginAttempts. simpl.
  destruct (5 <=? tentativesConnexion u + 1); simpl; repeat split; reflexivity.
Qed.

(** The account a failed login stores. *)
Lemma failed_login_stores (now : Z) (mail pw : string) (users : list User) (u : User) :
  AuthRoutes.login_errors mail pw = [] ->
  findOne_email (normalizeEmail mail) users = Some u ->
  compteBloque u = false ->
  statut u = "actif" ->
  comparePassword u pw = false ->
  findOne_email (normalizeEmail mail) (snd (AuthRoutes.login now mail pw users))
  = Some (incrementLoginAttempts now u).
Proof.
  intros He Hf Hb Hs Hc.
  rewrite (login_wrong_password now mail pw users u He Hf Hb Hs Hc). cbn [snd].
  destruct (incrementLoginAttempts_paths now u) as [Hid [Hem _]].
  apply (findOne_email_save _ _ u); [exact Hf | exact Hid |].
  rewrite Hem. apply (findOne_email_In _ _ _ Hf).
Qed.

(** Failed logins in a row, each with its own time, email spelling and
    wrong password, on an active account that is not blocked: as long as
    the counter does not pass 5, it counts them, the account is blocked
    exactly when it reaches 5, and the date of blocking is the time of the
    last request. *)
Lemma failed_logins_count (e : string) (reqs : list AuthRoutes.LoginRequest) :
  forall (users : list User) (u : User),
    findOne_email e users = Some u ->
    compteBloque u = false ->
    statut u = "actif" ->
    tentativesConnexion u < 5 ->
    Forall (failsOn e (password u)) reqs ->
    tentativesConnexion u + Z.of_nat (List.length reqs) <= 5 ->
    exists un,
      findOne_email e (AuthRoutes.logins reqs users) = Some un
      /\ tentativesConnexion un = tentativesConnexion u + Z.of_nat (List.length reqs)
      /\ compteBloque un = (5 <=? tentativesConnexion un)
      /\ (compteBloque un = true ->
          dateBlocage un = Some (List.last (map AuthRoutes.l_now reqs) 0))
      /\ _id un = _id u /\ email un = email u /\ password un = password u
      /\ statut un = "actif".
Proof.
  induction reqs as [| r rest IH]; intros users u Hf Hb Hs Hlt Hall Hsum.
  - exists u. cbn [AuthRoutes.logins List.length Z.of_nat].
    split; [exact Hf |]. split; [lia |].
    split; [rewrite Hb; symmetry; apply Z.leb_gt; lia |].
    split; [rewrite Hb; discriminate |]. tauto.
  - inversion Hall as [| r' rest' Hr Hrest]; subst.
    destruct Hr as [He [Hn Hc]].
    cbn [AuthRoutes.logins].
    assert (Hf' : findOne_email (normalizeEmail (AuthRoutes.l_email r)) users = Some u)
      by (rewrite Hn; exact Hf).
    pose proof (failed_login_stores (AuthRoutes.l_now r) (AuthRoutes.l_email r)
                  (AuthRoutes.l_password r) users u He Hf' Hb Hs Hc) as Hst.
    rewrite Hn in Hst.
    set (users1 := snd (AuthRoutes.login (AuthRoutes.l_now r) (AuthRoutes.l_email r)
                                         (AuthRoutes.l_password r) users)) in *.
    set (u1 := incrementLoginAttempts (AuthRoutes.l_now r) u) in *.
    assert (Hcnt : tentativesConnexion u1 = tentativesConnexion u + 1)
      by apply incrementLoginAttempts_counter.
    destruct (incrementLoginAttempts_paths (AuthRoutes.l_now r) u)
      as [Hid [Hem [Hpw [_ Hst1]]]].
    fold u1 in Hid, Hem, Hpw, Hst1.
    destruct rest as [| r2 rest2].
    + exists u1. cbn [AuthRoutes.logins List.length map List.last].
      split; [exact Hst |].
      split; [rewrite Hcnt; lia |].
      subst u1. unfold incrementLoginAttempts in *. cbn in Hcnt |- *.
      destruct (5 <=? tentativesConnexion u + 1) eqn:E5; cbn.
      * rewrite E5. repeat split; try reflexivity. exact Hs.
      * rewrite E5. repeat split; try reflexivity; try assumption.
        rewrite Hb. discriminate.
    + cbn [List.length] in Hsum.
      assert (Hlt1 : tentativesConnexion u1 < 5) by lia.
      assert (Hb1 : compteBloque u1 = false).
      { subst u1. unfold incrementLoginAttempts. cbn.
        replace (5 <=? tentativesConnexion u + 1) with false
          by (symmetry; apply Z.leb_gt; lia).
        exact Hb. }
      destruct (IH users1 u1 Hst Hb1 ltac:(congruence) Hlt1) as [un Hun].
      * rewrite Hpw. exact Hrest.
      * cbn [List.length]. lia.
      * destruct Hun as [Hfn [Hcn [Hbn [Hdn [Hidn [Hemn [Hpwn Hsn]]]]]]].
        exists un. split; [exact Hfn |].
        split; [rewrite Hcn, Hcnt; cbn [List.length]; lia |].
        split; [exact Hbn |].
        split; [exact Hdn |].
        repeat split; congruence.
Qed.

(** C3: on an account that is neither blocked nor inactive, a failed
    password check answers 401 and stores the account with the counter of
    failed attempts increased by exactly 1: after the request the account
    of that email in the collection is the one with the new counter, every
    other stored user is as before and no user is added or removed.  The
    stored account is blocked exactly when the new counter is 5 or more,
    which for an account that keeps the lockout invariant (fewer than 5
    failures while not blocked) is exactly when the counter reaches 5, and
    the date of blocking is then the time of that attempt; otherwise flag
    and date stay as they were. *)
Theorem C3_failed_login_counts_and_blocks
        (now : Z) (mail pw : string) (users : list User) (u : User) :
  AuthRoutes.login_errors mail pw = [] ->
  findOne_email (normalizeEmail mail) users = Some u ->
  compteBloque u = false ->
  statut u = "actif" ->
  comparePassword u pw = false ->
  let u' := incrementLoginAttempts now u in
  let users' := snd (AuthRoutes.login now mail pw users) in
  AuthRoutes.login now mail pw users
  = (failure 401 "Identifiants invalides", save u' users)
  /\ findOne_email (normalizeEmail mail) users' = Some u'
  /\ (forall v, In v users -> _id v <> _id u -> In v users')
  /\ List.length users' = List.length users
  /\ tentativesConnexion u' = tentativesConnexion u + 1
  /\ (compteBloque u' = true <-> 5 <= tentativesConnexion u')
  /\ (lockoutInvariant u ->
      (compteBloque u' = true <-> tentativesConnexion u' = 5))
  /\ (compteBloque u' = true -> dateBlocage u' = Some now)
  /\ (compteBloque u' = false -> dateBlocage u' = dateBlocage u)
  /\ lockoutInvariant u'.
Proof.
  intros He Hf Hb Hs Hc u' users'.
  assert (Hcnt : tentativesConnexion u' = tentativesConnexion u + 1)
    by apply incrementLoginAttempts_counter.
  assert (Hblk := incrementLoginAttempts_blocked now u Hb). fold u' in Hblk.
  assert (Hlog := login_wrong_password now mail pw users u He Hf Hb Hs Hc).
  fold u' in Hlog.
  destruct (incrementLoginAttempts_paths now u) as [Hid _]. fold u' in Hid.
  split; [exact Hlog |].
  split; [apply failed_login_stores; assumption |].
  split.
  { intros v Hv Hne. subst users'. rewrite Hlog. cbn [snd].
    apply save_keeps_others; [exact Hv | congruence]. }
  split; [subst users'; rewrite Hlog; apply save_length |].
  split; [exact Hcnt |].
  split; [rewrite Hcnt; exact Hblk |].
  split.
  { intros Hinv. specialize (Hinv Hb). rewrite Hblk, Hcnt. lia. }
  split.
  { subst u'. unfold incrementLoginAttempts; simpl.
    destruct (5 <=? tentativesConnexion u + 1); simpl; [reflexivity |].
    rewrite Hb; discriminate. }
  split.
  { subst u'. unfold incrementLoginAttempts; simpl.
    destruct (5 <=? tentativesConnexion u + 1); simpl; [discriminate | reflexivity]. }
  apply incrementLoginAttempts_keeps_invariant. exact Hb.
Qed.

(** C5: [updateLastLogin] sets the counter of failed attempts to 0 and the
    last-login time to the time of the call, whatever the counter was, and
    leaves the blocked flag, the date of blocking and every other path as
    they were.  A login with the right password on an account that is
    neither blocked nor inactive answers 200 and stores that: after the
    request the account of that email in the collection has a counter of
    0, the time of the request as last login, and the flag and date of
    blocking it had; every other stored user is as before and no user is
    added or removed.  The same holds of the method saved on any stored
    user, blocked or not. *)
Theorem C5_successful_login_resets_counter :
  (forall (now : Z) (u : User),
      let u' := updateLastLogin now u in
      tentativesConnexion u' = 0
      /\ derniereConnexion u' = now
      /\ compteBloque u' = compteBloque u
      /\ dateBlocage u' = dateBlocage u
      /\ _id u' = _id u /\ nom u' = nom u /\ prenom u' = prenom u
      /\ email u' = email u /\ password u' = password u
      /\ statut u' = statut u /\ role u' = role u /\ avatar u' = avatar u
      /\ telephone u' = telephone u /\ poste u' = poste u
      /\ departement u' = departement u /\ dateEmbauche u' = dateEmbauche u
      /\ emailVerifie u' = emailVerifie u)
  /\ (forall (now : Z) (mail pw : string) (users : list User) (u : User),
         AuthRoutes.login_errors mail pw = [] ->
         findOne_email (normalizeEmail mail) users = Some u ->
         compteBloque u = false ->
         statut u = "actif" ->
         comparePassword u pw = true ->
         let users' := snd (AuthRoutes.login now mail pw users) in
         status (fst (AuthRoutes.login now mail pw users)) = 200
         /\ users' = save (updateLastLogin now u) users
         /\ (exists v,
                findOne_email (normalizeEmail mail) users' = Some v
                /\ tentativesConnexion v = 0
                /\ derniereConnexion v = now
                /\ compteBloque v = compteBloque u
                /\ dateBlocage v = dateBlocage u)
         /\ (forall w, In w users -> _id w <> _id u -> In w users')
         /\ List.length users' = List.length users)
  /\ (forall (now : Z) (users : list User) (u : User),
         findOne_email (email u) users = Some u ->
         exists v,
           findOne_email (email u) (save (updateLastLogin now u) users) = Some v
           /\ tentativesConnexion v = 0
           /\ derniereConnexion v = now
           /\ compteBloque v = compteBloque u
           /\ dateBlocage v = dateBlocage u).
Proof.
  split; [| split].
  - intros now u u'. subst u'. unfold updateLastLogin. simpl.
    repeat split; reflexivity.
  - intros now mail pw users u He Hf Hb Hs Hc users'. subst users'.
    rewrite (login_right_password now mail pw users u He Hf Hb Hs Hc). cbn [fst snd].
    split; [reflexivity |]. split; [reflexivity |]. split; [| split].
    + exists (updateLastLogin now u).
      split; [| repeat split; reflexivity].
      apply (findOne_email_save _ _ u); [exact Hf | reflexivity |].
      simpl. apply (findOne_email_In _ _ _ Hf).
    + intros w Hw Hne. apply save_keeps_others; [exact Hw | exact Hne].
    + apply save_length.
  - intros now users u Hf. exists (updateLastLogin now u).
    split; [| repeat split; reflexivity].
    apply (findOne_email_save _ _ u); [exact Hf | reflexivity | reflexivity].
Qed.

(** C4: a login request that passes the validators of the route (a valid
    email, a password that is not empty) and whose email is that of a
    blocked account answers 423 with the message of the blocked account
    and leaves the collection as it was: the answer is the same for any
    two such passwords, and for every password it is the same whatever
    [bcrypt.compare] would return, so the comparison is not consulted. *)
Theorem C4_blocked_login_does_not_compare
        (now : Z) (mail : string) (users : list User) (u : User) :
  isEmail mail = true ->
  findOne_email (normalizeEmail mail) users = Some u ->
  compteBloque u = true ->
  (forall pw1 pw2 : string,
      pw1 <> "" -> pw2 <> "" ->
      AuthRoutes.login now mail pw1 users
      = (failure 423 "Compte bloqué. Contactez l'administrateur.", users)
      /\ AuthRoutes.login now mail pw1 users = AuthRoutes.login now mail pw2 users)
  /\ (forall (cmp : string -> string -> bool) (pw : string),
         @AuthRoutes.login (with_compare _ cmp) now mail pw users
         = AuthRoutes.login now mail pw users).
Proof.
  intros Hm Hf Hb. split.
  - intros pw1 pw2 H1 H2.
    assert (E1 : AuthRoutes.login_errors mail pw1 = [])
      by (apply login_errors_nil; tauto).
    assert (E2 : AuthRoutes.login_errors mail pw2 = [])
      by (apply login_errors_nil; tauto).
    rewrite (login_blocked now mail pw1 users u E1 Hf Hb).
    rewrite (login_blocked now mail pw2 users u E2 Hf Hb).
    split; reflexivity.
  - intros cmp pw. unfold AuthRoutes.login, AuthRoutes.login_errors. simpl.
    destruct (AuthRoutes.check (isEmail mail) "Email invalide"
              ++ AuthRoutes.check (negb (pw =? "")%string) "Mot de passe requis")%list;
      [| reflexivity].
    rewrite Hf, Hb. reflexivity.
Qed.

End Lockout.

(** ** The authorization gate *)

Section GateOrder.
Context `{Platform}.

Import UserModel.

Lemma findById_id (uid : string) (users : list User) (u : User) :
  findById uid users = JS.Ok (Some u) -> _id u = uid /\ isObjectId uid = true.
Proof.
  unfold findById. destruct (isObjectId uid); [| discriminate].
  intros E. injection E as E. apply find_some in E.
  destruct E as [_ E]. apply String.eqb_eq in E. split; [exact E | reflexivity].
Qed.

Lemma protect_with_bearer (now : Z) (authorization : option string)
      (token : option string) (users : list User) :
  bearer authorization = Some token ->
  Middleware.protect now authorization users
  = match jwt_verify now token with
    | VerifyThrows e => Reject (Middleware.protect_catch e)
    | Decoded uid =>
        match findById uid users with
        | JS.Throw e => Reject (Middleware.protect_catch e)
        | JS.Ok None =>
            Reject (failure 401 "Token invalide - utilisateur non trouvé")
        | JS.Ok (Some user) =>
            if negb (String.eqb (statut user) "actif")
            then Reject (failure 403 "Compte inactif")
            else if compteBloque user
            then Reject (failure 423 "Compte bloqué")
            else Next (mkIdentity (_id user) (email user) (nom user) (prenom user))
        end
    end.
Proof.
  unfold bearer, Middleware.protect. destruct authorization as [h |]; [| discriminate].
  destruct (negb (String.eqb h "") && JS.startsWith "Bearer" h); [| discriminate].
  intros E. injection E as E. subst token. reflexivity.
Qed.



End GateOrder.

(** ** Registration *)

Section Registration.
Context `{Platform}.

Import UserModel.

Lemma insert_fresh (u : User) (users : list User) :
  (forall v, In v users -> _id v <> _id u /\ email v <> email u) ->
  insert u users = JS.Ok (users ++ [u])%list.
Proof.
  intros Hfresh. unfold insert.
  destruct (existsb _ users) eqn:E; [| reflexivity].
  apply existsb_exists in E. destruct E as [v [Hin Hv]].
  destruct (Hfresh v Hin) as [Hi He].
  apply String.eqb_neq in Hi, He. rewrite Hi, He in Hv. discriminate.
Qed.

(** C10: a registration request that passes the validators of the route
    and of the schema, for an email and an ObjectId that are not stored
    yet, answers 201 and appends one user whose role is the role of the
    body when the body has one (so "admin" and "manager" are stored as
    sent; the handler takes no token and checks no caller), and
    "utilisateur" when the body has none; the role in the answer is the
    stored one. *)
Theorem C10_register_stores_the_role_of_the_body
        (now : Z) (newId : string) (b : AuthRoutes.RegisterBody) (users : list User) :
  let fields :=
    mkFields (trim (AuthRoutes.nom b)) (trim (AuthRoutes.prenom b))
             (normalizeEmail (AuthRoutes.email b)) (AuthRoutes.password b)
             (AuthRoutes.telephone b) (AuthRoutes.poste b)
             (AuthRoutes.departement b) now (AuthRoutes.role b) in
  AuthRoutes.register_errors b = [] ->
  findOne_email (normalizeEmail (AuthRoutes.email b)) users = None ->
  validate (build now newId fields) = true ->
  (forall v, In v users ->
             _id v <> newId /\ email v <> toLowerCase (normalizeEmail (AuthRoutes.email b))) ->
  exists u : User,
    AuthRoutes.register now newId b users
    = (mkResponse 201 true (Some "Utilisateur créé avec succès")
                  (Auth (AuthRoutes.generateToken newId) (AuthRoutes.view u false)),
       (users ++ [u])%list)
    /\ _id u = newId
    /\ v_role (AuthRoutes.view u false) = role u
    /\ (forall r, AuthRoutes.role b = Some r -> role u = r)
    /\ (AuthRoutes.role b = Some "admin" -> role u = "admin")
    /\ (AuthRoutes.role b = Some "manager" -> role u = "manager")
    /\ (AuthRoutes.role b = None -> role u = "utilisateur").
Proof.
  intros fields He Hf Hv Hfresh.
  exists (preSave (build now newId fields)).
  split.
  - unfold AuthRoutes.register. rewrite He, Hf. fold fields.
    unfold create. rewrite Hv.
    rewrite insert_fresh; [reflexivity |].
    intros v Hin. exact (Hfresh v Hin).
  - simpl. split; [reflexivity |]. split; [reflexivity |].
    repeat split; intros;
      match goal with E : AuthRoutes.role b = _ |- _ => rewrite E end; reflexivity.
Qed.

End Registration.

(** ** Reading and deleting one record *)

Section OwnerOnly.
Context `{Platform}.

Import PerformanceModel.


Lemma populate_id (users : list UserModel.User) (p : Performance) (o : Owner) :
  PerformanceRoutes.populate users p = Some o -> o_id o = utilisateur p.
Proof.
  unfold PerformanceRoutes.populate.
  destruct (find _ users) as [u |] eqn:E; [| discriminate].
  intros Ho. injection Ho as <-. simpl.
  apply find_some in E. destruct E as [_ E]. apply String.eqb_eq in E. exact E.
Qed.




End OwnerOnly.

(** ** The summary *)

Section SummaryOfNothing.
Context `{Platform}.

Import PerformanceModel.

Lemma withRates_zero :
  PerformanceRoutes.withRates PerformanceRoutes.zeroSummary
  = PerformanceRoutes.zeroSummary.
Proof. reflexivity. Qed.

(** C7: when no stored record passes the [$match] of the summary (the
    user, the year, the status "valide" and, when a month is asked for,
    the month), the answer is 200 with a result whose totals, count,
    average satisfaction and two rates are all 0; and whatever is stored
    and asked, the handler answers 200 with a result. *)
Theorem C7_summary_of_no_record_is_zero
        (currentYear : Z) (user : Identity) (q_annee q_mois : option string)
        (perfs : list Performance) :
  ((forall p, In p perfs ->
              PerformanceRoutes.matchFilter currentYear user q_annee q_mois p = false) ->
   exists s : Summary,
     PerformanceRoutes.summary currentYear user q_annee q_mois perfs
     = mkResponse 200 true None (Stats s)
     /\ totalCA s = JS.of_Z 0 /\ totalObjectif s = JS.of_Z 0
     /\ totalClients s = 0 /\ totalRDV s = 0 /\ totalVentes s = 0
     /\ totalEvenements s = 0 /\ satisfactionMoyenne s = JS.of_Z 0
     /\ count s = 0
     /\ s_tauxTransformation s = JS.of_Z 0 /\ s_tauxObjectif s = JS.of_Z 0)
  /\ (exists s : Summary,
         PerformanceRoutes.summary currentYear user q_annee q_mois perfs
         = mkResponse 200 true None (Stats s)).
Proof.
  split.
  - intros Hnone. exists PerformanceRoutes.zeroSummary.
    split; [| repeat split].
    unfold PerformanceRoutes.summary.
    assert (E : filter (PerformanceRoutes.matchFilter currentYear user q_annee q_mois)
                       perfs = []).
    { induction perfs as [| p rest IH]; [reflexivity |].
      simpl. rewrite (Hnone p (or_introl eq_refl)).
      apply IH. intros q Hq. apply Hnone. right. exact Hq. }
    rewrite E. simpl. rewrite withRates_zero. reflexivity.
  - eexists. unfold PerformanceRoutes.summary. reflexivity.
Qed.

End SummaryOfNothing.

(** ** The upsert *)

Section Upsert.
Context `{Platform}.

Import PerformanceModel.

Lemma samePeriod_spec (u : string) (y m : Z) (p : Performance) :
  samePeriod u y m p = true <-> utilisateur p = u /\ annee p = y /\ mois p = m.
Proof.
  unfold samePeriod. rewrite !andb_true_iff, String.eqb_eq, !Z.eqb_eq. tauto.
Qed.

Lemma samePeriod_same_key (p q : Performance) :
  utilisateur p = utilisateur q -> annee p = annee q -> mois p = mois q ->
  forall u y m, samePeriod u y m p = samePeriod u y m q.
Proof.
  intros Eu Ey Em u y m. unfold samePeriod. rewrite Eu, Ey, Em. reflexivity.
Qed.

Lemma id_unique (perfs : list Performance) (p q : Performance) :
  NoDup (map _id perfs) -> In p perfs -> In q perfs -> _id p = _id q -> p = q.
Proof.
  induction perfs as [| a rest IH]; simpl; intros ND Hp Hq E; [contradiction |].
  inversion ND as [| x l Hnotin ND']; subst.
  destruct Hp as [-> | Hp], Hq as [-> | Hq].
  - reflexivity.
  - exfalso. apply Hnotin. rewrite E. apply in_map. exact Hq.
  - exfalso. apply Hnotin. rewrite <- E. apply in_map. exact Hp.
  - apply IH; assumption.
Qed.

Lemma count_zero_find (u : string) (y m : Z) (perfs : list Performance) :
  countPeriod u y m perfs = 0%nat <-> find (samePeriod u y m) perfs = None.
Proof.
  unfold countPeriod. induction perfs as [| p rest IH]; simpl; [tauto |].
  destruct (samePeriod u y m p); simpl; [split; discriminate | exact IH].
Qed.

(** *** Replacing a document by one with the same key *)

Lemma replace_keeps_ids (docId : string) (new : Performance) (perfs : list Performance) :
  _id new = docId ->
  map _id (map (fun p => if String.eqb (_id p) docId then new else p) perfs)
  = map _id perfs.
Proof.
  intros E. rewrite map_map. apply map_ext. intros p.
  destruct (String.eqb_spec (_id p) docId); congruence.
Qed.

Lemma replace_keeps_counts (docId : string) (new old : Performance)
      (perfs : list Performance) :
  NoDup (map _id perfs) -> In old perfs -> _id old = docId ->
  (forall u y m, samePeriod u y m new = samePeriod u y m old) ->
  forall u y m,
    countPeriod u y m (map (fun p => if String.eqb (_id p) docId then new else p) perfs)
    = countPeriod u y m perfs.
Proof.
  intros ND Hold Eid Hkey u y m. unfold countPeriod.
  rewrite filter_map_swap, length_map. f_equal.
  apply filter_ext_in. intros p Hp.
  destruct (String.eqb_spec (_id p) docId) as [E | E]; [| reflexivity].
  rewrite Hkey. f_equal. apply (id_unique perfs); congruence.
Qed.

(** *** Inserting a document *)

Lemma insert_ok (p : Performance) (perfs perfs' : list Performance) :
  insert p perfs = JS.Ok perfs' ->
  perfs' = (perfs ++ [p])%list
  /\ ~ In (_id p) (map _id perfs)
  /\ countPeriod (utilisateur p) (annee p) (mois p) perfs = 0%nat.
Proof.
  unfold insert.
  destruct (existsb _ perfs) eqn:E; [discriminate |].
  intros Eq. injection Eq as <-. split; [reflexivity |].
  split.
  - intros Hin. apply in_map_iff in Hin. destruct Hin as [q [Hid Hq]].
    assert (Hex : existsb (fun q => String.eqb (_id q) (_id p)
                                    || samePeriod (utilisateur p) (annee p) (mois p) q)
                          perfs = true).
    { apply existsb_exists. exists q. split; [exact Hq |].
      apply orb_true_iff. left. apply String.eqb_eq. exact Hid. }
    congruence.
  - apply count_zero_find.
    destruct (find _ perfs) as [q |] eqn:Ef; [| reflexivity].
    apply find_some in Ef. destruct Ef as [Hq Hk].
    assert (Hex : existsb (fun q => String.eqb (_id q) (_id p)
                                    || samePeriod (utilisateur p) (annee p) (mois p) q)
                          perfs = true).
    { apply existsb_exists. exists q. split; [exact Hq |].
      apply orb_true_iff. right. exact Hk. }
    congruence.
Qed.

Lemma insert_fresh_period (p : Performance) (perfs : list Performance) :
  ~ In (_id p) (map _id perfs) ->
  countPeriod (utilisateur p) (annee p) (mois p) perfs = 0%nat ->
  insert p perfs = JS.Ok (perfs ++ [p])%list.
Proof.
  intros Hid Hc. unfold insert.
  destruct (existsb _ perfs) eqn:E; [| reflexivity].
  apply existsb_exists in E. destruct E as [q [Hq Hk]].
  apply orb_true_iff in Hk. destruct Hk as [Hk | Hk].
  - apply String.eqb_eq in Hk. exfalso. apply Hid. rewrite <- Hk.
    apply in_map. exact Hq.
  - apply count_zero_find in Hc.
    apply (find_none _ _ Hc) in Hq. congruence.
Qed.

Lemma count_app_one (u : string) (y m : Z) (p : Performance) (perfs : list Performance) :
  countPeriod u y m (perfs ++ [p])
  = (countPeriod u y m perfs + if samePeriod u y m p then 1 else 0)%nat.
Proof.
  unfold countPeriod. rewrite filter_app, length_app. simpl.
  destruct (samePeriod u y m p); reflexivity.
Qed.

Lemma append_keeps_unique (p : Performance) (perfs : list Performance) :
  uniqueIndexes perfs ->
  ~ In (_id p) (map _id perfs) ->
  countPeriod (utilisateur p) (annee p) (mois p) perfs = 0%nat ->
  uniqueIndexes (perfs ++ [p]).
Proof.
  intros [ND Hc] Hid H0. split.
  - rewrite map_app. simpl. apply NoDup_app.
    + exact ND.
    + constructor; [simpl; tauto | constructor].
    + intros x Hx [<- | []]. exact (Hid Hx).
  - intros u y m. rewrite count_app_one.
    destruct (samePeriod u y m p) eqn:E.
    + apply samePeriod_spec in E. destruct E as [<- [<- <-]]. rewrite H0. lia.
    + specialize (Hc u y m). lia.
Qed.

(** *** What one request does to the collection *)

Lemma updateValidators_build (now : Z) (newId : string) (user : Identity)
      (b : PerformanceRoutes.Body) :
  PerformanceRoutes.updateValidators b = true ->
  validate (PerformanceRoutes.build now newId user b) = true.
Proof.
  unfold PerformanceRoutes.updateValidators, validate, PerformanceRoutes.build.
  cbn [annee mois chiffreAffaires objectifCA nouveauxClients rdvRealises rdvPlanifies
       ventesRealisees dossiersMAJ totalDossiers evenements satisfaction commentaires
       statut].
  unfold PerformanceRoutes.optional, PerformanceRoutes.orDefault.
  destruct (PerformanceRoutes.b_rdvPlanifies b), (PerformanceRoutes.b_evenements b),
    (PerformanceRoutes.b_satisfaction b), (PerformanceRoutes.b_statut b);
    intros Hv; exact Hv.
Qed.

Lemma consistent_preSave (now : Z) (newId : string) (user : Identity)
      (b : PerformanceRoutes.Body) :
  consistent b -> preSave (PerformanceRoutes.build now newId user b) = None.
Proof.
  intros [Hv Hd]. unfold preSave. cbn [PerformanceRoutes.build ventesRealisees
    rdvRealises dossiersMAJ totalDossiers].
  destruct (Z.gtb_spec (PerformanceRoutes.b_ventesRealisees b)
                       (PerformanceRoutes.b_rdvRealises b)); [lia |].
  destruct (Z.gtb_spec (PerformanceRoutes.b_dossiersMAJ b)
                       (PerformanceRoutes.b_totalDossiers b)); [lia | reflexivity].
Qed.

(** A request either leaves the collection as it was, or replaces the
    stored document of its period by the updated one (200), or appends a
    new document (201). *)
Lemma upsert_outcome (now : Z) (newId : string) (user : Identity)
      (b : PerformanceRoutes.Body) (users : list UserModel.User)
      (perfs : list Performance) :
  let u := id user in
  let y := PerformanceRoutes.b_annee b in
  let m := PerformanceRoutes.b_mois b in
  let out := PerformanceRoutes.upsert now newId user b users perfs in
  snd out = perfs
  \/ (exists existing old,
         find (samePeriod u y m) perfs = Some existing
         /\ find (fun p => String.eqb (_id p) (_id existing)) perfs = Some old
         /\ status (fst out) = 200
         /\ snd out
            = map (fun p => if String.eqb (_id p) (_id existing)
                            then PerformanceRoutes.applyUpdate user b old else p) perfs)
  \/ (find (samePeriod u y m) perfs = None
      /\ status (fst out) = 201
      /\ insert (PerformanceRoutes.build now newId user b) perfs = JS.Ok (snd out)).
Proof.
  intros u y m out. subst out. unfold PerformanceRoutes.upsert.
  destruct (PerformanceRoutes.upsert_errors b) as [| e errs]; [| left; reflexivity].
  unfold findOne_period. fold u y m.
  destruct (isObjectId u); [| left; reflexivity].
  destruct (find (samePeriod u y m) perfs) as [existing |] eqn:Ef.
  - unfold PerformanceRoutes.findByIdAndUpdate.
    destruct (PerformanceRoutes.updateValidators b); [| left; reflexivity].
    destruct (find (fun p => String.eqb (_id p) (_id existing)) perfs) as [old |] eqn:Eo;
      [| left; reflexivity].
    right; left. exists existing, old. simpl.
    repeat split; try reflexivity; assumption.
  - unfold saveNew.
    destruct (validate _); [| left; reflexivity].
    destruct (preSave _); [left; reflexivity |].
    destruct (insert _ perfs) as [perfs' | e] eqn:Ei.
    + right; right. simpl. repeat split; reflexivity.
    + left. reflexivity.
Qed.

Lemma applyUpdate_key (user : Identity) (b : PerformanceRoutes.Body)
      (old : Performance) :
  let new := PerformanceRoutes.applyUpdate user b old in
  _id new = _id old
  /\ samePeriod (id user) (PerformanceRoutes.b_annee b) (PerformanceRoutes.b_mois b) new
     = true.
Proof.
  simpl. split; [reflexivity |]. apply samePeriod_spec. simpl. tauto.
Qed.

(** The update path: the found document and the replaced one are the same
    stored document. *)
Lemma update_same_document (u : string) (y m : Z) (perfs : list Performance)
      (existing old : Performance) :
  NoDup (map _id perfs) ->
  find (samePeriod u y m) perfs = Some existing ->
  find (fun p => String.eqb (_id p) (_id existing)) perfs = Some old ->
  old = existing /\ In existing perfs /\ samePeriod u y m existing = true.
Proof.
  intros ND Ef Eo. apply find_some in Ef, Eo.
  destruct Ef as [Hin Hk], Eo as [Hin' Hid]. apply String.eqb_eq in Hid.
  split; [apply (id_unique perfs); assumption | split; assumption].
Qed.

Lemma upsert_keeps_unique (now : Z) (newId : string) (user : Identity)
      (b : PerformanceRoutes.Body) (users : list UserModel.User)
      (perfs : list Performance) :
  uniqueIndexes perfs ->
  uniqueIndexes (snd (PerformanceRoutes.upsert now newId user b users perfs)).
Proof.
  intros Hu.
  destruct (upsert_outcome now newId user b users perfs)
    as [E | [[existing [old [Ef [Eo [_ E]]]]] | [_ [_ Ei]]]].
  - rewrite E. exact Hu.
  - rewrite E. destruct Hu as [ND Hc].
    destruct (update_same_document _ _ _ perfs existing old ND Ef Eo)
      as [-> [Hin Hk]].
    destruct (applyUpdate_key user b existing) as [Hid Hk'].
    split.
    + rewrite replace_keeps_ids; assumption.
    + intros u y m.
      rewrite (replace_keeps_counts (_id existing) _ existing perfs ND Hin eq_refl);
        [apply Hc |].
      apply samePeriod_spec in Hk, Hk'.
      apply samePeriod_same_key; intuition congruence.
  - apply insert_ok in Ei. destruct Ei as [-> [Hid H0]].
    apply append_keeps_unique; assumption.
Qed.

Lemma serve_keeps_unique (calls : list PerformanceRoutes.UpsertCall)
      (users : list UserModel.User) (perfs : list Performance) :
  uniqueIndexes perfs ->
  uniqueIndexes (snd (PerformanceRoutes.serve calls users perfs)).
Proof.
  revert perfs. induction calls as [| c rest IH]; intros perfs Hu; [exact Hu |].
  simpl.
  pose proof (upsert_keeps_unique (PerformanceRoutes.c_now c)
                (PerformanceRoutes.c_newId c) (PerformanceRoutes.c_user c)
                (PerformanceRoutes.c_body c) users perfs Hu) as H1.
  destruct (PerformanceRoutes.upsert _ _ _ _ users perfs) as [r perfs1].
  specialize (IH perfs1 H1).
  destruct (PerformanceRoutes.serve rest users perfs1) as [rs perfs2].
  exact IH.
Qed.

(** *** The two successful paths *)

Lemma upsert_creates (now : Z) (newId : string) (user : Identity)
      (b : PerformanceRoutes.Body) (users : list UserModel.User)
      (perfs : list Performance) :
  isObjectId (id user) = true ->
  PerformanceRoutes.upsert_errors b = [] ->
  PerformanceRoutes.updateValidators b = true ->
  consistent b ->
  countPeriod (id user) (PerformanceRoutes.b_annee b) (PerformanceRoutes.b_mois b) perfs
  = 0%nat ->
  ~ In newId (map _id perfs) ->
  let doc := PerformanceRoutes.build now newId user b in
  PerformanceRoutes.upsert now newId user b users perfs
  = (mkResponse 201 true (Some "Données créées avec succès")
                (PerformanceData doc (PerformanceRoutes.populate users doc)),
     (perfs ++ [doc])%list).
Proof.
  intros Hoid He Hv Hc H0 Hid doc. unfold PerformanceRoutes.upsert.
  rewrite He. unfold findOne_period. rewrite Hoid.
  apply count_zero_find in H0. rewrite H0.
  unfold saveNew. fold doc. subst doc.
  rewrite (updateValidators_build now newId user b Hv).
  rewrite (consistent_preSave now newId user b Hc).
  rewrite insert_fresh_period; [reflexivity | exact Hid |].
  apply count_zero_find. exact H0.
Qed.

Lemma upsert_updates (now : Z) (newId : string) (user : Identity)
      (b : PerformanceRoutes.Body) (users : list UserModel.User)
      (perfs : list Performance) :
  uniqueIndexes perfs ->
  isObjectId (id user) = true ->
  PerformanceRoutes.upsert_errors b = [] ->
  PerformanceRoutes.updateValidators b = true ->
  countPeriod (id user) (PerformanceRoutes.b_annee b) (PerformanceRoutes.b_mois b) perfs
  = 1%nat ->
  exists old,
    In old perfs
    /\ samePeriod (id user) (PerformanceRoutes.b_annee b) (PerformanceRoutes.b_mois b) old
       = true
    /\ let new := PerformanceRoutes.applyUpdate user b old in
       PerformanceRoutes.upsert now newId user b users perfs
       = (mkResponse 200 true (Some "Données mises à jour avec succès")
                     (PerformanceData new (PerformanceRoutes.populate users new)),
          map (fun p => if String.eqb (_id p) (_id old) then new else p) perfs).
Proof.
  intros [ND Hc] Hoid He Hv H1.
  destruct (find (samePeriod (id user) (PerformanceRoutes.b_annee b)
                             (PerformanceRoutes.b_mois b)) perfs) as [existing |] eqn:Ef.
  2: { apply count_zero_find in Ef. rewrite Ef in H1. discriminate. }
  destruct (find (fun p => String.eqb (_id p) (_id existing)) perfs) as [old |] eqn:Eo.
  2: { apply find_some in Ef. destruct Ef as [Hin _].
       apply (find_none _ _ Eo) in Hin. rewrite String.eqb_refl in Hin. discriminate. }
  destruct (update_same_document _ _ _ perfs existing old ND Ef Eo) as [-> [Hin Hk]].
  exists existing. split; [exact Hin |]. split; [exact Hk |].
  unfold PerformanceRoutes.upsert. rewrite He. unfold findOne_period.
  rewrite Hoid, Ef. unfold PerformanceRoutes.findByIdAndUpdate.
  rewrite Hv, Eo. reflexivity.
Qed.

(** What the replacement of the update path keeps. *)
Lemma update_in_place (user : Identity) (b : PerformanceRoutes.Body)
      (old : Performance) (perfs : list Performance) :
  uniqueIndexes perfs ->
  In old perfs ->
  samePeriod (id user) (PerformanceRoutes.b_annee b) (PerformanceRoutes.b_mois b) old
  = true ->
  let new := PerformanceRoutes.applyUpdate user b old in
  let perfs' := map (fun p => if String.eqb (_id p) (_id old) then new else p) perfs in
  map _id perfs' = map _id perfs
  /\ (forall u y m, countPeriod u y m perfs' = countPeriod u y m perfs)
  /\ In new perfs'
  /\ (forall p, In p perfs' -> p = new \/ In p perfs).
Proof.
  intros [ND Hc] Hin Hk new perfs'.
  destruct (applyUpdate_key user b old) as [Hid Hk']. fold new in Hid, Hk'.
  split; [apply replace_keeps_ids; exact Hid |].
  split.
  { apply (replace_keeps_counts (_id old) new old perfs ND Hin eq_refl).
    apply samePeriod_spec in Hk, Hk'.
    apply samePeriod_same_key; intuition congruence. }
  split.
  { apply in_map_iff. exists old. rewrite String.eqb_refl. tauto. }
  intros p Hp. apply in_map_iff in Hp. destruct Hp as [q [Eq Hq]].
  destruct (String.eqb (_id q) (_id old)); [left; congruence | right; congruence].
Qed.

(** The create path runs the consistency checks of [pre("save")]. *)
Lemma upsert_create_rejects_inconsistent (now : Z) (newId : string) (user : Identity)
      (b : PerformanceRoutes.Body) (users : list UserModel.User)
      (perfs : list Performance) :
  PerformanceRoutes.upsert_errors b = [] ->
  countPeriod (id user) (PerformanceRoutes.b_annee b) (PerformanceRoutes.b_mois b) perfs
  = 0%nat ->
  ~ consistent b ->
  PerformanceRoutes.upsert now newId user b users perfs
  = (failure 500 "Erreur serveur", perfs).
Proof.
  intros He H0 Hc. unfold PerformanceRoutes.upsert. rewrite He.
  unfold findOne_period. destruct (isObjectId (id user)); [| reflexivity].
  apply count_zero_find in H0. rewrite H0.
  unfold saveNew. destruct (validate _); [| reflexivity].
  destruct (preSave _) eqn:Ep; [reflexivity |].
  exfalso. apply Hc. unfold preSave in Ep.
  cbn [PerformanceRoutes.build ventesRealisees rdvRealises dossiersMAJ totalDossiers] in Ep.
  destruct (Z.gtb_spec (PerformanceRoutes.b_ventesRealisees b)
                       (PerformanceRoutes.b_rdvRealises b)); [discriminate |].
  destruct (Z.gtb_spec (PerformanceRoutes.b_dossiersMAJ b)
                       (PerformanceRoutes.b_totalDossiers b)); [discriminate |].
  split; assumption.
Qed.

(** *** A sequence of requests for one period *)

Lemma serve_updates (U : Identity) (Y M : Z) (i : string)
      (calls : list PerformanceRoutes.UpsertCall)
      (users : list UserModel.User) (perfs : list Performance) :
  uniqueIndexes perfs ->
  isObjectId (id U) = true ->
  countPeriod (id U) Y M perfs = 1%nat ->
  (forall p, In p perfs -> samePeriod (id U) Y M p = true -> _id p = i) ->
  Forall (validCall U Y M) calls ->
  let out := PerformanceRoutes.serve calls users perfs in
  map status (fst out) = repeat 200 (List.length calls)
  /\ countPeriod (id U) Y M (snd out) = 1%nat
  /\ map _id (snd out) = map _id perfs
  /\ (forall p, In p (snd out) -> samePeriod (id U) Y M p = true -> _id p = i).
Proof.
  intros Hu Hoid. revert perfs Hu.
  induction calls as [| c rest IH]; intros perfs Hu H1 Hi Hall.
  - simpl. auto.
  - inversion Hall as [| c' rest' Hc Hrest]; subst.
    destruct Hc as [EU [EY [EM [He Hv]]]].
    simpl. rewrite EU.
    pose proof (upsert_keeps_unique (PerformanceRoutes.c_now c)
                  (PerformanceRoutes.c_newId c) U (PerformanceRoutes.c_body c)
                  users perfs Hu) as Hu1.
    rewrite <- EY, <- EM in H1.
    destruct (upsert_updates (PerformanceRoutes.c_now c) (PerformanceRoutes.c_newId c)
                             U (PerformanceRoutes.c_body c) users perfs Hu Hoid He Hv H1)
      as [old [Hin [Hk Eup]]].
    cbv zeta in Eup.
    destruct (update_in_place U (PerformanceRoutes.c_body c) old perfs Hu Hin Hk)
      as [Hids [Hcnt [_ Hel]]].
    rewrite Eup in *. cbn [fst snd] in Hu1.
    set (new := PerformanceRoutes.applyUpdate U (PerformanceRoutes.c_body c) old) in *.
    set (perfs1 := map (fun p => if String.eqb (_id p) (_id old) then new else p) perfs)
      in *.
    assert (H1' : countPeriod (id U) Y M perfs1 = 1%nat).
    { rewrite Hcnt. rewrite <- EY, <- EM. exact H1. }
    assert (Hi' : forall p, In p perfs1 -> samePeriod (id U) Y M p = true -> _id p = i).
    { intros p Hp Hkp. destruct (Hel p Hp) as [-> | Hp'].
      - change (_id new) with (_id old). apply Hi; [exact Hin |].
        rewrite <- EY, <- EM. exact Hk.
      - apply Hi; assumption. }
    destruct (IH perfs1 Hu1 H1' Hi' Hrest) as [Hs [Hc1 [Hid2 Hi2]]].
    destruct (PerformanceRoutes.serve rest users perfs1) as [rs perfs2].
    cbn [fst snd] in *. cbn [List.length repeat map status].
    rewrite Hs, Hc1, Hid2, Hids. auto.
Qed.

(** C1: served one after the other from a collection that keeps its
    unique indexes, requests [POST /] never leave two stored records for
    one (user, year, month), whatever the requests are.  A request that
    passes the validators of the route and of the schema, for a period that
    has a record, answers 200 and replaces that record, under its [_id], by
    the record with the paths of the body.  When the requests are those of
    one user for one period that has no record yet, each passing the
    validators and the first also the two consistency rules, the first
    answers 201 and every later one answers 200, one record is stored for
    the period, it has the [_id] given to the first request, and the
    collection has gained exactly that document. *)
Theorem C1_upsert_keeps_one_record_per_period (users : list UserModel.User) :
  (forall calls perfs,
      uniqueIndexes perfs ->
      forall u y m,
        (countPeriod u y m (snd (PerformanceRoutes.serve calls users perfs)) <= 1)%nat)
  /\ (forall now newId (U : Identity) b perfs,
         uniqueIndexes perfs ->
         isObjectId (id U) = true ->
         PerformanceRoutes.upsert_errors b = [] ->
         PerformanceRoutes.updateValidators b = true ->
         countPeriod (id U) (PerformanceRoutes.b_annee b) (PerformanceRoutes.b_mois b) perfs
         = 1%nat ->
         exists old,
           In old perfs
           /\ samePeriod (id U) (PerformanceRoutes.b_annee b) (PerformanceRoutes.b_mois b)
                         old = true
           /\ let new := PerformanceRoutes.applyUpdate U b old in
              PerformanceRoutes.upsert now newId U b users perfs
              = (mkResponse 200 true (Some "Données mises à jour avec succès")
                            (PerformanceData new (PerformanceRoutes.populate users new)),
                 map (fun p => if String.eqb (_id p) (_id old) then new else p) perfs)
              /\ _id new = _id old
              /\ rdvRealises new = PerformanceRoutes.b_rdvRealises b
              /\ ventesRealisees new = PerformanceRoutes.b_ventesRealisees b)
  /\ (forall (U : Identity) (Y M : Z) first rest perfs,
         uniqueIndexes perfs ->
         isObjectId (id U) = true ->
         countPeriod (id U) Y M perfs = 0%nat ->
         Forall (validCall U Y M) (first :: rest) ->
         consistent (PerformanceRoutes.c_body first) ->
         ~ In (PerformanceRoutes.c_newId first) (map _id perfs) ->
         let out := PerformanceRoutes.serve (first :: rest) users perfs in
         map status (fst out) = 201 :: repeat 200 (List.length rest)
         /\ countPeriod (id U) Y M (snd out) = 1%nat
         /\ map _id (snd out)
            = (map _id perfs ++ [PerformanceRoutes.c_newId first])%list
         /\ (forall p, In p (snd out) -> samePeriod (id U) Y M p = true ->
                       _id p = PerformanceRoutes.c_newId first)).
Proof.
  split; [| split].
  - intros calls perfs Hu u y m.
    destruct (serve_keeps_unique calls users perfs Hu) as [_ Hc]. apply Hc.
  - intros now newId U b perfs Hu Hoid He Hv H1.
    destruct (upsert_updates now newId U b users perfs Hu Hoid He Hv H1)
      as [old [Hin [Hk Eup]]].
    exists old. split; [exact Hin |]. split; [exact Hk |].
    cbv zeta in *. rewrite Eup. repeat split; reflexivity.
  - intros U Y M first rest perfs Hu Hoid H0 Hall Hcons Hfresh out. subst out.
    inversion Hall as [| c' rest' Hc Hrest]; subst.
    destruct Hc as [EU [EY [EM [He Hv]]]]. simpl. rewrite EU.
    rewrite <- EY, <- EM in H0.
    pose proof (upsert_creates (PerformanceRoutes.c_now first)
                  (PerformanceRoutes.c_newId first) U (PerformanceRoutes.c_body first)
                  users perfs Hoid He Hv Hcons H0 Hfresh) as Ecr.
    cbv zeta in Ecr. rewrite Ecr.
    set (doc := PerformanceRoutes.build (PerformanceRoutes.c_now first)
                  (PerformanceRoutes.c_newId first) U (PerformanceRoutes.c_body first)).
    assert (Hu1 : uniqueIndexes (perfs ++ [doc])).
    { apply append_keeps_unique; [exact Hu | exact Hfresh | exact H0]. }
    assert (H1 : countPeriod (id U) Y M (perfs ++ [doc]) = 1%nat).
    { rewrite count_app_one. rewrite <- EY, <- EM, H0.
      replace (samePeriod _ _ _ doc) with true; [reflexivity |].
      symmetry. apply samePeriod_spec. simpl. tauto. }
    assert (Hi : forall p, In p (perfs ++ [doc]) -> samePeriod (id U) Y M p = true ->
                           _id p = PerformanceRoutes.c_newId first).
    { intros p Hp Hkp. apply in_app_or in Hp. destruct Hp as [Hp | [<- | []]].
      - apply count_zero_find in H0. apply (find_none _ _ H0) in Hp.
        rewrite EY, EM in Hp. congruence.
      - reflexivity. }
    destruct (serve_updates U Y M (PerformanceRoutes.c_newId first) rest users
                (perfs ++ [doc]) Hu1 Hoid H1 Hi Hrest) as [Hs [Hc1 [Hid Hi2]]].
    destruct (PerformanceRoutes.serve rest users (perfs ++ [doc])) as [rs perfs2].
    cbn [fst snd] in *. cbn [map status].
    rewrite Hs, Hc1, Hid, map_app. cbn [map]. auto.
Qed.

End Upsert.

(** ** The consistency rules on the two paths of the upsert *)

(** C2: with a stored record of the user for March 2024, a request for
    the same period with 10 sales for 5 appointments answers 200 and the
    stored record then has 10 sales for 5 appointments; the same request
    on an empty collection answers 500 and stores nothing. *)
Theorem C2_update_path_skips_consistency_checks :
  let out := @PerformanceRoutes.upsert Demo.platform 600 "64b0000000000000000000f2"
               (Demo.me Demo.alice) Demo.badBody Demo.users Demo.perfs in
  PerformanceRoutes.b_ventesRealisees Demo.badBody
  > PerformanceRoutes.b_rdvRealises Demo.badBody
  /\ PerformanceModel.countPeriod Demo.idA 2024 3 Demo.perfs = 1%nat
  /\ status (fst out) = 200
  /\ success (fst out) = true
  /\ map (fun p => (PerformanceModel._id p, PerformanceModel.ventesRealisees p,
                    PerformanceModel.rdvRealises p)) (snd out)
     = [("64b0000000000000000000f1", 10, 5)]
  /\ @PerformanceRoutes.upsert Demo.platform 600 "64b0000000000000000000f2"
       (Demo.me Demo.alice) Demo.badBody Demo.users []
     = (failure 500 "Erreur serveur", []).
Proof.
  vm_compute. repeat split; reflexivity.
Qed.

(** ** The rates *)

Section Rates.
Import PerformanceModel.

Lemma In_upTo (n : nat) (x : Z) : 0 <= x <= Z.of_nat n -> In x (upTo n).
Proof.
  induction n as [| k IH]; intros Hx.
  - simpl. left. simpl in Hx. lia.
  - destruct (Z.eq_dec x (Z.of_nat (S k))) as [-> | Hne].
    + left. reflexivity.
    + right. apply IH. lia.
Qed.

Lemma ratesRoundUpTo_sound (n : nat) :
  ratesRoundUpTo n = true ->
  forall a b, 0 <= a <= b -> 1 <= b <= Z.of_nat n -> rateRounds a b = true.
Proof.
  unfold ratesRoundUpTo. intros Hall a b Ha Hb.
  rewrite forallb_forall in Hall.
  specialize (Hall b (In_upTo n b ltac:(lia))).
  apply orb_true_iff in Hall. destruct Hall as [H0 | Hall].
  - apply Z.eqb_eq in H0. lia.
  - rewrite forallb_forall in Hall.
    specialize (Hall a (In_upTo n a ltac:(lia))).
    apply orb_true_iff in Hall. destruct Hall as [Hlt | Hr]; [| exact Hr].
    apply Z.ltb_lt in Hlt. lia.
Qed.

Lemma ratesRoundUpTo_200 : ratesRoundUpTo 200 = true.
Proof. vm_compute. reflexivity. Qed.

Lemma rateRounds_spec (a b : Z) :
  rateRounds a b = true ->
  exists k, JS.to_Z (percent (JS.of_Z a) (JS.of_Z b)) = Some k
            /\ (k = exactPercent a b
                \/ (k = exactPercent a b - 1
                    /\ 2 * b * exactPercent a b = 200 * a + b)).
Proof.
  unfold rateRounds, roundsOrTie.
  destruct (JS.to_Z _) as [k |]; [| discriminate].
  intros Hk. exists k. split; [reflexivity |].
  apply orb_true_iff in Hk. destruct Hk as [Hk | Hk].
  - left. apply Z.eqb_eq. exact Hk.
  - right. apply andb_true_iff in Hk. destruct Hk as [H1 H2].
    split; [apply Z.eqb_eq; exact H1 | apply Z.eqb_eq; exact H2].
Qed.

(** On a Number that is not negative (and not NaN), [x > 0] is the
    negation of [x === 0]. *)
Lemma gt_zero_not_eq (x : JS.number) :
  JS.le (JS.of_Z 0) x = true ->
  JS.gt x (JS.of_Z 0) = negb (JS.strict_eq x (JS.of_Z 0)).
Proof.
  destruct x as [s | s | | s m e]; try destruct s; vm_compute; congruence.
Qed.

(** The rate of two counts [0 <= a <= b], [1 <= b <= 200]. *)
Lemma percent_of_counts (a b : Z) :
  0 <= a <= b -> 1 <= b <= 200 ->
  exists k, JS.to_Z (percent (JS.of_Z a) (JS.of_Z b)) = Some k
            /\ (k = exactPercent a b
                \/ (k = exactPercent a b - 1
                    /\ 2 * b * exactPercent a b = 200 * a + b)).
Proof.
  intros Ha Hb. apply rateRounds_spec.
  apply (ratesRoundUpTo_sound 200 ratesRoundUpTo_200); [exact Ha |].
  change (Z.of_nat 200) with 200. exact Hb.
Qed.

(** C8, as the code has it: each rate is 0 when its denominator is 0 and
    otherwise [Math.round] of the binary64 product [(a / b) * 100]; so 20
    sales for 40 appointments give 50 and a revenue of 90000 for a target
    of 100000 gives 90.  For counts [0 <= a <= b <= 200] the conversion and
    completion rates are [round (100 * a / b)], except that an exact tie
    may be rounded down.  The two rates of the summary are those of the
    virtuals on the totals, whenever the denominator is not negative. *)
Theorem C8_rates_round_the_binary64_product :
  (forall p, rdvRealises p = 0 -> tauxTransformation p = JS.of_Z 0)
  /\ (forall p, rdvRealises p <> 0 ->
                tauxTransformation p
                = JS.Math_round (JS.mul (JS.div (JS.of_Z (ventesRealisees p))
                                                (JS.of_Z (rdvRealises p)))
                                        (JS.of_Z 100)))
  /\ (forall p, 0 <= ventesRealisees p <= rdvRealises p ->
                1 <= rdvRealises p <= 200 ->
                exists k,
                  JS.to_Z (tauxTransformation p) = Some k
                  /\ (k = exactPercent (ventesRealisees p) (rdvRealises p)
                      \/ (k = exactPercent (ventesRealisees p) (rdvRealises p) - 1
                          /\ 2 * rdvRealises p
                             * exactPercent (ventesRealisees p) (rdvRealises p)
                             = 200 * ventesRealisees p + rdvRealises p)))
  /\ (forall p, rdvRealises p = 40 -> ventesRealisees p = 20 ->
                tauxTransformation p = JS.of_Z 50)
  /\ (forall p, totalDossiers p = 0 -> completudeDossiers p = JS.of_Z 0)
  /\ (forall p, totalDossiers p <> 0 ->
                completudeDossiers p
                = JS.Math_round (JS.mul (JS.div (JS.of_Z (dossiersMAJ p))
                                                (JS.of_Z (totalDossiers p)))
                                        (JS.of_Z 100)))
  /\ (forall p, 0 <= dossiersMAJ p <= totalDossiers p ->
                1 <= totalDossiers p <= 200 ->
                exists k,
                  JS.to_Z (completudeDossiers p) = Some k
                  /\ (k = exactPercent (dossiersMAJ p) (totalDossiers p)
                      \/ (k = exactPercent (dossiersMAJ p) (totalDossiers p) - 1
                          /\ 2 * totalDossiers p
                             * exactPercent (dossiersMAJ p) (totalDossiers p)
                             = 200 * dossiersMAJ p + totalDossiers p)))
  /\ (forall p, JS.strict_eq (objectifCA p) (JS.of_Z 0) = true ->
                tauxObjectif p = JS.of_Z 0)
  /\ (forall p, JS.strict_eq (objectifCA p) (JS.of_Z 0) = false ->
                tauxObjectif p
                = JS.Math_round (JS.mul (JS.div (chiffreAffaires p) (objectifCA p))
                                        (JS.of_Z 100)))
  /\ (forall p, chiffreAffaires p = JS.of_Z 90000 -> objectifCA p = JS.of_Z 100000 ->
                tauxObjectif p = JS.of_Z 90)
  /\ (forall r p, totalRDV r = rdvRealises p -> totalVentes r = ventesRealisees p ->
                  0 <= rdvRealises p ->
                  s_tauxTransformation (PerformanceRoutes.withRates r)
                  = tauxTransformation p)
  /\ (forall r p, totalObjectif r = objectifCA p -> totalCA r = chiffreAffaires p ->
                  JS.le (JS.of_Z 0) (objectifCA p) = true ->
                  s_tauxObjectif (PerformanceRoutes.withRates r) = tauxObjectif p).
Proof.
  repeat match goal with |- _ /\ _ => split end.
  - intros p E. unfold tauxTransformation. rewrite E. reflexivity.
  - intros p E. unfold tauxTransformation.
    apply Z.eqb_neq in E. rewrite E. reflexivity.
  - intros p Ha Hb. unfold tauxTransformation.
    replace (rdvRealises p =? 0) with false by (symmetry; apply Z.eqb_neq; lia).
    apply percent_of_counts; assumption.
  - intros p Er Ev. unfold tauxTransformation. rewrite Er, Ev.
    vm_compute. reflexivity.
  - intros p E. unfold completudeDossiers. rewrite E. reflexivity.
  - intros p E. unfold completudeDossiers.
    apply Z.eqb_neq in E. rewrite E. reflexivity.
  - intros p Ha Hb. unfold completudeDossiers.
    replace (totalDossiers p =? 0) with false by (symmetry; apply Z.eqb_neq; lia).
    apply percent_of_counts; assumption.
  - intros p E. unfold tauxObjectif. rewrite E. reflexivity.
  - intros p E. unfold tauxObjectif. rewrite E. reflexivity.
  - intros p Ec Eo. unfold tauxObjectif. rewrite Ec, Eo. vm_compute. reflexivity.
  - intros r p Er Ev Hpos. unfold tauxTransformation, PerformanceRoutes.withRates.
    cbn [s_tauxTransformation]. rewrite Er, Ev.
    destruct (Z.eqb_spec (rdvRealises p) 0) as [E | E].
    + rewrite E. reflexivity.
    + replace (rdvRealises p >? 0) with true; [reflexivity |].
      symmetry. apply Z.gtb_lt. lia.
  - intros r p Eo Ec Hpos. unfold tauxObjectif, PerformanceRoutes.withRates.
    cbn [s_tauxObjectif]. rewrite Eo, Ec.
    rewrite (gt_zero_not_eq (objectifCA p) Hpos).
    destruct (JS.strict_eq (objectifCA p) (JS.of_Z 0)); reflexivity.
Qed.

(** C8 as the claim states it fails for 23 sales of 40 appointments:
    [100 * 23 / 40] is 57.5 and [round] gives 58, but [23 / 40] is the
    Number just below 0.575, its product by 100 is just below 57.5, and
    the conversion rate is 57. *)
Lemma C8_tie_23_of_40_gives_57 :
  ventesRealisees Demo.perfTie = 23
  /\ rdvRealises Demo.perfTie = 40
  /\ exactPercent 23 40 = 58
  /\ tauxTransformation Demo.perfTie = JS.of_Z 57
  /\ tauxTransformation Demo.perfTie
     <> JS.of_Z (exactPercent (ventesRealisees Demo.perfTie) (rdvRealises Demo.perfTie)).
Proof.
  vm_compute. repeat split; try reflexivity. discriminate.
Qed.

End Rates.

(* ===================================================================== *)
(** * The statements on concrete data *)
(* ===================================================================== *)

(** Bob has 4 failed attempts; a fifth one blocks the stored account and
    leaves Alice as she was. *)
Lemma C3_fifth_failure_blocks_bob :
  exists u',
    UserModel.findOne_email "bob@wawtelecom.com"
      (snd (@AuthRoutes.login Demo.platform 2000 "bob@wawtelecom.com" "nope" Demo.users))
    = Some u'
    /\ UserModel.tentativesConnexion Demo.bob = 4
    /\ UserModel.tentativesConnexion u' = 5
    /\ UserModel.compteBloque u' = true
    /\ UserModel.dateBlocage u' = Some 2000
    /\ In Demo.alice
          (snd (@AuthRoutes.login Demo.platform 2000 "bob@wawtelecom.com" "nope"
                                  Demo.users)).
Proof.
  destruct (@C3_failed_login_counts_and_blocks Demo.platform 2000 "bob@wawtelecom.com"
              "nope" Demo.users Demo.bob
              ltac:(vm_compute; reflexivity) ltac:(vm_compute; reflexivity)
              ltac:(vm_compute; reflexivity) ltac:(vm_compute; reflexivity)
              ltac:(vm_compute; reflexivity))
    as [_ [Hst [Hothers [_ [Hcnt [Hblk [_ [Hdate _]]]]]]]].
  exists (UserModel.incrementLoginAttempts 2000 Demo.bob).
  assert (Hb : UserModel.compteBloque (UserModel.incrementLoginAttempts 2000 Demo.bob)
               = true).
  { apply Hblk. rewrite Hcnt. vm_compute. discriminate. }
  split; [exact Hst |]. split; [reflexivity |].
  split; [rewrite Hcnt; reflexivity |].
  split; [exact Hb |]. split; [exact (Hdate Hb) |].
  apply Hothers; [simpl; tauto | discriminate].
Defined.

(** Carol is blocked: the right and a wrong password get the same answer. *)
Lemma C4_carol_is_blocked :
  @AuthRoutes.login Demo.platform 2000 "carol@wawtelecom.com" "password123" Demo.users
  = (failure 423 "Compte bloqué. Contactez l'administrateur.", Demo.users)
  /\ @AuthRoutes.login Demo.platform 2000 "carol@wawtelecom.com" "password123" Demo.users
     = @AuthRoutes.login Demo.platform 2000 "carol@wawtelecom.com" "nope" Demo.users.
Proof.
  destruct (@C4_blocked_login_does_not_compare Demo.platform 2000 "carol@wawtelecom.com"
              Demo.users Demo.carol eq_refl eq_refl eq_refl) as [H1 _].
  apply (H1 "password123" "nope"); discriminate.
Defined.

(** Bob has 4 failed attempts; he logs in, and the stored counter is 0. *)
Lemma C5_bob_logs_in :
  UserModel.tentativesConnexion Demo.bob = 4
  /\ status (fst (@AuthRoutes.login Demo.platform 2000 "bob@wawtelecom.com" "password123"
                    Demo.users)) = 200
  /\ exists v,
      UserModel.findOne_email "bob@wawtelecom.com"
        (snd (@AuthRoutes.login Demo.platform 2000 "bob@wawtelecom.com" "password123"
                                Demo.users))
      = Some v
      /\ UserModel.tentativesConnexion v = 0
      /\ UserModel.derniereConnexion v = 2000
      /\ UserModel.compteBloque v = false.
Proof.
  destruct (@C5_successful_login_resets_counter Demo.platform) as [_ [H2 _]].
  destruct (H2 2000 "bob@wawtelecom.com" "password123" Demo.users Demo.bob
               ltac:(vm_compute; reflexivity) ltac:(vm_compute; reflexivity)
               ltac:(vm_compute; reflexivity) ltac:(vm_compute; reflexivity)
               ltac:(vm_compute; reflexivity))
    as [Hs [_ [[v [Hf [Hc [Hd [Hb _]]]]] _]]].
  split; [reflexivity |]. split; [exact Hs |].
  exists v. split; [exact Hf |]. split; [exact Hc |]. split; [exact Hd | exact Hb].
Defined.


(** Bob has no record: his summary of 2024 is all zero. *)
Lemma C7_bob_has_no_record :
  exists s : Summary,
    @PerformanceRoutes.summary Demo.platform 2025 (Demo.me Demo.bob) (Some "2024") None
      Demo.perfs
    = mkResponse 200 true None (Stats s)
    /\ count s = 0 /\ totalCA s = JS.of_Z 0
    /\ s_tauxTransformation s = JS.of_Z 0 /\ s_tauxObjectif s = JS.of_Z 0.
Proof.
  destruct (@C7_summary_of_no_record_is_zero Demo.platform 2025 (Demo.me Demo.bob)
              (Some "2024") None Demo.perfs) as [H1 _].
  destruct H1 as [s Hs].
  - intros p [<- | []]. reflexivity.
  - exists s. tauto.
Defined.

(** The rates of the two records of Alice. *)
Lemma C8_rates_of_alice :
  PerformanceModel.tauxTransformation Demo.perfA = JS.of_Z 50
  /\ PerformanceModel.tauxObjectif Demo.perfA = JS.of_Z 90
  /\ exists k,
      JS.to_Z (PerformanceModel.tauxTransformation Demo.perfTie) = Some k
      /\ (k = exactPercent 23 40
          \/ (k = exactPercent 23 40 - 1 /\ 2 * 40 * exactPercent 23 40 = 200 * 23 + 40)).
Proof.
  destruct C8_rates_round_the_binary64_product
    as [_ [_ [H3 [H4 [_ [_ [_ [_ [_ [H10 _]]]]]]]]]].
  split; [apply H4; reflexivity |].
  split; [apply H10; reflexivity |].
  apply (H3 Demo.perfTie); simpl; lia.
Defined.



(** A registration with the role "admin". *)
Lemma C10_awa_registers_as_admin :
  exists u : UserModel.User,
    snd (@AuthRoutes.register Demo.platform 900 "64b0000000000000000000e5"
           Demo.registration Demo.users)
    = (Demo.users ++ [u])%list
    /\ UserModel.role u = "admin".
Proof.
  destruct (@C10_register_stores_the_role_of_the_body Demo.platform 900
              "64b0000000000000000000e5" Demo.registration Demo.users
              eq_refl eq_refl eq_refl) as [u [E [_ [_ [_ [Hadmin _]]]]]].
  - intros v [<- | [<- | [<- | [<- | []]]]]; split; discriminate.
  - exists u. rewrite E. split; [reflexivity | apply Hadmin; reflexivity].
Defined.

(** Three requests of Alice for May 2024. *)
Lemma C1_three_upserts_of_alice :
  map status (fst (@PerformanceRoutes.serve Demo.platform Demo.calls Demo.users Demo.perfs))
  = [201; 200; 200]
  /\ PerformanceModel.countPeriod Demo.idA 2024 5
       (snd (@PerformanceRoutes.serve Demo.platform Demo.calls Demo.users Demo.perfs))
     = 1%nat.
Proof.
  assert (Hu : uniqueIndexes Demo.perfs).
  { split.
    - repeat constructor. simpl. tauto.
    - intros u y m. unfold PerformanceModel.countPeriod, Demo.perfs.
      cbn [filter]. destruct (PerformanceModel.samePeriod u y m Demo.perfA); simpl; lia. }
  destruct (@C1_upsert_keeps_one_record_per_period Demo.platform Demo.users) as [_ [_ H2]].
  destruct (H2 (Demo.me Demo.alice) 2024 5
               (PerformanceRoutes.mkCall 600 "64b0000000000000000000f5" (Demo.me Demo.alice)
                                         (Demo.body 2024 5 40 20))
               [ PerformanceRoutes.mkCall 700 "64b0000000000000000000f6" (Demo.me Demo.alice)
                                          (Demo.body 2024 5 50 30);
                 PerformanceRoutes.mkCall 800 "64b0000000000000000000f7" (Demo.me Demo.alice)
                                          (Demo.body 2024 5 60 29) ]
               Demo.perfs Hu eq_refl eq_refl) as [Hs [Hc _]].
  - repeat constructor.
  - split; simpl; lia.
  - simpl. intros [E | []]. discriminate.
  - split; [exact Hs | exact Hc].
Defined.

(* ===================================================================== *)
(** * Further properties *)
(* ===================================================================== *)

(* ===================================================================== *)
(** * More properties *)
(* ===================================================================== *)

(** ** Logging in, again and again *)

Section LoginSequences.
Context `{Platform}.

Import UserModel.

(** What a login request does to the collection. *)
Lemma login_outcome (now : Z) (mail pw : string) (users : list User) :
  snd (AuthRoutes.login now mail pw users) = users
  \/ exists u,
      findOne_email (normalizeEmail mail) users = Some u
      /\ compteBloque u = false
      /\ statut u = "actif"
      /\ (snd (AuthRoutes.login now mail pw users)
          = save (incrementLoginAttempts now u) users
          \/ snd (AuthRoutes.login now mail pw users)
             = save (updateLastLogin now u) users).
Proof.
  unfold AuthRoutes.login.
  destruct (AuthRoutes.login_errors mail pw); [| left; reflexivity].
  destruct (findOne_email (normalizeEmail mail) users) as [u |] eqn:Ef;
    [| left; reflexivity].
  destruct (compteBloque u) eqn:Hb; [left; reflexivity |].
  destruct (String.eqb_spec (statut u) "actif") as [Hs | Hs]; simpl;
    [| left; reflexivity].
  right. exists u. repeat split; try assumption.
  destruct (negb (comparePassword u pw)); [left | right]; reflexivity.
Qed.

Lemma user_id_unique (users : list User) (u v : User) :
  NoDup (map _id users) -> In u users -> In v users -> _id u = _id v -> u = v.
Proof.
  induction users as [| a rest IH]; simpl; intros ND Hu Hv E; [contradiction |].
  inversion ND as [| x l Hnotin ND']; subst.
  destruct Hu as [-> | Hu], Hv as [-> | Hv].
  - reflexivity.
  - exfalso. apply Hnotin. rewrite E. apply in_map. exact Hv.
  - exfalso. apply Hnotin. rewrite <- E. apply in_map. exact Hu.
  - apply IH; assumption.
Qed.

(** [save] keeps every path on which the saved document agrees with the
    stored one. *)
Lemma save_keeps_path {A : Type} (f : User -> A) (u u' : User) (users : list User) :
  NoDup (map _id users) -> In u users -> _id u' = _id u -> f u' = f u ->
  map f (save u' users) = map f users.
Proof.
  intros ND Hin Hid Hf. unfold save. rewrite map_map. apply map_ext_in.
  intros v Hv. destruct (String.eqb_spec (_id v) (_id u')) as [E | E]; [| reflexivity].
  rewrite Hf. f_equal. apply (user_id_unique users); congruence.
Qed.

(** X1: five failed logins in a row block an active account that had no
    failed attempt, whatever the times of the five requests, the spelling
    of the email in each (as long as it is normalized to the email of the
    account) and the wrong password of each: after the first [n < 5] of
    them the stored account is not blocked and its counter is [n]; after
    the fifth the counter is 5, the flag is set and the date of blocking is
    the time of the fifth request; a further request for that account is
    then answered 423 whatever its password, and changes nothing. *)
Theorem X1_five_failed_logins_block_the_account
        (e : string) (reqs : list AuthRoutes.LoginRequest)
        (next : AuthRoutes.LoginRequest) (users : list User) (u : User) :
  findOne_email e users = Some u ->
  compteBloque u = false ->
  statut u = "actif" ->
  tentativesConnexion u = 0 ->
  Forall (failsOn e (password u)) reqs ->
  List.length reqs = 5%nat ->
  isEmail (AuthRoutes.l_email next) = true ->
  normalizeEmail (AuthRoutes.l_email next) = e ->
  AuthRoutes.l_password next <> "" ->
  (forall n : nat,
      (n < 5)%nat ->
      exists un,
        findOne_email e (AuthRoutes.logins (firstn n reqs) users) = Some un
        /\ tentativesConnexion un = Z.of_nat n
        /\ compteBloque un = false)
  /\ (exists u5,
         findOne_email e (AuthRoutes.logins reqs users) = Some u5
         /\ tentativesConnexion u5 = 5
         /\ compteBloque u5 = true
         /\ dateBlocage u5 = Some (AuthRoutes.l_now (nth 4 reqs next)))
  /\ AuthRoutes.login (AuthRoutes.l_now next) (AuthRoutes.l_email next)
                      (AuthRoutes.l_password next) (AuthRoutes.logins reqs users)
     = (failure 423 "Compte bloqué. Contactez l'administrateur.",
        AuthRoutes.logins reqs users).
Proof.
  intros Hf Hb Hs H0 Hall Hlen Hmail Hnorm Hpw.
  assert (H5 : exists u5,
             findOne_email e (AuthRoutes.logins reqs users) = Some u5
             /\ tentativesConnexion u5 = 5
             /\ compteBloque u5 = true
             /\ dateBlocage u5 = Some (AuthRoutes.l_now (nth 4 reqs next))).
  { destruct (failed_logins_count e reqs users u Hf Hb Hs ltac:(lia) Hall ltac:(lia))
      as [u5 [Hf5 [Hc5 [Hb5 [Hd5 _]]]]].
    assert (E5 : tentativesConnexion u5 = 5) by lia.
    assert (B5 : compteBloque u5 = true) by (rewrite Hb5, E5; reflexivity).
    exists u5. split; [exact Hf5 |]. split; [exact E5 |]. split; [exact B5 |].
    rewrite (Hd5 B5). f_equal.
    destruct reqs as [| r1 [| r2 [| r3 [| r4 [| r5 [| r6 rest]]]]]];
      try discriminate Hlen. reflexivity. }
  split; [| split; [exact H5 |]].
  - intros n Hn.
    assert (Hlenn : List.length (firstn n reqs) = n)
      by (rewrite length_firstn; lia).
    destruct (failed_logins_count e (firstn n reqs) users u Hf Hb Hs ltac:(lia))
      as [un [Hfn [Hcn [Hbn _]]]].
    + rewrite <- (firstn_skipn n reqs) in Hall. apply Forall_app in Hall. tauto.
    + lia.
    + exists un. split; [exact Hfn |]. rewrite Hlenn in Hcn.
      split; [lia |]. rewrite Hbn. apply Z.leb_gt. lia.
  - destruct H5 as [u5 [Hf5 [_ [B5 _]]]].
    apply (login_blocked _ _ _ _ u5); [| rewrite Hnorm; exact Hf5 | exact B5].
    apply login_errors_nil. tauto.
Qed.

(** X2: the counter counts failures in a row: after at most 4 failed
    logins on an active account that had none, whatever their times, email
    spellings and wrong passwords, a login with the right password answers
    200 and leaves the stored account not blocked, with a counter of 0 and
    the last login at the time of that request. *)
Theorem X2_success_resets_the_failures
        (e : string) (reqs : list AuthRoutes.LoginRequest)
        (now' : Z) (mail good : string) (users : list User) (u : User) :
  findOne_email e users = Some u ->
  compteBloque u = false ->
  statut u = "actif" ->
  tentativesConnexion u = 0 ->
  Forall (failsOn e (password u)) reqs ->
  (List.length reqs <= 4)%nat ->
  AuthRoutes.login_errors mail good = [] ->
  normalizeEmail mail = e ->
  comparePassword u good = true ->
  let out := AuthRoutes.login now' mail good (AuthRoutes.logins reqs users) in
  status (fst out) = 200
  /\ exists v,
      findOne_email e (snd out) = Some v
      /\ tentativesConnexion v = 0
      /\ compteBloque v = false
      /\ derniereConnexion v = now'.
Proof.
  intros Hf Hb Hs H0 Hall Hlen Heg Hnorm Hg out. subst out.
  destruct (failed_logins_count e reqs users u Hf Hb Hs ltac:(lia) Hall ltac:(lia))
    as [un [Hfn [Hcn [Hbn [_ [Hid [Hem [Hpw Hsn]]]]]]]].
  assert (Hbn' : compteBloque un = false) by (rewrite Hbn; apply Z.leb_gt; lia).
  assert (Hgn : comparePassword un good = true).
  { unfold comparePassword in *. rewrite Hpw. exact Hg. }
  rewrite <- Hnorm in Hfn.
  rewrite (login_right_password now' mail good _ un Heg Hfn Hbn' Hsn Hgn).
  split; [reflexivity |].
  exists (updateLastLogin now' un). cbn [snd]. rewrite <- Hnorm.
  split.
  - apply (findOne_email_save _ _ un); [exact Hfn | reflexivity |].
    simpl. apply (findOne_email_In _ _ _ Hfn).
  - simpl. repeat split. exact Hbn'.
Qed.

(** X4: with unique [_id]s, a login request changes no [_id], email,
    password hash, role or status of any stored user, and a stored user that
    is blocked or not active is left exactly as it was. *)
Theorem X4_login_changes_only_the_login_state
        (now : Z) (mail pw : string) (users : list User) :
  NoDup (map _id users) ->
  let users' := snd (AuthRoutes.login now mail pw users) in
  map (fun u => (_id u, email u, password u, role u, statut u)) users'
  = map (fun u => (_id u, email u, password u, role u, statut u)) users
  /\ (forall v, In v users ->
                compteBloque v = true \/ statut v <> "actif" ->
                In v users').
Proof.
  intros ND users'. subst users'.
  destruct (login_outcome now mail pw users) as [E | [u [Hf [Hb [Hs Hsave]]]]].
  - rewrite E. split; [reflexivity | auto].
  - destruct (findOne_email_In _ _ _ Hf) as [Hin _].
    assert (Hother : forall u', _id u' = _id u ->
                                forall v, In v users ->
                                          compteBloque v = true \/ statut v <> "actif" ->
                                          In v (save u' users)).
    { intros u' Hid v Hv Hbad. apply save_keeps_others; [exact Hv |].
      rewrite Hid. intros E.
      assert (v = u) by (apply (user_id_unique users); assumption). subst v.
      destruct Hbad; congruence. }
    destruct Hsave as [E | E]; rewrite E.
    + destruct (incrementLoginAttempts_paths now u) as [H1 [H2 [H3 [H4 H5]]]].
      split.
      * apply (save_keeps_path _ u); [exact ND | exact Hin | exact H1 |].
        rewrite H1, H2, H3, H4, H5. reflexivity.
      * apply Hother. exact H1.
    + split.
      * apply (save_keeps_path _ u); [exact ND | exact Hin | reflexivity | reflexivity].
      * apply Hother. reflexivity.
Qed.

(** X5: a login for an email that no user has and a login with a wrong
    password for an active account are answered by the same response, 401
    with the same message; and a login for an account that is not active
    (and not blocked) is answered 403 whatever the password, without
    counting a failed attempt. *)
Theorem X5_login_refusals
        (now : Z) (users : list User) :
  (forall mail1 pw1 mail2 pw2 u,
      AuthRoutes.login_errors mail1 pw1 = [] ->
      AuthRoutes.login_errors mail2 pw2 = [] ->
      findOne_email (normalizeEmail mail1) users = None ->
      findOne_email (normalizeEmail mail2) users = Some u ->
      compteBloque u = false ->
      statut u = "actif" ->
      comparePassword u pw2 = false ->
      fst (AuthRoutes.login now mail1 pw1 users) = failure 401 "Identifiants invalides"
      /\ fst (AuthRoutes.login now mail1 pw1 users)
         = fst (AuthRoutes.login now mail2 pw2 users)
      /\ snd (AuthRoutes.login now mail1 pw1 users) = users)
  /\ (forall mail pw u,
         AuthRoutes.login_errors mail pw = [] ->
         findOne_email (normalizeEmail mail) users = Some u ->
         compteBloque u = false ->
         statut u <> "actif" ->
         AuthRoutes.login now mail pw users
         = (failure 403 "Compte inactif. Contactez l'administrateur.", users)).
Proof.
  split.
  - intros mail1 pw1 mail2 pw2 u He1 He2 Hf1 Hf2 Hb Hs Hc.
    rewrite (login_wrong_password now mail2 pw2 users u He2 Hf2 Hb Hs Hc).
    unfold AuthRoutes.login. rewrite He1, Hf1. repeat split.
  - intros mail pw u He Hf Hb Hs. unfold AuthRoutes.login.
    rewrite He, Hf, Hb. apply String.eqb_neq in Hs. rewrite Hs. reflexivity.
Qed.

(** X9: once [unlockAccount] has been saved for a blocked account, the
    stored account is not blocked, has a counter of 0 and no date of
    blocking, and a login with the right password is answered 200 when the
    account is active. *)
Theorem X9_unlocked_account_logs_in
        (now : Z) (mail pw : string) (users : list User) (u : User) :
  AuthRoutes.login_errors mail pw = [] ->
  findOne_email (normalizeEmail mail) users = Some u ->
  compteBloque u = true ->
  statut u = "actif" ->
  comparePassword u pw = true ->
  let users' := save (unlockAccount u) users in
  findOne_email (normalizeEmail mail) users' = Some (unlockAccount u)
  /\ compteBloque (unlockAccount u) = false
  /\ tentativesConnexion (unlockAccount u) = 0
  /\ dateBlocage (unlockAccount u) = None
  /\ status (fst (AuthRoutes.login now mail pw users)) = 423
  /\ status (fst (AuthRoutes.login now mail pw users')) = 200.
Proof.
  intros He Hf Hb Hs Hc users'. subst users'.
  assert (Hf' : findOne_email (normalizeEmail mail) (save (unlockAccount u) users)
                = Some (unlockAccount u)).
  { apply (findOne_email_save _ _ u); [exact Hf | reflexivity |].
    simpl. apply (findOne_email_In _ _ _ Hf). }
  split; [exact Hf' |]. split; [reflexivity |]. split; [reflexivity |].
  split; [reflexivity |]. split.
  - rewrite (login_blocked now mail pw users u He Hf Hb). reflexivity.
  - rewrite (login_right_password now mail pw _ (unlockAccount u) He Hf');
      [reflexivity | reflexivity | exact Hs | exact Hc].
Qed.

End LoginSequences.

(** ** Accounts *)

Section Accounts.
Context `{Platform}.

Import UserModel.

(** What a registration does: nothing, or one user appended. *)
Lemma validate_password (u : User) :
  validate u = true -> password u <> "" /\ (6 <= JS.length (password u))%nat.
Proof.
  unfold validate, nonEmpty. rewrite !andb_true_iff.
  intros [[[[_ Hne] Hlen] _] _]. split.
  - intros E. rewrite E in Hne. discriminate.
  - apply Nat.leb_le. exact Hlen.
Qed.

Lemma register_outcome (now : Z) (newId : string) (b : AuthRoutes.RegisterBody)
      (users : list User) :
  let out := AuthRoutes.register now newId b users in
  (snd out = users /\ (status (fst out) = 400 \/ status (fst out) = 500))
  \/ (exists u,
         out = (mkResponse 201 true (Some "Utilisateur créé avec succès")
                           (Auth (AuthRoutes.generateToken newId)
                                 (AuthRoutes.view u false)),
                (users ++ [u])%list)
         /\ AuthRoutes.register_errors b = []
         /\ findOne_email (normalizeEmail (AuthRoutes.email b)) users = None
         /\ _id u = newId
         /\ email u = toLowerCase (normalizeEmail (AuthRoutes.email b))
         /\ password u = bcrypt_hash (AuthRoutes.password b)
         /\ role u = match AuthRoutes.role b with Some r => r | None => "utilisateur" end
         /\ statut u = "actif"
         /\ tentativesConnexion u = 0
         /\ compteBloque u = false
         /\ AuthRoutes.password b <> ""
         /\ (forall v, In v users -> _id v <> newId /\ email v <> email u)).
Proof.
  intros out. subst out. unfold AuthRoutes.register.
  destruct (AuthRoutes.register_errors b) as [| e errs] eqn:He;
    [| left; simpl; auto].
  destruct (findOne_email (normalizeEmail (AuthRoutes.email b)) users) eqn:Hf;
    [left; simpl; auto |].
  unfold create.
  destruct (validate _) eqn:Hval; [| left; simpl; auto].
  apply validate_password in Hval. destruct Hval as [Hpw _]. cbn in Hpw.
  unfold insert.
  destruct (existsb _ users) eqn:Hex; [left; simpl; auto |].
  right. eexists. split; [reflexivity |].
  simpl. repeat split; try assumption.
  - intros E. assert (Hex' : existsb
      (fun v0 => String.eqb (_id v0) newId
                 || String.eqb (email v0)
                      (toLowerCase (normalizeEmail (AuthRoutes.email b)))) users = true).
    { apply existsb_exists. exists v. split; [assumption |].
      apply orb_true_iff. left. apply String.eqb_eq. exact E. }
    simpl in Hex. congruence.
  - intros E. assert (Hex' : existsb
      (fun v0 => String.eqb (_id v0) newId
                 || String.eqb (email v0)
                      (toLowerCase (normalizeEmail (AuthRoutes.email b)))) users = true).
    { apply existsb_exists. exists v. split; [assumption |].
      apply orb_true_iff. right. apply String.eqb_eq. exact E. }
    simpl in Hex. congruence.
Qed.

(** X6: a registration either leaves the collection as it was and answers
    400 or 500, or answers 201 and appends exactly one user, who has the
    ObjectId given to the request, the lower-cased normalized email, the
    bcrypt hash of the password of the body as password, the status
    "actif", no failed attempt and no block; the stored users are never
    modified, and a body whose email is that of a stored user is answered
    400. *)
Theorem X6_register_appends_one_hashed_user
        (now : Z) (newId : string) (b : AuthRoutes.RegisterBody) (users : list User) :
  let out := AuthRoutes.register now newId b users in
  ((snd out = users /\ (status (fst out) = 400 \/ status (fst out) = 500))
   \/ (exists u,
          snd out = (users ++ [u])%list
          /\ status (fst out) = 201
          /\ _id u = newId
          /\ email u = toLowerCase (normalizeEmail (AuthRoutes.email b))
          /\ password u = bcrypt_hash (AuthRoutes.password b)
          /\ statut u = "actif"
          /\ tentativesConnexion u = 0
          /\ compteBloque u = false))
  /\ (AuthRoutes.register_errors b = [] ->
      (exists v, findOne_email (normalizeEmail (AuthRoutes.email b)) users = Some v) ->
      out = (failure 400 "Un utilisateur avec cet email existe déjà", users)).
Proof.
  intros out. split.
  - destruct (register_outcome now newId b users)
      as [Hl | [u [E [_ [_ [H1 [H2 [H3 [_ [H5 [H6 [H7 _]]]]]]]]]]]].
    + left. exact Hl.
    + right. exists u. subst out. rewrite E. simpl. repeat split; assumption.
  - intros He [v Hv]. subst out. unfold AuthRoutes.register. rewrite He, Hv.
    reflexivity.
Qed.

Lemma find_app_none {A : Type} (f : A -> bool) (l : list A) (x : A) :
  find f l = None -> f x = true -> find f (l ++ [x]) = Some x.
Proof.
  induction l as [| a l IH]; simpl; intros Hn Hx.
  - rewrite Hx. reflexivity.
  - destruct (f a); [discriminate | apply IH; assumption].
Qed.

Lemma register_errors_nil (b : AuthRoutes.RegisterBody) :
  AuthRoutes.register_errors b = [] -> isEmail (AuthRoutes.email b) = true.
Proof.
  unfold AuthRoutes.register_errors, AuthRoutes.check.
  destruct (isLength_min 2 (trim (AuthRoutes.nom b))); [| discriminate].
  destruct (isLength_min 2 (trim (AuthRoutes.prenom b))); [| discriminate].
  destruct (isEmail (AuthRoutes.email b)); [| discriminate].
  reflexivity.
Qed.

(** X7: when bcrypt accepts a password against its own hash and the
    normalized email is already in lower case, a user who has just
    registered (201) logs in with the same email and password: the login is
    answered 200 with a token for the ObjectId of the new user, and the
    answer shows the role that was stored. *)
Theorem X7_register_then_login
        (now now' : Z) (newId : string) (b : AuthRoutes.RegisterBody)
        (users : list User) :
  bcrypt_compare (AuthRoutes.password b) (bcrypt_hash (AuthRoutes.password b)) = true ->
  toLowerCase (normalizeEmail (AuthRoutes.email b)) = normalizeEmail (AuthRoutes.email b) ->
  status (fst (AuthRoutes.register now newId b users)) = 201 ->
  let users' := snd (AuthRoutes.register now newId b users) in
  exists view,
    fst (AuthRoutes.login now' (AuthRoutes.email b) (AuthRoutes.password b) users')
    = mkResponse 200 true (Some "Connexion réussie")
                 (Auth (AuthRoutes.generateToken newId) view)
    /\ v_id view = newId
    /\ v_role view = match AuthRoutes.role b with Some r => r | None => "utilisateur" end
    /\ v_derniereConnexion view = Some now'.
Proof.
  intros Hbc Hlow H201 users'. subst users'.
  destruct (register_outcome now newId b users)
    as [[_ [E | E]] | [u [E [He [Hf [H1 [H2 [H3 [H4 [H5 [H6 [H7 [Hpw _]]]]]]]]]]]]];
    try (rewrite E in H201; discriminate).
  rewrite E. cbn [snd].
  pose proof (register_errors_nil b He) as Hmail.
  assert (Hfind : findOne_email (normalizeEmail (AuthRoutes.email b)) (users ++ [u])
                  = Some u).
  { apply find_app_none; [exact Hf |]. apply String.eqb_eq. congruence. }
  assert (Hcmp : comparePassword u (AuthRoutes.password b) = true).
  { unfold comparePassword. rewrite H3. exact Hbc. }
  assert (Herr : AuthRoutes.login_errors (AuthRoutes.email b) (AuthRoutes.password b) = []).
  { apply login_errors_nil. tauto. }
  rewrite (login_right_password now' _ _ _ u Herr Hfind H7 H5 Hcmp).
  eexists. split; [rewrite H1; reflexivity |].
  simpl. repeat split; assumption.
Qed.

End Accounts.

(** ** Tokens, passwords and profiles *)

Section Sessions.
Context `{Platform}.

Import UserModel.

Lemma split_bearer (tok : string) :
  JS.split " "%char tok = [tok] ->
  bearer (Some ("Bearer " ++ tok)) = Some (Some tok).
Proof.
  intros Hs. unfold bearer. simpl. rewrite Hs. reflexivity.
Qed.

Lemma find_id_save (u u' : User) (users : list User) :
  In u users -> _id u' = _id u ->
  find (fun v => String.eqb (_id v) (_id u)) (save u' users) = Some u'.
Proof.
  intros Hin Hid. unfold save. induction users as [| v rest IH]; [contradiction |].
  simpl. destruct (String.eqb_spec (_id v) (_id u')) as [E | E].
  - rewrite Hid, String.eqb_refl. reflexivity.
  - rewrite Hid in E. apply String.eqb_neq in E. rewrite E. apply IH.
    destruct Hin as [-> | Hin]; [| exact Hin].
    rewrite String.eqb_refl in E. discriminate.
Qed.

(** X8: when [jwt.verify] decodes the token that [jwt.sign] made for an
    ObjectId and the token has no space, the token of a successful login,
    sent as [Bearer <token>], passes [protect] on the collection the login
    left, with the identity of the user who logged in; [GET /me] then
    answers with the profile of that user, whose last login is the time of
    the login. *)
Theorem X8_token_of_login_opens_the_gate
        (now now' : Z) (mail pw : string) (users : list User) (u : User) :
  AuthRoutes.login_errors mail pw = [] ->
  findOne_email (normalizeEmail mail) users = Some u ->
  compteBloque u = false ->
  statut u = "actif" ->
  comparePassword u pw = true ->
  isObjectId (_id u) = true ->
  jwt_verify now' (Some (AuthRoutes.generateToken (_id u))) = Decoded (_id u) ->
  JS.split " "%char (AuthRoutes.generateToken (_id u)) = [AuthRoutes.generateToken (_id u)] ->
  let out := AuthRoutes.login now mail pw users in
  let header := Some ("Bearer " ++ AuthRoutes.generateToken (_id u)) in
  (exists view,
      fst out = mkResponse 200 true (Some "Connexion réussie")
                           (Auth (AuthRoutes.generateToken (_id u)) view))
  /\ Middleware.protect now' header (snd out)
     = Next (mkIdentity (_id u) (email u) (nom u) (prenom u))
  /\ exists profile,
      AccountRoutes.routeMe now' header (snd out) = Served None profile
      /\ AccountRoutes.pr_id profile = _id u
      /\ AccountRoutes.pr_email profile = email u
      /\ AccountRoutes.pr_derniereConnexion profile = now.
Proof.
  intros He Hf Hb Hs Hc Hoid Hjwt Hsplit out header. subst out header.
  rewrite (login_right_password now mail pw users u He Hf Hb Hs Hc). cbn [fst snd].
  destruct (findOne_email_In _ _ _ Hf) as [Hin _].
  assert (Hfind : findById (_id u) (save (updateLastLogin now u) users)
                  = JS.Ok (Some (updateLastLogin now u))).
  { unfold findById. rewrite Hoid. f_equal.
    apply find_id_save; [exact Hin | reflexivity]. }
  assert (Hp : Middleware.protect now'
                 (Some ("Bearer " ++ AuthRoutes.generateToken (_id u)))
                 (save (updateLastLogin now u) users)
               = Next (mkIdentity (_id u) (email u) (nom u) (prenom u))).
  { rewrite (protect_with_bearer now' _ _ _ (split_bearer _ Hsplit)).
    rewrite Hjwt, Hfind. simpl. rewrite Hs, Hb. reflexivity. }
  split; [eexists; reflexivity |]. split; [exact Hp |].
  unfold AccountRoutes.routeMe. rewrite Hp. unfold AccountRoutes.me. simpl.
  rewrite Hfind. eexists. split; [reflexivity |]. simpl. repeat split.
Qed.

(** What [PUT /change-password] does to the collection. *)
Lemma changePassword_outcome (user : Identity) (current new : string)
      (users : list User) :
  snd (AccountRoutes.changePassword user current new users) = users
  \/ exists u u',
      In u users
      /\ snd (AccountRoutes.changePassword user current new users) = save u' users
      /\ _id u' = _id u /\ tentativesConnexion u' = tentativesConnexion u
      /\ compteBloque u' = compteBloque u.
Proof.
  unfold AccountRoutes.changePassword.
  destruct (AccountRoutes.password_errors current new); [| left; reflexivity].
  unfold findById. destruct (isObjectId (id user)); [| left; reflexivity].
  destruct (find _ users) as [u |] eqn:Ef; [| left; reflexivity].
  destruct (negb (comparePassword u current)); [left; reflexivity |].
  unfold AccountRoutes.saveWithPassword.
  destruct (validate _); [| left; reflexivity].
  right. apply find_some in Ef. destruct Ef as [Hin _].
  exists u. eexists. split; [exact Hin |]. split; [reflexivity |].
  destruct (String.eqb new (password u)); simpl; repeat split.
Qed.

(** X10: for a stored user, [PUT /change-password] with a wrong current
    password answers 400 and changes nothing; with the right one, a new
    password that the schema accepts and that is not the stored hash
    itself, it answers 200 and stores that user with the bcrypt hash of the
    new password, every other path as it was (the counter of failed
    attempts and the block included): after the request the lookup of the
    caller finds the user with the new hash, every other stored user is as
    before and no user is added or removed. *)
Theorem X10_change_password
        (user : Identity) (current new : string) (users : list User) (u : User) :
  AccountRoutes.password_errors current new = [] ->
  findById (id user) users = JS.Ok (Some u) ->
  (comparePassword u current = false ->
   AccountRoutes.changePassword user current new users
   = (failure 400 "Mot de passe actuel incorrect", users))
  /\ (comparePassword u current = true ->
      validate (AccountRoutes.set_password new u) = true ->
      new <> password u ->
      exists u',
        AccountRoutes.changePassword user current new users
        = (mkResponse 200 true (Some "Mot de passe changé avec succès") NoData,
           save u' users)
        /\ password u' = bcrypt_hash new
        /\ u' = AccountRoutes.set_password (bcrypt_hash new) u
        /\ _id u' = _id u /\ email u' = email u /\ role u' = role u
        /\ statut u' = statut u
        /\ tentativesConnexion u' = tentativesConnexion u
        /\ compteBloque u' = compteBloque u
        /\ dateBlocage u' = dateBlocage u
        /\ findById (id user)
                    (snd (AccountRoutes.changePassword user current new users))
           = JS.Ok (Some u')
        /\ (forall w, In w users -> _id w <> _id u ->
                      In w (snd (AccountRoutes.changePassword user current new users)))
        /\ List.length (snd (AccountRoutes.changePassword user current new users))
           = List.length users).
Proof.
  intros He Hf.
  assert (Hfind : isObjectId (id user) = true /\ In u users /\ _id u = id user).
  { unfold findById in Hf. destruct (isObjectId (id user)); [| discriminate].
    injection Hf as Hf. apply find_some in Hf. destruct Hf as [Hin E].
    apply String.eqb_eq in E. tauto. }
  destruct Hfind as [Hoid [Hin Hid]].
  unfold AccountRoutes.changePassword. rewrite He, Hf. split.
  - intros Hc. rewrite Hc. reflexivity.
  - intros Hc Hv Hne. rewrite Hc. simpl.
    unfold AccountRoutes.saveWithPassword. rewrite Hv.
    apply String.eqb_neq in Hne. rewrite Hne.
    eexists. split; [reflexivity |]. cbn [snd].
    split; [reflexivity |]. split; [reflexivity |].
    split; [reflexivity |]. split; [reflexivity |]. split; [reflexivity |].
    split; [reflexivity |]. split; [reflexivity |]. split; [reflexivity |].
    split; [reflexivity |]. split; [| split].
    + unfold findById. rewrite Hoid. f_equal. rewrite <- Hid.
      apply find_id_save; [exact Hin | reflexivity].
    + intros w Hw Hnew. apply save_keeps_others; [exact Hw | exact Hnew].
    + apply save_length.
Qed.

(** X11: after such a change of password on an active account that is not
    blocked, when bcrypt accepts the new password against its hash and
    refuses the old one, a login with the new password is answered 200 and
    a login with the old one 401. *)
Theorem X11_login_after_change_of_password
        (now : Z) (user : Identity) (mail current new : string)
        (users : list User) (u : User) :
  AccountRoutes.password_errors current new = [] ->
  findById (id user) users = JS.Ok (Some u) ->
  findOne_email (normalizeEmail mail) users = Some u ->
  isEmail mail = true ->
  comparePassword u current = true ->
  validate (AccountRoutes.set_password new u) = true ->
  new <> password u ->
  compteBloque u = false ->
  statut u = "actif" ->
  bcrypt_compare new (bcrypt_hash new) = true ->
  bcrypt_compare current (bcrypt_hash new) = false ->
  let users' := snd (AccountRoutes.changePassword user current new users) in
  status (fst (AuthRoutes.login now mail new users')) = 200
  /\ fst (AuthRoutes.login now mail current users')
     = failure 401 "Identifiants invalides".
Proof.
  intros He Hf Hfm Hmail Hc Hv Hne Hb Hs Hnew Hold users'. subst users'.
  unfold AccountRoutes.changePassword. rewrite He, Hf, Hc. simpl.
  unfold AccountRoutes.saveWithPassword. rewrite Hv.
  apply String.eqb_neq in Hne. rewrite Hne. cbn [snd].
  set (u' := preSave (AccountRoutes.set_password new u)).
  assert (Hf' : findOne_email (normalizeEmail mail) (save u' users) = Some u').
  { apply (findOne_email_save _ _ u); [exact Hfm | reflexivity |].
    simpl. apply (findOne_email_In _ _ _ Hfm). }
  unfold AccountRoutes.password_errors, AccountRoutes.check in He.
  destruct (String.eqb_spec current "") as [E0 | E0]; [discriminate |].
  assert (Hnew0 : new <> "") by (apply (validate_password _ Hv)).
  split.
  - rewrite (login_right_password now mail new _ u');
      [reflexivity | apply login_errors_nil; tauto | exact Hf' | exact Hb | exact Hs
       | exact Hnew].
  - rewrite (login_wrong_password now mail current _ u');
      [reflexivity | apply login_errors_nil; tauto | exact Hf' | exact Hb | exact Hs
       | exact Hold].
Qed.

(** What [PUT /profile] does to the collection. *)
Lemma updateProfile_outcome (user : Identity) (b : AccountRoutes.ProfileBody)
      (users : list User) :
  snd (AccountRoutes.updateProfile user b users) = users
  \/ exists old,
      In old users /\ _id old = id user
      /\ snd (AccountRoutes.updateProfile user b users)
         = save (AccountRoutes.applyProfile b old) users.
Proof.
  unfold AccountRoutes.updateProfile.
  destruct (AccountRoutes.profile_errors b); [| left; reflexivity].
  destruct (negb (isObjectId (id user))); [left; reflexivity |].
  destruct (negb (AccountRoutes.profileValidators b)); [left; reflexivity |].
  destruct (find _ users) as [old |] eqn:Ef; [| left; reflexivity].
  apply find_some in Ef. destruct Ef as [Hin Hid]. apply String.eqb_eq in Hid.
  right. exists old. split; [exact Hin |]. split; [exact Hid |].
  simpl. unfold save. simpl. rewrite Hid. reflexivity.
Qed.

(** X12: with unique [_id]s, [PUT /profile] changes no [_id], email,
    password hash, role, status, counter of failed attempts or block of any
    stored user; a telephone, position or department that is absent from
    the body, or empty once trimmed, leaves the stored value as it is; and a
    name that, once trimmed, fails [isLength({ min: 2 })] is answered 400
    with nothing changed. *)
Theorem X12_profile_update_keeps_the_account
        (user : Identity) (b : AccountRoutes.ProfileBody) (users : list User) :
  (NoDup (map _id users) ->
   map (fun u => (_id u, email u, password u, role u, statut u,
                  tentativesConnexion u, compteBloque u, dateBlocage u))
       (snd (AccountRoutes.updateProfile user b users))
   = map (fun u => (_id u, email u, password u, role u, statut u,
                    tentativesConnexion u, compteBloque u, dateBlocage u)) users)
  /\ (forall old,
         (AccountRoutes.pb_telephone b = None
          \/ exists t, AccountRoutes.pb_telephone b = Some t /\ trim t = "") ->
         telephone (AccountRoutes.applyProfile b old) = telephone old)
  /\ (forall old,
         (AccountRoutes.pb_poste b = None
          \/ exists t, AccountRoutes.pb_poste b = Some t /\ trim t = "") ->
         poste (AccountRoutes.applyProfile b old) = poste old)
  /\ (forall old,
         (AccountRoutes.pb_departement b = None
          \/ exists t, AccountRoutes.pb_departement b = Some t /\ trim t = "") ->
         departement (AccountRoutes.applyProfile b old) = departement old)
  /\ (forall s,
         AccountRoutes.pb_nom b = Some s ->
         isLength_min 2 (trim s) = false ->
         exists errs,
           AccountRoutes.updateProfile user b users
           = (Refused (mkResponse 400 false (Some "Données invalides") (Errors errs)),
              users)).
Proof.
  split; [| split; [| split; [| split]]].
  - intros ND.
    destruct (updateProfile_outcome user b users) as [E | [old [Hin [Hid E]]]];
      rewrite E; [reflexivity |].
    apply (save_keeps_path _ old); [exact ND | exact Hin | reflexivity | reflexivity].
  - intros old [E | [t [E Ht]]]; unfold AccountRoutes.applyProfile; simpl; rewrite E;
      simpl; [reflexivity |]. rewrite Ht. reflexivity.
  - intros old [E | [t [E Ht]]]; unfold AccountRoutes.applyProfile; simpl; rewrite E;
      simpl; [reflexivity |]. rewrite Ht. reflexivity.
  - intros old [E | [t [E Ht]]]; unfold AccountRoutes.applyProfile; simpl; rewrite E;
      simpl; [reflexivity |]. rewrite Ht. reflexivity.
  - intros s Es Hlen. unfold AccountRoutes.updateProfile, AccountRoutes.profile_errors.
    rewrite Es. cbn [AccountRoutes.optional]. rewrite Hlen.
    cbn [AccountRoutes.check app]. eexists. reflexivity.
Qed.

(** X3: the handlers that write users keep the lockout invariant of every
    stored user: after a login, a registration, a change of password or a
    profile update, every account that is not blocked still has fewer than
    5 failed attempts. *)
Theorem X3_handlers_keep_the_lockout_invariant (users : list User) :
  Forall lockoutInvariant users ->
  (forall now mail pw,
      Forall lockoutInvariant (snd (AuthRoutes.login now mail pw users)))
  /\ (forall now newId b,
         Forall lockoutInvariant (snd (AuthRoutes.register now newId b users)))
  /\ (forall user current new,
         Forall lockoutInvariant
                (snd (AccountRoutes.changePassword user current new users)))
  /\ (forall user b,
         Forall lockoutInvariant (snd (AccountRoutes.updateProfile user b users))).
Proof.
  intros Hall. split; [| split; [| split]].
  - intros now mail pw. apply login_keeps_invariant. exact Hall.
  - intros now newId b.
    destruct (register_outcome now newId b users)
      as [[E _] | [u [E [_ [_ [_ [_ [_ [_ [_ [H0 _]]]]]]]]]]]; rewrite E; [exact Hall |].
    cbn [snd]. apply Forall_app. split; [exact Hall |].
    constructor; [| constructor]. intros _. rewrite H0. lia.
  - intros user current new.
    destruct (changePassword_outcome user current new users)
      as [E | [u [u' [Hin [E [_ [Hc Hb]]]]]]]; rewrite E; [exact Hall |].
    apply save_Forall; [exact Hall |].
    rewrite Forall_forall in Hall. specialize (Hall u Hin).
    unfold lockoutInvariant in *. rewrite Hc, Hb. exact Hall.
  - intros user b.
    destruct (updateProfile_outcome user b users) as [E | [old [Hin [_ E]]]];
      rewrite E; [exact Hall |].
    apply save_Forall; [exact Hall |].
    rewrite Forall_forall in Hall. exact (Hall old Hin).
Qed.

End Sessions.

(** ** Records: writing, reading back, deleting *)

Section Records.
Context `{Platform}.

Import PerformanceModel.

Lemma find_id_fresh (i : string) (perfs : list Performance) :
  ~ In i (map _id perfs) -> find (fun p => String.eqb (_id p) i) perfs = None.
Proof.
  intros Hn. destruct (find _ perfs) as [p |] eqn:Ef; [| reflexivity].
  apply find_some in Ef. destruct Ef as [Hin E]. apply String.eqb_eq in E.
  exfalso. apply Hn. rewrite <- E. apply in_map. exact Hin.
Qed.

Lemma validate_build (now : Z) (newId : string) (user : Identity)
      (b : PerformanceRoutes.Body) :
  validate (PerformanceRoutes.build now newId user b)
  = PerformanceRoutes.updateValidators b.
Proof.
  unfold PerformanceRoutes.updateValidators, validate, PerformanceRoutes.build.
  cbn [annee mois chiffreAffaires objectifCA nouveauxClients rdvRealises rdvPlanifies
       ventesRealisees dossiersMAJ totalDossiers evenements satisfaction commentaires
       statut].
  unfold PerformanceRoutes.optional, PerformanceRoutes.orDefault.
  destruct (PerformanceRoutes.b_rdvPlanifies b), (PerformanceRoutes.b_evenements b),
    (PerformanceRoutes.b_satisfaction b), (PerformanceRoutes.b_statut b); reflexivity.
Qed.

(** X13: a record that [POST /] has just created is read back by its
    owner: [GET /:id] with an id that casts to the ObjectId of the new
    record (its string, in lower or upper case) answers 200 with the
    created document and its owner, and answers 403 to any other caller. *)
Theorem X13_created_record_is_read_back
        (now : Z) (newId paramId : string) (user : Identity)
        (b : PerformanceRoutes.Body)
        (users : list UserModel.User) (perfs : list Performance) (o : Owner) :
  isObjectId (id user) = true ->
  isObjectId paramId = true ->
  objectIdHex paramId = newId ->
  PerformanceRoutes.upsert_errors b = [] ->
  PerformanceRoutes.updateValidators b = true ->
  consistent b ->
  countPeriod (id user) (PerformanceRoutes.b_annee b) (PerformanceRoutes.b_mois b) perfs
  = 0%nat ->
  ~ In newId (map _id perfs) ->
  PerformanceRoutes.populate users (PerformanceRoutes.build now newId user b) = Some o ->
  let doc := PerformanceRoutes.build now newId user b in
  let perfs' := snd (PerformanceRoutes.upsert now newId user b users perfs) in
  PerformanceRoutes.getById user paramId users perfs'
  = mkResponse 200 true None (PerformanceData doc (Some o))
  /\ (forall other, id other <> id user ->
                    PerformanceRoutes.getById other paramId users perfs'
                    = failure 403 "Accès non autorisé").
Proof.
  intros Hoid Hnew Hhex He Hv Hc H0 Hfresh Hpop doc perfs'. subst perfs'.
  rewrite (upsert_creates now newId user b users perfs Hoid He Hv Hc H0 Hfresh).
  cbn [snd]. fold doc.
  assert (Hfind : findById paramId (perfs ++ [doc]) = JS.Ok (Some doc)).
  { unfold findById. rewrite Hnew, Hhex. f_equal.
    apply find_app_none; [apply find_id_fresh; exact Hfresh |].
    apply String.eqb_refl. }
  assert (Hoid' : o_id o = id user).
  { rewrite (populate_id users doc o Hpop). reflexivity. }
  unfold PerformanceRoutes.getById. rewrite Hfind. fold doc in Hpop. rewrite Hpop.
  split.
  - rewrite Hoid', String.eqb_refl. reflexivity.
  - intros other Hne. rewrite Hoid'.
    replace (String.eqb (id user) (id other)) with false; [reflexivity |].
    symmetry. apply String.eqb_neq. congruence.
Qed.

Lemma filter_out_one (i : string) (R : Performance) (perfs : list Performance) :
  NoDup (map _id perfs) -> In R perfs -> _id R = i ->
  (List.length (filter (fun p => negb (String.eqb (_id p) i)) perfs) + 1
   = List.length perfs)%nat.
Proof.
  intros ND Hin Hid. induction perfs as [| a rest IH]; [contradiction |].
  inversion ND as [| x l Hnotin ND']; subst.
  simpl. destruct (String.eqb_spec (_id a) (_id R)) as [E | E]; simpl.
  - assert (Hall : filter (fun p => negb (String.eqb (_id p) (_id R))) rest = rest).
    { apply forallb_filter_id. apply forallb_forall. intros p Hp.
      apply negb_true_iff, String.eqb_neq. intros Ep. apply Hnotin.
      rewrite E, <- Ep. apply in_map. exact Hp. }
    rewrite Hall. lia.
  - destruct Hin as [-> | Hin]; [congruence |].
    specialize (IH ND' Hin). lia.
Qed.

Lemma filter_keeps_unique (f : Performance -> bool) (perfs : list Performance) :
  uniqueIndexes perfs -> uniqueIndexes (filter f perfs).
Proof.
  intros [ND Hc]. split.
  - clear Hc. induction perfs as [| a rest IH]; [constructor |].
    inversion ND as [| x l Hnotin ND']; subst. simpl.
    destruct (f a); [| apply IH; exact ND'].
    simpl. constructor; [| apply IH; exact ND'].
    intros Hin. apply Hnotin. apply in_map_iff in Hin.
    destruct Hin as [p [E Hp]]. apply filter_In in Hp.
    rewrite <- E. apply in_map. tauto.
  - intros u y m. specialize (Hc u y m). unfold countPeriod in *.
    assert (Hle : forall l, (List.length (filter (samePeriod u y m) (filter f l))
                             <= List.length (filter (samePeriod u y m) l))%nat).
    { induction l as [| a l IH]; [simpl; lia |].
      simpl. destruct (f a); simpl; destruct (samePeriod u y m a); simpl; lia. }
    specialize (Hle perfs). lia.
Qed.

(** X14: when the owner deletes a record, [DELETE /:id] answers 200 and
    removes exactly that record: the collection has one document less, every
    other record is kept, the unique indexes still hold, and the same id is
    then answered 404 by [GET /:id] and by a second [DELETE /:id]. *)
Theorem X14_owner_deletes_one_record
        (user : Identity) (paramId : string) (users : list UserModel.User)
        (perfs : list Performance) (R : Performance) :
  uniqueIndexes perfs ->
  findById paramId perfs = JS.Ok (Some R) ->
  utilisateur R = id user ->
  let out := PerformanceRoutes.deleteById user paramId perfs in
  fst out = mkResponse 200 true (Some "Données supprimées avec succès") NoData
  /\ ~ In R (snd out)
  /\ (forall p, In p (snd out) <-> In p perfs /\ p <> R)
  /\ (List.length (snd out) + 1 = List.length perfs)%nat
  /\ uniqueIndexes (snd out)
  /\ PerformanceRoutes.getById user paramId users (snd out)
     = failure 404 "Données de performance non trouvées"
  /\ PerformanceRoutes.deleteById user paramId (snd out)
     = (failure 404 "Données de performance non trouvées", snd out).
Proof.
  intros Hu Hf Hown out. subst out.
  unfold PerformanceRoutes.deleteById. rewrite Hf, Hown, String.eqb_refl.
  cbn [negb fst snd]. unfold findByIdAndDelete.
  assert (Hoid : isObjectId paramId = true).
  { unfold findById in Hf. destruct (isObjectId paramId); [reflexivity | discriminate]. }
  assert (HR : In R perfs /\ _id R = objectIdHex paramId).
  { unfold findById in Hf. rewrite Hoid in Hf. injection Hf as Hf.
    apply find_some in Hf. destruct Hf as [Hin E]. apply String.eqb_eq in E. tauto. }
  destruct HR as [Hin Hid]. destruct Hu as [ND Hc].
  assert (Hmem : forall p, In p (filter (fun p => negb (String.eqb (_id p)
                                                                  (objectIdHex paramId)))
                                        perfs)
                           <-> In p perfs /\ p <> R).
  { intros p. rewrite filter_In, negb_true_iff, String.eqb_neq. split.
    - intros [Hp Hne]. split; [exact Hp | congruence].
    - intros [Hp Hne]. split; [exact Hp |]. intros E. apply Hne.
      apply (id_unique perfs); congruence. }
  assert (Hnone : findById paramId
                            (filter (fun p => negb (String.eqb (_id p)
                                                               (objectIdHex paramId)))
                                    perfs)
                  = JS.Ok None).
  { unfold findById. rewrite Hoid. f_equal.
    destruct (find _ (filter _ perfs)) as [p |] eqn:Ef; [| reflexivity].
    apply find_some in Ef. destruct Ef as [Hp E].
    apply filter_In in Hp. destruct Hp as [_ Hp]. rewrite E in Hp. discriminate. }
  split; [reflexivity |]. split; [intros HinR; apply Hmem in HinR; tauto |].
  split; [exact Hmem |].
  split; [apply (filter_out_one (objectIdHex paramId) R); assumption |].
  split; [apply filter_keeps_unique; split; assumption |].
  unfold PerformanceRoutes.getById. rewrite Hnone. split; reflexivity.
Qed.

(** X15: with the unique indexes, [POST /] reads and writes one period of
    one user only: every stored record of another user or period is in the
    collection afterwards, unchanged, and every record of another user or
    period in the collection afterwards was there before. *)
Theorem X15_upsert_touches_one_period
        (now : Z) (newId : string) (user : Identity) (b : PerformanceRoutes.Body)
        (users : list UserModel.User) (perfs : list Performance) :
  uniqueIndexes perfs ->
  let key := samePeriod (id user) (PerformanceRoutes.b_annee b)
                        (PerformanceRoutes.b_mois b) in
  let perfs' := snd (PerformanceRoutes.upsert now newId user b users perfs) in
  forall p, key p = false -> (In p perfs' <-> In p perfs).
Proof.
  intros [ND Hc] key perfs' p Hk. subst perfs'.
  destruct (upsert_outcome now newId user b users perfs)
    as [E | [[existing [old [Ef [Eo [_ E]]]]] | [_ [_ Ei]]]].
  - rewrite E. tauto.
  - rewrite E.
    destruct (update_same_document _ _ _ perfs existing old ND Ef Eo) as [-> [Hin Hke]].
    destruct (applyUpdate_key user b existing) as [_ Hknew].
    rewrite in_map_iff. split.
    + intros [q [Eq Hq]]. destruct (String.eqb (_id q) (_id existing)).
      * subst p. unfold key in Hk. congruence.
      * subst p. exact Hq.
    + intros Hp. exists p. split; [| exact Hp].
      destruct (String.eqb_spec (_id p) (_id existing)) as [Eid | Eid]; [| reflexivity].
      assert (p = existing) by (apply (id_unique perfs); assumption).
      subst p. unfold key in Hk. congruence.
  - apply insert_ok in Ei. destruct Ei as [-> _].
    rewrite in_app_iff. split; [| tauto].
    intros [Hp | [<- | []]]; [exact Hp |].
    exfalso. unfold key in Hk.
    assert (samePeriod (id user) (PerformanceRoutes.b_annee b)
                       (PerformanceRoutes.b_mois b)
                       (PerformanceRoutes.build now newId user b) = true).
    { apply samePeriod_spec. simpl. tauto. }
    congruence.
Qed.

(** X16: the refusals of [POST /] write nothing.  A body that fails a
    validator of the route is answered 400; a body that passes them but fails a validator of the schema
    is answered 500 on the create path and on the update path alike; a body
    for a new period that breaks a consistency rule is answered 500; an
    ObjectId that is already used makes the insert fail on the unique index
    and is answered 400; and whenever the answer is neither 200 nor 201 the
    collection is as it was. *)
Theorem X16_upsert_refusals_write_nothing
        (now : Z) (newId : string) (user : Identity) (b : PerformanceRoutes.Body)
        (users : list UserModel.User) (perfs : list Performance) :
  let out := PerformanceRoutes.upsert now newId user b users perfs in
  (PerformanceRoutes.upsert_errors b <> [] ->
   exists errs,
     out = (mkResponse 400 false (Some "Données invalides") (Errors errs), perfs))
  /\ (PerformanceRoutes.upsert_errors b = [] ->
      isObjectId (id user) = true ->
      PerformanceRoutes.updateValidators b = false ->
      out = (failure 500 "Erreur serveur", perfs))
  /\ (PerformanceRoutes.upsert_errors b = [] ->
      countPeriod (id user) (PerformanceRoutes.b_annee b) (PerformanceRoutes.b_mois b)
                  perfs = 0%nat ->
      ~ consistent b ->
      out = (failure 500 "Erreur serveur", perfs))
  /\ (PerformanceRoutes.upsert_errors b = [] ->
      isObjectId (id user) = true ->
      PerformanceRoutes.updateValidators b = true ->
      consistent b ->
      countPeriod (id user) (PerformanceRoutes.b_annee b) (PerformanceRoutes.b_mois b)
                  perfs = 0%nat ->
      In newId (map _id perfs) ->
      out = (failure 400 "Des données existent déjà pour cette période", perfs))
  /\ (status (fst out) <> 200 -> status (fst out) <> 201 -> snd out = perfs).
Proof.
  intros out. subst out. split; [| split; [| split; [| split]]].
  - intros Hne. unfold PerformanceRoutes.upsert.
    destruct (PerformanceRoutes.upsert_errors b); [congruence | eexists; reflexivity].
  - intros He Hoid Hv. unfold PerformanceRoutes.upsert. rewrite He.
    unfold findOne_period. rewrite Hoid.
    destruct (find _ perfs).
    + unfold PerformanceRoutes.findByIdAndUpdate. rewrite Hv. reflexivity.
    + unfold saveNew. rewrite validate_build, Hv. reflexivity.
  - intros He H0 Hc. apply upsert_create_rejects_inconsistent; assumption.
  - intros He Hoid Hv Hc H0 Hused. unfold PerformanceRoutes.upsert. rewrite He.
    unfold findOne_period. rewrite Hoid.
    apply count_zero_find in H0. rewrite H0.
    unfold saveNew. rewrite validate_build, Hv.
    rewrite (consistent_preSave now newId user b Hc).
    unfold insert.
    replace (existsb _ perfs) with true; [reflexivity |].
    symmetry. apply existsb_exists. apply in_map_iff in Hused.
    destruct Hused as [q [E Hq]]. exists q. split; [exact Hq |].
    apply orb_true_iff. left. apply String.eqb_eq. exact E.
  - intros H200 H201.
    destruct (upsert_outcome now newId user b users perfs)
      as [E | [[existing [old [_ [_ [E _]]]]] | [_ [E _]]]];
      [exact E | congruence | congruence].
Qed.

(** X17: the summary does not see a record that is a draft, that is of
    another year than the year asked for (the current year when none is
    asked for), or whose owner the [$match] does not equate with the caller:
    with or without such a record in the collection the answer is the same;
    and an empty [mois] parameter is as an absent one. *)
Theorem X17_summary_ignores_other_records
        (currentYear : Z) (user : Identity) (q_annee q_mois : option string)
        (before after : list Performance) (p : Performance) :
  (statut p <> "valide"
   \/ (q_annee = None /\ annee p <> currentYear)
   \/ (exists a y, q_annee = Some a /\ parseInt a = Some y /\ annee p <> y)
   \/ pipeline_id_eq (id user) (utilisateur p) = false ->
   PerformanceRoutes.summary currentYear user q_annee q_mois (before ++ p :: after)
   = PerformanceRoutes.summary currentYear user q_annee q_mois (before ++ after))
  /\ PerformanceRoutes.summary currentYear user q_annee (Some "") (before ++ after)
     = PerformanceRoutes.summary currentYear user q_annee None (before ++ after).
Proof.
  split.
  - intros Hp.
    assert (Hm : PerformanceRoutes.matchFilter currentYear user q_annee q_mois p = false).
    { unfold PerformanceRoutes.matchFilter.
      destruct Hp as [Hs | [[-> Hy] | [[a [y [-> [Ea Hy]]]] | Hu]]].
      - apply String.eqb_neq in Hs. rewrite Hs.
        rewrite andb_false_r. reflexivity.
      - simpl. apply Z.eqb_neq in Hy. rewrite Hy. rewrite andb_false_r. reflexivity.
      - rewrite Ea. simpl. apply Z.eqb_neq in Hy. rewrite Hy.
        rewrite andb_false_r. reflexivity.
      - rewrite Hu. reflexivity. }
    unfold PerformanceRoutes.summary. rewrite !filter_app. simpl. rewrite Hm.
    reflexivity.
  - unfold PerformanceRoutes.summary. f_equal.
Qed.

(** X24: an id that is no ObjectId is answered as a server error, not as
    a missing document: [GET /:id] and [DELETE /:id] answer 500 and change
    nothing, [PUT /profile] and [PUT /change-password] answer 500, and a
    token whose id is no ObjectId is answered 401 by [protect]. *)
Theorem X24_malformed_ids
        (now : Z) (user : Identity) (badId : string)
        (users : list UserModel.User) (perfs : list Performance) :
  isObjectId badId = false ->
  PerformanceRoutes.getById user badId users perfs = failure 500 "Erreur serveur"
  /\ PerformanceRoutes.deleteById user badId perfs = (failure 500 "Erreur serveur", perfs)
  /\ (forall authorization token,
         bearer authorization = Some token ->
         jwt_verify now token = Decoded badId ->
         Middleware.protect now authorization users
         = Reject (failure 401 "Accès non autorisé"))
  /\ (id user = badId ->
      (forall b, AccountRoutes.profile_errors b = [] ->
                 AccountRoutes.updateProfile user b users
                 = (Refused (failure 500 "Erreur serveur"), users))
      /\ (forall current new,
             AccountRoutes.password_errors current new = [] ->
             AccountRoutes.changePassword user current new users
             = (failure 500 "Erreur serveur", users))).
Proof.
  intros Hbad. split; [| split; [| split]].
  - unfold PerformanceRoutes.getById, findById. rewrite Hbad. reflexivity.
  - unfold PerformanceRoutes.deleteById, findById. rewrite Hbad. reflexivity.
  - intros authorization token Hb Hv.
    rewrite (protect_with_bearer now authorization token users Hb), Hv.
    unfold UserModel.findById. rewrite Hbad. reflexivity.
  - intros E. rewrite <- E in Hbad. split.
    + intros b He. unfold AccountRoutes.updateProfile. rewrite He, Hbad. reflexivity.
    + intros current new He. unfold AccountRoutes.changePassword.
      rewrite He. unfold UserModel.findById. rewrite Hbad. reflexivity.
Qed.

End Records.

(** ** The listings *)

Section Listings.
Context `{Platform}.

Import PerformanceModel.
Import PerformanceLists.

Lemma later_spec (p q : Performance) :
  later p q = true
  <-> annee q < annee p \/ (annee q = annee p /\ mois q < mois p).
Proof.
  unfold later. rewrite orb_true_iff, andb_true_iff, !Z.ltb_lt, Z.eqb_eq. tauto.
Qed.

Lemma later_false (p q : Performance) :
  later p q = false
  <-> annee p < annee q \/ (annee p = annee q /\ mois p <= mois q).
Proof.
  destruct (later p q) eqn:E.
  - apply later_spec in E. split; [discriminate | lia].
  - split; [intros _ | reflexivity].
    destruct (Z.lt_trichotomy (annee p) (annee q)) as [Hlt | [Heq | Hgt]].
    + left. exact Hlt.
    + right. split; [exact Heq |].
      destruct (Z.le_gt_cases (mois p) (mois q)) as [Hle | Hg]; [exact Hle |].
      assert (later p q = true) by (apply later_spec; lia). congruence.
    + assert (later p q = true) by (apply later_spec; lia). congruence.
Qed.

Lemma insertDesc_perm (p : Performance) (l : list Performance) :
  Permutation (insertDesc p l) (p :: l).
Proof.
  induction l as [| q r IH]; simpl; [reflexivity |].
  destruct (later q p); [| reflexivity].
  rewrite IH. apply perm_swap.
Qed.

Lemma sortDesc_perm (l : list Performance) : Permutation (sortDesc l) l.
Proof.
  induction l as [| p l IH]; simpl; [reflexivity |].
  rewrite insertDesc_perm. constructor. exact IH.
Qed.

Lemma insertDesc_sorted (p : Performance) (l : list Performance) :
  StronglySorted (fun a b => later b a = false) l ->
  StronglySorted (fun a b => later b a = false) (insertDesc p l).
Proof.
  induction l as [| q r IH]; intros Hs; simpl.
  - constructor; constructor.
  - inversion Hs as [| x y Hr Hq]; subst.
    destruct (later q p) eqn:E.
    + constructor; [apply IH; exact Hr |].
      apply (Permutation_Forall (Permutation_sym (insertDesc_perm p r))).
      constructor; [| exact Hq].
      apply later_spec in E. apply later_false. lia.
    + constructor; [exact Hs |].
      constructor; [exact E |].
      rewrite Forall_forall in *. intros x Hx. specialize (Hq x Hx).
      apply later_false in E, Hq. apply later_false. lia.
Qed.

Lemma sortDesc_sorted (l : list Performance) :
  StronglySorted (fun a b => later b a = false) (sortDesc l).
Proof.
  induction l as [| p l IH]; simpl; [constructor |].
  apply insertDesc_sorted. exact IH.
Qed.

Lemma In_skipn {A : Type} (n : nat) (l : list A) (x : A) :
  In x (skipn n l) -> In x l.
Proof.
  revert l. induction n as [| n IH]; intros [| a l]; simpl; try tauto.
  intros Hin. right. apply IH. exact Hin.
Qed.

Lemma In_firstn {A : Type} (n : nat) (l : list A) (x : A) :
  In x (firstn n l) -> In x l.
Proof.
  revert l. induction n as [| n IH]; intros [| a l]; simpl; try tauto.
  intros [E | Hin]; [left; exact E | right; apply IH; exact Hin].
Qed.

Lemma sorted_skipn {A : Type} (R : A -> A -> Prop) (n : nat) (l : list A) :
  StronglySorted R l -> StronglySorted R (skipn n l).
Proof.
  revert l. induction n as [| n IH]; intros [| a l] Hs; simpl; auto.
  inversion Hs; subst. apply IH. assumption.
Qed.

Lemma sorted_firstn {A : Type} (R : A -> A -> Prop) (n : nat) (l : list A) :
  StronglySorted R l -> StronglySorted R (firstn n l).
Proof.
  revert l. induction n as [| n IH]; intros [| a l] Hs; simpl; try constructor.
  - inversion Hs; subst. apply IH. assumption.
  - inversion Hs as [| x y Hr Ha]; subst.
    rewrite Forall_forall in *. intros x Hx. apply Ha. apply (In_firstn n). exact Hx.
Qed.

Lemma NoDup_skipn {A : Type} (n : nat) (l : list A) : NoDup l -> NoDup (skipn n l).
Proof.
  revert l. induction n as [| n IH]; intros [| a l] Hs; simpl; auto.
  inversion Hs; subst. apply IH. assumption.
Qed.

Lemma NoDup_firstn {A : Type} (n : nat) (l : list A) : NoDup l -> NoDup (firstn n l).
Proof.
  revert l. induction n as [| n IH]; intros [| a l] Hs; simpl; try constructor.
  - inversion Hs; subst. intros Hin. apply In_firstn in Hin. contradiction.
  - inversion Hs; subst. apply IH. assumption.
Qed.

(** The unique compound index, as a list of keys without repetition. *)
Lemma unique_keys (perfs : list Performance) :
  (forall u y m, (countPeriod u y m perfs <= 1)%nat) ->
  NoDup (map (fun p => (utilisateur p, annee p, mois p)) perfs).
Proof.
  induction perfs as [| a rest IH]; intros Hc; simpl; [constructor |].
  constructor.
  - intros Hin. apply in_map_iff in Hin. destruct Hin as [q [E Hq]].
    injection E as Eu Ey Em.
    specialize (Hc (utilisateur a) (annee a) (mois a)).
    unfold countPeriod in Hc. simpl in Hc.
    replace (samePeriod (utilisateur a) (annee a) (mois a) a) with true in Hc
      by (symmetry; apply samePeriod_spec; tauto).
    simpl in Hc.
    assert (Hq' : In q (filter (samePeriod (utilisateur a) (annee a) (mois a)) rest)).
    { apply filter_In. split; [exact Hq |]. apply samePeriod_spec. tauto. }
    destruct (filter _ rest); [contradiction | simpl in Hc; lia].
  - apply IH. intros u y m. specialize (Hc u y m).
    unfold countPeriod in *. simpl in Hc.
    destruct (samePeriod u y m a); simpl in Hc; lia.
Qed.

Lemma NoDup_map_filter {A B : Type} (k : A -> B) (f : A -> bool) (l : list A) :
  NoDup (map k l) -> NoDup (map k (filter f l)).
Proof.
  induction l as [| a l IH]; simpl; intros ND; [constructor |].
  inversion ND as [| x y Hnotin ND']; subst.
  destruct (f a); [| apply IH; exact ND'].
  simpl. constructor; [| apply IH; exact ND'].
  intros Hin. apply Hnotin. apply in_map_iff in Hin.
  destruct Hin as [q [E Hq]]. apply filter_In in Hq.
  rewrite <- E. apply in_map. tauto.
Qed.

Lemma strictly_sorted (u : string) (l : list Performance) :
  StronglySorted (fun a b => later b a = false) l ->
  NoDup (map (fun p => (utilisateur p, annee p, mois p)) l) ->
  (forall p, In p l -> utilisateur p = u) ->
  StronglySorted (fun a b => later a b = true) l.
Proof.
  induction l as [| a l IH]; intros Hs ND Hu; [constructor |].
  inversion Hs as [| x y Hr Ha]; subst. inversion ND as [| x y Hnotin ND']; subst.
  constructor.
  - apply IH; [exact Hr | exact ND' |]. intros p Hp. apply Hu. right. exact Hp.
  - rewrite Forall_forall in *. intros q Hq. specialize (Ha q Hq).
    apply later_false in Ha. apply later_spec.
    assert (Hne : (utilisateur q, annee q, mois q) <> (utilisateur a, annee a, mois a)).
    { intros E. apply Hnotin. rewrite <- E.
      apply (in_map (fun p => (utilisateur p, annee p, mois p))). exact Hq. }
    assert (Eu : utilisateur q = utilisateur a).
    { rewrite (Hu q (or_intror Hq)), (Hu a (or_introl eq_refl)). reflexivity. }
    destruct (Z.eq_dec (annee q) (annee a)) as [Ey | Ey];
      [destruct (Z.eq_dec (mois q) (mois a)) as [Em | Em] |]; try lia.
    exfalso. apply Hne. congruence.
Qed.

Lemma list_errors_nil (q : ListQuery) :
  list_errors q = [] ->
  1 <= PerformanceRoutes.orDefault (q_limit q) 12 <= 100
  /\ 1 <= PerformanceRoutes.orDefault (q_page q) 1
  /\ forall k, 1 <= k ->
               list_errors (mkListQuery (q_annee q) (q_mois q) (q_statut q)
                                        (q_limit q) (Some k)) = [].
Proof.
  unfold list_errors, PerformanceRoutes.check. cbn [q_annee q_mois q_statut q_limit q_page].
  destruct (PerformanceRoutes.optional _ (q_annee q)); [| discriminate].
  destruct (PerformanceRoutes.optional _ (q_mois q)); [| discriminate].
  destruct (PerformanceRoutes.optional _ (q_statut q)); [| discriminate].
  destruct (PerformanceRoutes.optional _ (q_limit q)) eqn:El; [| discriminate].
  destruct (PerformanceRoutes.optional _ (q_page q)) eqn:Ep; [| discriminate].
  intros _. split; [| split].
  - destruct (q_limit q) as [l |]; simpl in *; [| lia].
    apply andb_true_iff in El. destruct El as [E1 E2].
    apply Z.leb_le in E1, E2. lia.
  - destruct (q_page q) as [p |]; simpl in *; [| lia]. apply Z.leb_le in Ep. lia.
  - intros k Hk. simpl. replace (1 <=? k) with true; [reflexivity |].
    symmetry. apply Z.leb_le. exact Hk.
Qed.

(** X18: when [GET /] answers with a page, every record of the page is a
    stored record of the caller that passes the filters of the query, with
    the owner [populate] finds; the page has at most [limit] records, with
    [1 <= limit <= 100]; [total] is the number of stored records that pass
    the filters; and with the unique indexes the page is in strictly
    descending order of (year, month) and repeats no record. *)
Theorem X18_page_of_the_caller
        (user : Identity) (q : ListQuery) (users : list UserModel.User)
        (perfs : list Performance)
        (items : list (Performance * option Owner)) (pg : Pagination) :
  uniqueIndexes perfs ->
  listForUser user q users perfs = Served None (items, pg) ->
  (forall p o, In (p, o) items ->
               In p perfs /\ utilisateur p = id user /\ listFilter user q p = true
               /\ o = PerformanceRoutes.populate users p)
  /\ (List.length items <= Z.to_nat (limit pg))%nat
  /\ 1 <= limit pg <= 100
  /\ total pg = Z.of_nat (List.length (filter (listFilter user q) perfs))
  /\ StronglySorted (fun a b => later a b = true) (map fst items)
  /\ NoDup (map fst items).
Proof.
  intros [ND Hc] Hserved. unfold listForUser in Hserved.
  destruct (list_errors q) eqn:He; [| discriminate].
  destruct (isObjectId (id user)); [| discriminate].
  injection Hserved as Hitems Hpg. subst items pg. cbn [limit total].
  destruct (list_errors_nil q He) as [Hl [Hp _]].
  set (L := PerformanceRoutes.orDefault (q_limit q) 12) in *.
  set (S := Z.to_nat ((PerformanceRoutes.orDefault (q_page q) 1 - 1) * L)).
  set (matching := filter (listFilter user q) perfs).
  assert (Hin : forall p, In p (firstn (Z.to_nat L) (skipn S (sortDesc matching))) ->
                          In p matching).
  { intros p Hp'. apply In_firstn, In_skipn in Hp'.
    apply (Permutation_in _ (sortDesc_perm matching)). exact Hp'. }
  assert (Hkeys : NoDup (map (fun p => (utilisateur p, annee p, mois p))
                             (sortDesc matching))).
  { apply (Permutation_NoDup
             (Permutation_map _ (Permutation_sym (sortDesc_perm matching)))).
    apply NoDup_map_filter. apply unique_keys. exact Hc. }
  split; [| split; [| split; [| split; [| split]]]].
  - intros p o Hpo. apply in_map_iff in Hpo. destruct Hpo as [p' [E Hp']].
    injection E as -> <-. apply Hin in Hp'. apply filter_In in Hp'.
    destruct Hp' as [Hp1 Hp2]. split; [exact Hp1 |]. split; [| split].
    + unfold listFilter in Hp2. rewrite !andb_true_iff in Hp2.
      apply String.eqb_eq. tauto.
    + exact Hp2.
    + reflexivity.
  - rewrite length_map. apply firstn_le_length.
  - exact Hl.
  - reflexivity.
  - rewrite map_map. cbn [fst]. rewrite map_id.
    apply (strictly_sorted (id user)).
    + apply sorted_firstn, sorted_skipn, sortDesc_sorted.
    + rewrite <- (firstn_skipn S (sortDesc matching)) in Hkeys.
      rewrite map_app in Hkeys. apply NoDup_app_remove_l in Hkeys.
      rewrite <- (firstn_skipn (Z.to_nat L) (skipn S (sortDesc matching))) in Hkeys.
      rewrite map_app in Hkeys. apply NoDup_app_remove_r in Hkeys. exact Hkeys.
    + intros p Hp'. apply Hin in Hp'. apply filter_In in Hp'.
      destruct Hp' as [_ Hp2]. unfold listFilter in Hp2.
      rewrite !andb_true_iff in Hp2. apply String.eqb_eq. tauto.
  - rewrite map_map. cbn [fst]. rewrite map_id.
    apply NoDup_firstn, NoDup_skipn.
    apply (NoDup_map_inv (fun p => (utilisateur p, annee p, mois p))). exact Hkeys.
Qed.

Lemma firstn_plus {A : Type} (a b : nat) (l : list A) :
  firstn (a + b) l = (firstn a l ++ firstn b (skipn a l))%list.
Proof.
  revert l. induction a as [| a IH]; intros l; [reflexivity |].
  destruct l as [| x l]; simpl.
  - destruct b; reflexivity.
  - f_equal. apply IH.
Qed.

Lemma pages_concat {A : Type} (L n : nat) (l : list A) :
  flat_map (fun k => firstn L (skipn (k * L) l)) (seq 0 n) = firstn (n * L) l.
Proof.
  induction n as [| n IH]; [reflexivity |].
  rewrite seq_S, flat_map_app, IH. simpl. rewrite app_nil_r.
  replace (L + n * L)%nat with (n * L + L)%nat by lia.
  rewrite firstn_plus. reflexivity.
Qed.

(** X19: the pages of a query partition its listing: for a query that
    passes the validators, the pages 1 to [n] one after the other are the
    stored records of the caller that pass the filters, each once, in the
    order of the sort, as soon as [n] pages of [limit] records hold them
    all; and a page beyond them is empty. *)
Theorem X19_pages_partition_the_listing
        (user : Identity) (q : ListQuery) (users : list UserModel.User)
        (perfs : list Performance) (n : nat) :
  list_errors q = [] ->
  isObjectId (id user) = true ->
  let L := Z.to_nat (PerformanceRoutes.orDefault (q_limit q) 12) in
  let matching := filter (listFilter user q) perfs in
  (List.length matching <= n * L)%nat ->
  flat_map (fun k => pageOf user q users perfs (Z.of_nat (S k))) (seq 0 n)
  = sortDesc matching
  /\ Permutation (flat_map (fun k => pageOf user q users perfs (Z.of_nat (S k)))
                           (seq 0 n)) matching
  /\ pageOf user q users perfs (Z.of_nat (S n)) = [].
Proof.
  intros He Hoid L matching Hlen.
  destruct (list_errors_nil q He) as [Hl [_ Hk]].
  assert (Hpage : forall k : nat,
             pageOf user q users perfs (Z.of_nat (S k))
             = firstn L (skipn (k * L) (sortDesc matching))).
  { intros k. unfold pageOf, listForUser.
    rewrite (Hk (Z.of_nat (S k)) ltac:(lia)), Hoid.
    cbn [q_limit q_page q_annee q_mois q_statut PerformanceRoutes.orDefault].
    rewrite map_map. cbn [fst]. rewrite map_id.
    fold matching. fold L.
    replace (Z.to_nat ((Z.of_nat (S k) - 1)
                       * PerformanceRoutes.orDefault (q_limit q) 12))
      with (k * L)%nat; [reflexivity |].
    subst L. rewrite Z2Nat.inj_mul by lia.
    replace (Z.of_nat (S k) - 1) with (Z.of_nat k) by lia.
    rewrite Nat2Z.id. reflexivity. }
  assert (Hlen' : (List.length (sortDesc matching) <= n * L)%nat).
  { rewrite (Permutation_length (sortDesc_perm matching)). exact Hlen. }
  assert (Hall : flat_map (fun k => pageOf user q users perfs (Z.of_nat (S k))) (seq 0 n)
                 = sortDesc matching).
  { rewrite (flat_map_ext _ _ Hpage), pages_concat.
    apply firstn_all2. exact Hlen'. }
  split; [exact Hall |]. split; [rewrite Hall; apply sortDesc_perm |].
  rewrite Hpage. rewrite skipn_all2 by exact Hlen'. apply firstn_nil.
Qed.

Lemma guard_next (roles : list string) (now : Z) (authorization : option string)
      (users : list UserModel.User) (i : Identity) :
  Middleware.guard roles now authorization users = Next i ->
  exists token uid u,
    bearer authorization = Some token
    /\ jwt_verify now token = Decoded uid
    /\ UserModel.findById uid users = JS.Ok (Some u)
    /\ In u users /\ UserModel._id u = uid
    /\ UserModel.statut u = "actif" /\ UserModel.compteBloque u = false
    /\ JS.includes (UserModel.role u) roles = true
    /\ i = mkIdentity (UserModel._id u) (UserModel.email u) (UserModel.nom u)
                      (UserModel.prenom u).
Proof.
  unfold Middleware.guard, Middleware.protect, bearer.
  destruct authorization as [h |]; [| discriminate].
  destruct (negb (String.eqb h "") && JS.startsWith "Bearer" h); [| discriminate].
  destruct (jwt_verify now _) as [uid | e] eqn:Ev; [| discriminate].
  destruct (UserModel.findById uid users) as [[u |] | e] eqn:Ef; try discriminate.
  destruct (String.eqb_spec (UserModel.statut u) "actif") as [Hs | Hs];
    [| discriminate].
  simpl. destruct (UserModel.compteBloque u) eqn:Hb; [discriminate |].
  unfold Middleware.authorizeRoles. simpl.
  destruct (String.eqb (UserModel._id u) ""); [discriminate |].
  destruct (findById_id uid users u Ef) as [Hid _].
  rewrite Hid, Ef.
  destruct (JS.includes (UserModel.role u) roles) eqn:Hr; [| discriminate].
  simpl. intros E. injection E as <-.
  exists (nth_error (JS.split " "%char h) 1), uid, u.
  split; [reflexivity |]. split; [exact Ev |]. split; [exact Ef |].
  unfold UserModel.findById in Ef.
  destruct (isObjectId uid); [| discriminate]. injection Ef as Ef.
  apply find_some in Ef. rewrite Hid. tauto.
Qed.

(** X20: [GET /all] answers with records only to a header that carries a
    token that verifies and whose user (the stored user with the id of the
    token) is active, not blocked and of role "admin" or "manager"; it then
    answers with every stored record of every user, each once, from the
    latest period to the earliest, each with the owner and role [populate]
    finds. *)
Theorem X20_listing_of_all_records
        (now : Z) (authorization : option string) (users : list UserModel.User)
        (perfs : list Performance)
        (items : list (Performance * option (Owner * string))) :
  routeAll now authorization users perfs = Served None items ->
  Permutation (map fst items) perfs
  /\ StronglySorted (fun a b => later b a = false) (map fst items)
  /\ (forall p o, In (p, o) items -> o = populateWithRole users p)
  /\ exists token uid u,
      bearer authorization = Some token
      /\ jwt_verify now token = Decoded uid
      /\ UserModel.findById uid users = JS.Ok (Some u)
      /\ In u users /\ UserModel._id u = uid
      /\ UserModel.statut u = "actif" /\ UserModel.compteBloque u = false
      /\ (UserModel.role u = "admin" \/ UserModel.role u = "manager").
Proof.
  unfold routeAll, PerformanceRoutes.gateAll.
  destruct (Middleware.guard _ now authorization users) as [r | i] eqn:Eg;
    [discriminate |].
  intros E. injection E as <-.
  rewrite map_map. cbn [fst]. rewrite map_id.
  split; [apply sortDesc_perm |]. split; [apply sortDesc_sorted |]. split.
  - intros p o Hin. apply in_map_iff in Hin. destruct Hin as [p' [E _]].
    injection E as -> <-. reflexivity.
  - destruct (guard_next _ now authorization users i Eg)
      as [token [uid [u [Hbr [Hv [Hf [Hin [Hid [Hs [Hb [Hr _]]]]]]]]]]].
    exists token, uid, u.
    split; [exact Hbr |]. split; [exact Hv |]. split; [exact Hf |].
    split; [exact Hin |]. split; [exact Hid |].
    split; [exact Hs |]. split; [exact Hb |].
    unfold JS.includes in Hr. simpl in Hr.
    destruct (String.eqb_spec (UserModel.role u) "admin") as [Ea | Ea]; [tauto |].
    destruct (String.eqb_spec (UserModel.role u) "manager") as [Em | Em]; [tauto |].
    discriminate.
Qed.

End Listings.

(** ** The formatted period, the bounds of the rates, the origins *)

Section Formats.

Import PerformanceModel.
Import PerformanceVirtuals.

Lemma In_validPeriods (y m : Z) :
  2020 <= y <= 2030 -> 1 <= m <= 12 -> In (y, m) validPeriods.
Proof.
  intros Hy Hm. unfold validPeriods. apply in_flat_map.
  exists (Z.to_nat (y - 2020)). split; [apply in_seq; lia |].
  apply in_map_iff. exists (Z.to_nat (m - 1)). split; [| apply in_seq; lia].
  f_equal; lia.
Qed.

Lemma formatsDistinct_true : formatsDistinct = true.
Proof. vm_compute. reflexivity. Qed.

(** X21: the formatted period of a record whose month is between 1 and
    12 is the French name of that month, a space and the year; a month
    outside 1..12 prints as "undefined"; and two records with periods the
    schema accepts have the same formatted period only if they have the
    same year and month. *)
Theorem X21_formatted_period :
  (forall p, 1 <= mois p <= 12 ->
             exists name,
               nth_error moisNoms (Z.to_nat (mois p - 1)) = Some name
               /\ periodeFormatee p = name ++ " " ++ JSMore.numberToString (annee p))
  /\ (forall p, mois p < 1 \/ 12 < mois p ->
                periodeFormatee p = "undefined " ++ JSMore.numberToString (annee p))
  /\ (forall p q,
         valid_annee (annee p) = true -> valid_mois (mois p) = true ->
         valid_annee (annee q) = true -> valid_mois (mois q) = true ->
         periodeFormatee p = periodeFormatee q ->
         annee p = annee q /\ mois p = mois q).
Proof.
  split; [| split].
  - intros p Hm. unfold periodeFormatee, formatPeriode.
    replace (mois p - 1 <? 0) with false by (symmetry; apply Z.ltb_ge; lia).
    destruct (nth_error moisNoms (Z.to_nat (mois p - 1))) as [name |] eqn:E.
    + exists name. split; reflexivity.
    + exfalso. apply nth_error_None in E. simpl in E. lia.
  - intros p Hm. unfold periodeFormatee, formatPeriode.
    destruct (Z.ltb_spec (mois p - 1) 0) as [Hlt | Hge]; [reflexivity |].
    replace (nth_error moisNoms (Z.to_nat (mois p - 1))) with (@None string);
      [reflexivity |].
    symmetry. apply nth_error_None. simpl. lia.
  - intros p q Hyp Hmp Hyq Hmq E.
    unfold valid_annee, valid_mois in *.
    apply andb_true_iff in Hyp, Hmp, Hyq, Hmq.
    rewrite !Z.leb_le in Hyp, Hmp, Hyq, Hmq.
    pose proof formatsDistinct_true as Hd. unfold formatsDistinct in Hd.
    rewrite forallb_forall in Hd.
    specialize (Hd (annee p, mois p) (In_validPeriods _ _ Hyp Hmp)).
    rewrite forallb_forall in Hd.
    specialize (Hd (annee q, mois q) (In_validPeriods _ _ Hyq Hmq)).
    cbn [fst snd] in Hd. unfold periodeFormatee in E.
    rewrite E, String.eqb_refl in Hd. simpl in Hd.
    apply andb_true_iff in Hd. rewrite !Z.eqb_eq in Hd. exact Hd.
Qed.

Lemma percent_bounds (a b : Z) :
  0 <= a <= b -> 1 <= b <= 200 ->
  exists k,
    JS.to_Z (percent (JS.of_Z a) (JS.of_Z b)) = Some k
    /\ 0 <= k <= 100
    /\ (a = 0 -> k = 0)
    /\ (a = b -> k = 100).
Proof.
  intros Ha Hb. destruct (percent_of_counts a b Ha Hb) as [k [Ek Hk]].
  exists k. split; [exact Ek |].
  unfold exactPercent in Hk.
  replace (b =? 0) with false in Hk by (symmetry; apply Z.eqb_neq; lia).
  set (E := (200 * a + b) / (2 * b)) in *.
  assert (HE0 : 0 <= E) by (apply Z.div_pos; lia).
  assert (HE100 : E <= 100).
  { assert (E < 101); [| lia]. apply Z.div_lt_upper_bound; lia. }
  assert (Hmul : 2 * b * E <= 200 * a + b).
  { apply Z.mul_div_le. lia. }
  assert (Hmul' : 200 * a + b < 2 * b * (E + 1)).
  { pose proof (Z.mul_succ_div_gt (200 * a + b) (2 * b) ltac:(lia)) as Hgt.
    fold E in Hgt. lia. }
  destruct Hk as [-> | [-> Htie]].
  - split; [lia |]. split.
    + intros ->. nia.
    + intros ->. nia.
  - assert (1 <= E) by nia.
    split; [lia |]. split.
    + intros ->. nia.
    + intros ->. nia.
Qed.

(** X22: for a record with at most 200 appointments and no more sales
    than appointments, the conversion rate is an integer between 0 and 100,
    0 without a sale and 100 when every appointment is a sale; likewise the
    completion rate for at most 200 files. *)
Theorem X22_rates_between_0_and_100 (p : Performance) :
  (0 <= ventesRealisees p <= rdvRealises p -> rdvRealises p <= 200 ->
   exists k,
     JS.to_Z (tauxTransformation p) = Some k
     /\ 0 <= k <= 100
     /\ (ventesRealisees p = 0 -> k = 0)
     /\ (ventesRealisees p = rdvRealises p -> 1 <= rdvRealises p -> k = 100))
  /\ (0 <= dossiersMAJ p <= totalDossiers p -> totalDossiers p <= 200 ->
      exists k,
        JS.to_Z (completudeDossiers p) = Some k
        /\ 0 <= k <= 100
        /\ (dossiersMAJ p = 0 -> k = 0)
        /\ (dossiersMAJ p = totalDossiers p -> 1 <= totalDossiers p -> k = 100)).
Proof.
  split.
  - intros Ha Hb. unfold tauxTransformation.
    destruct (Z.eqb_spec (rdvRealises p) 0) as [E0 | E0].
    + exists 0. split; [reflexivity |]. repeat split; lia.
    + destruct (percent_bounds (ventesRealisees p) (rdvRealises p) Ha ltac:(lia))
        as [k [Ek [Hk [H0 H100]]]].
      exists k. tauto.
  - intros Ha Hb. unfold completudeDossiers.
    destruct (Z.eqb_spec (totalDossiers p) 0) as [E0 | E0].
    + exists 0. split; [reflexivity |]. repeat split; lia.
    + destruct (percent_bounds (dossiersMAJ p) (totalDossiers p) Ha ltac:(lia))
        as [k [Ek [Hk [H0 H100]]]].
      exists k. tauto.
Qed.

(** X23: the origin check of CORS refuses no origin: the callback is given
    [true] for an absent origin, for a listed one and for any other one,
    and the only difference is that an origin that is not listed is
    logged. *)
Theorem X23_cors_allows_every_origin
        (frontendUrl : option string) (origin : option string) :
  fst (Server.corsOrigin frontendUrl origin) = true
  /\ (snd (Server.corsOrigin frontendUrl origin) <> []
      <-> exists o, origin = Some o /\ o <> ""
                    /\ ~ In o (Server.allowedOrigins frontendUrl)).
Proof.
  unfold Server.corsOrigin. destruct origin as [o |].
  - unfold JSMore.truthy. destruct (String.eqb_spec o "") as [E | E];
      cbn [negb fst snd].
    + split; [reflexivity |]. split; [congruence |].
      intros [o' [Eo [Hne _]]]. congruence.
    + destruct (JS.includes o (Server.allowedOrigins frontendUrl)) eqn:Ei;
        cbn [fst snd].
      * split; [reflexivity |]. split; [congruence |].
        intros [o' [Eo [_ Hnin]]]. injection Eo as <-.
        exfalso. apply Hnin. unfold JS.includes in Ei.
        apply existsb_exists in Ei. destruct Ei as [x [Hx Ex]].
        apply String.eqb_eq in Ex. subst x. exact Hx.
      * split; [reflexivity |]. split; [| discriminate].
        intros _. exists o. split; [reflexivity |]. split; [exact E |].
        intros Hin. unfold JS.includes in Ei.
        assert (existsb (String.eqb o) (Server.allowedOrigins frontendUrl) = true).
        { apply existsb_exists. exists o. split; [exact Hin | apply String.eqb_refl]. }
        congruence.
  - cbn [fst snd]. split; [reflexivity |]. split; [congruence |].
    intros [o [Eo _]]. discriminate.
Qed.

End Formats.

(* ===================================================================== *)
(** * The further statements on concrete data *)
(* ===================================================================== *)

(** A list of records with distinct keys satisfies the compound index. *)
Lemma distinct_keys_count (perfs : list PerformanceModel.Performance) :
  NoDup (map (fun p => (PerformanceModel.utilisateur p, PerformanceModel.annee p,
                        PerformanceModel.mois p)) perfs) ->
  forall u y m, (PerformanceModel.countPeriod u y m perfs <= 1)%nat.
Proof.
  induction perfs as [| a rest IH]; intros ND u y m.
  - unfold PerformanceModel.countPeriod. simpl. lia.
  - inversion ND as [| k ks Hnin ND']; subst.
    specialize (IH ND' u y m).
    unfold PerformanceModel.countPeriod in *. cbn [filter].
    destruct (PerformanceModel.samePeriod u y m a) eqn:Ea; [| exact IH].
    replace (filter (PerformanceModel.samePeriod u y m) rest)
      with (@nil PerformanceModel.Performance); [simpl; lia |].
    symmetry.
    destruct (filter (PerformanceModel.samePeriod u y m) rest) as [| q qs] eqn:Ef;
      [reflexivity |].
    exfalso. apply Hnin.
    assert (Hq : In q (filter (PerformanceModel.samePeriod u y m) rest))
      by (rewrite Ef; left; reflexivity).
    apply filter_In in Hq. destruct Hq as [Hq Eq].
    apply samePeriod_spec in Ea, Eq.
    destruct Ea as [Ea1 [Ea2 Ea3]]. destruct Eq as [Eq1 [Eq2 Eq3]].
    apply in_map_iff. exists q. split; [| exact Hq]. congruence.
Qed.

Lemma sample_perfs_unique : uniqueIndexes Sample.perfs.
Proof.
  split.
  - repeat constructor; simpl; intuition discriminate.
  - apply distinct_keys_count.
    repeat constructor; simpl; intuition discriminate.
Qed.

Lemma demo_users_ids : NoDup (map UserModel._id Demo.users).
Proof. repeat constructor; simpl; intuition discriminate. Qed.

Lemma X1_alice_is_blocked_after_five_failures :
  exists u5,
    UserModel.findOne_email "alice@wawtelecom.com"
      (@AuthRoutes.logins Demo.platform Sample.failures Demo.users) = Some u5
    /\ UserModel.tentativesConnexion u5 = 5
    /\ UserModel.compteBloque u5 = true
    /\ UserModel.dateBlocage u5 = Some 15.
Proof.
  destruct (@X1_five_failed_logins_block_the_account Demo.platform
              "alice@wawtelecom.com" Sample.failures
              (AuthRoutes.mkLogin 16 "alice@wawtelecom.com" "password123")
              Demo.users Demo.alice
              ltac:(computed) ltac:(computed) ltac:(computed) ltac:(computed)
              ltac:(repeat constructor; computed)
              ltac:(computed) ltac:(computed) ltac:(computed) ltac:(discriminate))
    as [_ [[u5 [H1 [H2 [H3 H4]]]] _]].
  exists u5. split; [exact H1 |]. split; [exact H2 |]. split; [exact H3 | exact H4].
Defined.

Lemma X2_alice_logs_in_after_three_failures :
  status (fst (@AuthRoutes.login Demo.platform 20 "alice@wawtelecom.com" "password123"
                 (@AuthRoutes.logins Demo.platform (firstn 3 Sample.failures)
                                     Demo.users)))
  = 200.
Proof.
  exact (proj1
    (@X2_success_resets_the_failures Demo.platform "alice@wawtelecom.com"
       (firstn 3 Sample.failures) 20 "alice@wawtelecom.com" "password123"
       Demo.users Demo.alice
       ltac:(computed) ltac:(computed) ltac:(computed) ltac:(computed)
       ltac:(repeat constructor; computed)
       ltac:(vm_compute; lia) ltac:(computed) ltac:(computed) ltac:(computed))).
Defined.

Lemma X3_invariant_of_the_staff :
  Forall lockoutInvariant Demo.users
  /\ Forall lockoutInvariant
            (snd (@AuthRoutes.login Demo.platform 7 "bob@wawtelecom.com" "nope"
                                    Demo.users)).
Proof.
  assert (Hinv : Forall lockoutInvariant Demo.users).
  { repeat constructor; unfold lockoutInvariant; simpl; intros; try discriminate; lia. }
  split; [exact Hinv |].
  destruct (@X3_handlers_keep_the_lockout_invariant Demo.platform Demo.users Hinv)
    as [H _].
  apply H.
Defined.

Lemma X4_login_of_bob_leaves_carol :
  In Demo.carol
     (snd (@AuthRoutes.login Demo.platform 7 "bob@wawtelecom.com" "nope" Demo.users)).
Proof.
  destruct (@X4_login_changes_only_the_login_state Demo.platform 7
              "bob@wawtelecom.com" "nope" Demo.users demo_users_ids) as [_ H].
  apply H.
  - simpl. tauto.
  - left. reflexivity.
Defined.

Lemma X5_unknown_email_answers_as_wrong_password :
  fst (@AuthRoutes.login Demo.platform 7 "nobody@wawtelecom.com" "x" Demo.users)
  = fst (@AuthRoutes.login Demo.platform 7 "bob@wawtelecom.com" "nope" Demo.users).
Proof.
  destruct (@X5_login_refusals Demo.platform 7 Demo.users) as [H _].
  exact (proj1 (proj2
    (H "nobody@wawtelecom.com" "x" "bob@wawtelecom.com" "nope" Demo.bob
       ltac:(computed) ltac:(computed) ltac:(computed) ltac:(computed)
       ltac:(computed) ltac:(computed) ltac:(computed)))).
Defined.

Lemma X6_email_of_alice_is_taken :
  @AuthRoutes.register Demo.platform 7 "64b0000000000000000000e5"
    (AuthRoutes.mkRegisterBody "Diop" "Awa" "alice@wawtelecom.com" "secret12"
                               None None None None)
    Demo.users
  = (failure 400 "Un utilisateur avec cet email existe déjà", Demo.users).
Proof.
  destruct (@X6_register_appends_one_hashed_user Demo.platform 7
              "64b0000000000000000000e5"
              (AuthRoutes.mkRegisterBody "Diop" "Awa" "alice@wawtelecom.com" "secret12"
                                         None None None None)
              Demo.users) as [_ H].
  apply H.
  - computed.
  - exists Demo.alice. computed.
Defined.

Lemma X7_awa_registers_and_logs_in :
  exists view,
    fst (@AuthRoutes.login Demo.platform 9 "awa@wawtelecom.com" "secret12"
           (snd (@AuthRoutes.register Demo.platform 7 "64b0000000000000000000e5"
                                      Demo.registration Demo.users)))
    = mkResponse 200 true (Some "Connexion réussie")
                 (Auth (@AuthRoutes.generateToken Demo.platform "64b0000000000000000000e5")
                       view)
    /\ v_role view = "admin".
Proof.
  destruct (@X7_register_then_login Demo.platform 7 9 "64b0000000000000000000e5"
              Demo.registration Demo.users
              ltac:(computed) ltac:(computed) ltac:(computed))
    as [view [E [_ [Hr _]]]].
  exists view. split; [exact E | exact Hr].
Defined.

Lemma X8_alice_uses_her_token :
  @Middleware.protect Demo.platform 9 (Demo.header Demo.alice)
    (snd (@AuthRoutes.login Demo.platform 7 "alice@wawtelecom.com" "password123"
                            Demo.users))
  = Next (Demo.me Demo.alice).
Proof.
  exact (proj1 (proj2
    (@X8_token_of_login_opens_the_gate Demo.platform 7 9
       "alice@wawtelecom.com" "password123" Demo.users Demo.alice
       ltac:(computed) ltac:(computed) ltac:(computed) ltac:(computed)
       ltac:(computed) ltac:(computed) ltac:(computed) ltac:(computed)))).
Defined.

Lemma X9_carol_is_unlocked :
  status (fst (@AuthRoutes.login Demo.platform 7 "carol@wawtelecom.com" "password123"
                                 Demo.users)) = 423
  /\ status (fst (@AuthRoutes.login Demo.platform 7 "carol@wawtelecom.com" "password123"
                    (UserModel.save (UserModel.unlockAccount Demo.carol) Demo.users)))
     = 200.
Proof.
  destruct (@X9_unlocked_account_logs_in Demo.platform 7
              "carol@wawtelecom.com" "password123" Demo.users Demo.carol
              ltac:(computed) ltac:(computed) ltac:(computed) ltac:(computed)
              ltac:(computed))
    as [_ [_ [_ [_ [H1 H2]]]]].
  split; [exact H1 | exact H2].
Defined.

Lemma X10_alice_changes_her_password :
  (exists u',
      @AccountRoutes.changePassword Demo.platform (Demo.me Demo.alice)
        "password123" "newsecret" Demo.users
      = (mkResponse 200 true (Some "Mot de passe changé avec succès") NoData,
         UserModel.save u' Demo.users)
      /\ UserModel.password u' = "$2a$12$newsecret")
  /\ @AccountRoutes.changePassword Demo.platform (Demo.me Demo.alice)
       "password12" "newsecret" Demo.users
     = (failure 400 "Mot de passe actuel incorrect", Demo.users).
Proof.
  split.
  - destruct (@X10_change_password Demo.platform (Demo.me Demo.alice)
                "password123" "newsecret" Demo.users Demo.alice
                ltac:(computed) ltac:(computed))
      as [_ H].
    destruct (H ltac:(computed) ltac:(computed) ltac:(discriminate))
      as [u' [E [Hp _]]].
    exists u'. split; [exact E | exact Hp].
  - destruct (@X10_change_password Demo.platform (Demo.me Demo.alice)
                "password12" "newsecret" Demo.users Demo.alice
                ltac:(computed) ltac:(computed))
      as [H _].
    apply H. computed.
Defined.

Lemma X11_alice_logs_in_with_the_new_password :
  status (fst (@AuthRoutes.login Demo.platform 9 "alice@wawtelecom.com" "newsecret"
                 (snd (@AccountRoutes.changePassword Demo.platform (Demo.me Demo.alice)
                         "password123" "newsecret" Demo.users))))
  = 200
  /\ fst (@AuthRoutes.login Demo.platform 9 "alice@wawtelecom.com" "password123"
            (snd (@AccountRoutes.changePassword Demo.platform (Demo.me Demo.alice)
                    "password123" "newsecret" Demo.users)))
     = failure 401 "Identifiants invalides".
Proof.
  exact (@X11_login_after_change_of_password Demo.platform 9 (Demo.me Demo.alice)
           "alice@wawtelecom.com" "password123" "newsecret" Demo.users Demo.alice
           ltac:(computed) ltac:(computed) ltac:(computed) ltac:(computed)
           ltac:(computed) ltac:(computed) ltac:(discriminate) ltac:(computed)
           ltac:(computed) ltac:(computed) ltac:(computed)).
Defined.

Lemma X12_blank_telephone_and_short_name :
  UserModel.telephone
    (@AccountRoutes.applyProfile Sample.platform
       (AccountRoutes.mkProfileBody (Some "Ndiaye") None (Some "   ") None None)
       Demo.alice)
  = UserModel.telephone Demo.alice
  /\ exists errs,
      @AccountRoutes.updateProfile Sample.platform (Demo.me Demo.alice)
        (AccountRoutes.mkProfileBody (Some " N") None None None None) Demo.users
      = (Refused (mkResponse 400 false (Some "Données invalides") (Errors errs)),
         Demo.users).
Proof.
  split.
  - destruct (@X12_profile_update_keeps_the_account Sample.platform (Demo.me Demo.alice)
                (AccountRoutes.mkProfileBody (Some "Ndiaye") None (Some "   ") None None)
                Demo.users) as [_ [H _]].
    apply H. right. exists "   ". split; computed.
  - destruct (@X12_profile_update_keeps_the_account Sample.platform (Demo.me Demo.alice)
                (AccountRoutes.mkProfileBody (Some " N") None None None None)
                Demo.users) as [_ [_ [_ [_ H]]]].
    apply (H " N"); [reflexivity | computed].
Defined.

Lemma X13_alice_reads_her_new_record :
  exists o,
    @PerformanceRoutes.getById Demo.platform (Demo.me Demo.alice)
      "64B0000000000000000000F5" Demo.users
      (snd (@PerformanceRoutes.upsert Demo.platform 600 "64b0000000000000000000f5"
              (Demo.me Demo.alice) (Demo.body 2024 5 40 20) Demo.users Demo.perfs))
    = mkResponse 200 true None
        (PerformanceData
           (PerformanceRoutes.build 600 "64b0000000000000000000f5"
                                    (Demo.me Demo.alice) (Demo.body 2024 5 40 20))
           (Some o))
    /\ @PerformanceRoutes.getById Demo.platform (Demo.me Demo.bob)
         "64B0000000000000000000F5" Demo.users
         (snd (@PerformanceRoutes.upsert Demo.platform 600 "64b0000000000000000000f5"
                 (Demo.me Demo.alice) (Demo.body 2024 5 40 20) Demo.users Demo.perfs))
       = failure 403 "Accès non autorisé".
Proof.
  destruct (PerformanceRoutes.populate Demo.users
              (PerformanceRoutes.build 600 "64b0000000000000000000f5"
                                       (Demo.me Demo.alice) (Demo.body 2024 5 40 20)))
    as [o |] eqn:Eo; [| vm_compute in Eo; discriminate].
  exists o.
  destruct (@X13_created_record_is_read_back Demo.platform 600
              "64b0000000000000000000f5" "64B0000000000000000000F5"
              (Demo.me Demo.alice) (Demo.body 2024 5 40 20)
              Demo.users Demo.perfs o
              ltac:(computed) ltac:(computed) ltac:(computed) ltac:(computed)
              ltac:(computed)
              ltac:(split; simpl; lia) ltac:(computed)
              ltac:(simpl; intros [E | []]; discriminate) Eo) as [H1 H2].
  split; [exact H1 |]. apply H2. discriminate.
Defined.

Lemma X14_alice_deletes_her_january_record :
  fst (@PerformanceRoutes.deleteById Demo.platform (Demo.me Demo.alice)
         "64b0000000000000000001a1" Sample.perfs)
  = mkResponse 200 true (Some "Données supprimées avec succès") NoData
  /\ (List.length (snd (@PerformanceRoutes.deleteById Demo.platform (Demo.me Demo.alice)
                          "64b0000000000000000001a1" Sample.perfs)) + 1
      = List.length Sample.perfs)%nat.
Proof.
  destruct (@X14_owner_deletes_one_record Demo.platform (Demo.me Demo.alice)
              "64b0000000000000000001a1" Demo.users Sample.perfs Sample.a1
              sample_perfs_unique ltac:(computed) ltac:(computed))
    as [H1 [_ [_ [H2 _]]]].
  split; [exact H1 | exact H2].
Defined.

Lemma X15_upsert_of_alice_leaves_the_record_of_bob :
  In Sample.b1
     (snd (@PerformanceRoutes.upsert Demo.platform 600 "64b0000000000000000000f5"
             (Demo.me Demo.alice) (Demo.body 2024 2 40 20) Demo.users Sample.perfs)).
Proof.
  apply (@X15_upsert_touches_one_period Demo.platform 600 "64b0000000000000000000f5"
           (Demo.me Demo.alice) (Demo.body 2024 2 40 20) Demo.users Sample.perfs
           sample_perfs_unique Sample.b1 ltac:(computed)).
  simpl. tauto.
Defined.

Lemma X16_more_sales_than_appointments_is_not_created :
  @PerformanceRoutes.upsert Demo.platform 600 "64b0000000000000000000f5"
    (Demo.me Demo.alice) Demo.badBody Demo.users []
  = (failure 500 "Erreur serveur", []).
Proof.
  destruct (@X16_upsert_refusals_write_nothing Demo.platform 600
              "64b0000000000000000000f5" (Demo.me Demo.alice) Demo.badBody
              Demo.users []) as [_ [_ [H _]]].
  apply H; [computed | computed |].
  unfold consistent. simpl. lia.
Defined.

Lemma X17_draft_of_alice_is_not_counted :
  @PerformanceRoutes.summary Demo.platform 2024 (Demo.me Demo.alice) None None
    Sample.perfs
  = @PerformanceRoutes.summary Demo.platform 2024 (Demo.me Demo.alice) None None
      [Sample.a1; Sample.b1; Sample.a3].
Proof.
  destruct (@X17_summary_ignores_other_records Demo.platform 2024 (Demo.me Demo.alice)
              None None [Sample.a1; Sample.b1; Sample.a3] [] Sample.a2) as [H _].
  rewrite app_nil_r in H. apply H. left. discriminate.
Defined.

Lemma X18_first_page_of_alice :
  exists items pg,
    @PerformanceLists.listForUser Demo.platform (Demo.me Demo.alice)
      (PerformanceLists.mkListQuery None None None (Some 2) None)
      Demo.users Sample.perfs
    = Served None (items, pg)
    /\ (List.length items <= 2)%nat
    /\ PerformanceLists.total pg = 3.
Proof.
  destruct (@PerformanceLists.listForUser Demo.platform (Demo.me Demo.alice)
              (PerformanceLists.mkListQuery None None None (Some 2) None)
              Demo.users Sample.perfs) as [r | msg [items pg]] eqn:E;
    [vm_compute in E; discriminate |].
  pose proof E as E'. vm_compute in E'. injection E' as Em _ Ep.
  subst msg. exists items, pg.
  destruct (@X18_page_of_the_caller Demo.platform (Demo.me Demo.alice)
              (PerformanceLists.mkListQuery None None None (Some 2) None)
              Demo.users Sample.perfs items pg sample_perfs_unique E)
    as [_ [Hl [_ [Ht _]]]].
  split; [reflexivity |]. split.
  - rewrite <- Ep in Hl. exact Hl.
  - rewrite Ht. computed.
Defined.

Lemma X19_two_pages_of_alice :
  (@PerformanceLists.pageOf Demo.platform (Demo.me Demo.alice)
     (PerformanceLists.mkListQuery None None None (Some 2) None)
     Demo.users Sample.perfs 1
   ++ @PerformanceLists.pageOf Demo.platform (Demo.me Demo.alice)
        (PerformanceLists.mkListQuery None None None (Some 2) None)
        Demo.users Sample.perfs 2)%list
  = [Sample.a2; Sample.a1; Sample.a3].
Proof.
  destruct (@X19_pages_partition_the_listing Demo.platform (Demo.me Demo.alice)
              (PerformanceLists.mkListQuery None None None (Some 2) None)
              Demo.users Sample.perfs 2%nat ltac:(computed) ltac:(computed)
              ltac:(vm_compute; lia)) as [H _].
  cbn [flat_map seq Z.of_nat Pos.of_succ_nat Pos.succ] in H.
  rewrite app_nil_r in H. rewrite H. computed.
Defined.

Lemma X20_bob_lists_every_record :
  exists items,
    @PerformanceLists.routeAll Demo.platform 7 (Demo.header Demo.bob)
                               Demo.users Sample.perfs
    = Served None items
    /\ Permutation (map fst items) Sample.perfs.
Proof.
  destruct (@PerformanceLists.routeAll Demo.platform 7 (Demo.header Demo.bob)
                                       Demo.users Sample.perfs)
    as [r | msg items] eqn:E; [vm_compute in E; discriminate |].
  pose proof E as E'. vm_compute in E'. injection E' as Em _.
  subst msg. exists items. split; [reflexivity |].
  exact (proj1 (@X20_listing_of_all_records Demo.platform 7 (Demo.header Demo.bob)
                  Demo.users Sample.perfs items E)).
Defined.

Lemma X21_periods_of_alice :
  PerformanceVirtuals.periodeFormatee Sample.a1 = "Janvier 2024"
  /\ (PerformanceVirtuals.periodeFormatee Sample.a1
      = PerformanceVirtuals.periodeFormatee Sample.a3 -> False).
Proof.
  destruct X21_formatted_period as [H1 [_ H3]].
  split.
  - destruct (H1 Sample.a1) as [name [En E]]; [simpl; lia |].
    rewrite E. simpl in En. injection En as <-. reflexivity.
  - intros E.
    destruct (H3 Sample.a1 Sample.a3 ltac:(computed) ltac:(computed)
                 ltac:(computed) ltac:(computed) E) as [Hy _].
    discriminate Hy.
Defined.

Lemma X22_rates_of_the_march_record :
  exists k,
    JS.to_Z (PerformanceModel.tauxTransformation Demo.perfA) = Some k
    /\ 0 <= k <= 100.
Proof.
  destruct (X22_rates_between_0_and_100 Demo.perfA) as [H _].
  destruct (H ltac:(vm_compute; split; discriminate) ltac:(vm_compute; discriminate))
    as [k [E [Hk _]]].
  exists k. split; [exact E | exact Hk].
Defined.

Lemma X23_unlisted_origin_is_allowed :
  fst (Server.corsOrigin None (Some "https://example.org")) = true
  /\ snd (Server.corsOrigin None (Some "https://example.org")) <> [].
Proof.
  destruct (X23_cors_allows_every_origin None (Some "https://example.org")) as [H1 H2].
  split; [exact H1 |]. apply H2.
  exists "https://example.org". split; [reflexivity |]. split; [discriminate |].
  simpl. intuition discriminate.
Defined.

Lemma X24_short_id_is_a_server_error :
  @PerformanceRoutes.getById Demo.platform (Demo.me Demo.alice) "xyz" Demo.users
                             Demo.perfs
  = failure 500 "Erreur serveur"
  /\ @PerformanceRoutes.deleteById Demo.platform (Demo.me Demo.alice) "xyz" Demo.perfs
     = (failure 500 "Erreur serveur", Demo.perfs).
Proof.
  destruct (@X24_malformed_ids Demo.platform 7 (Demo.me Demo.alice) "xyz"
              Demo.users Demo.perfs ltac:(computed)) as [H1 [H2 _]].
  split; [exact H1 | exact H2].
Defined.
